(** * Sistema de Protocolo de Documentos: audit log, registries, access policy

    A shallow embedding of [protocolo1.py]: the four SQLite tables, the
    classes [LogManager], [DatabaseManager], [AuthManager],
    [SolicitantesCRUD], [ProtocolosCRUD], the function
    [verificar_permissao] and the edit-permission test of
    [gerenciar_protocolos], followed by the properties of the
    specification proved about them.

    Conventions of the embedding.
    - A Python [str] is a [string]: the bytes of its UTF-8 encoding, which
      is also what SQLite keeps in a TEXT column.
    - A DATETIME value (the text [YYYY-MM-DD HH:MM:SS] that
      CURRENT_TIMESTAMP produces) is the number of seconds since the epoch,
      a [Z]; [DATE(t)] is the day number [t / 86400]; a DATE value is a day
      number.  The order of the texts is the order of the numbers.
    - Every method opens its own connection and commits before it calls
      [registrar_log]; a method is a function from the committed database
      to an outcome and the committed database it leaves behind.  An insert
      that raises is never committed.  The one call of [registrar_log]
      made before a commit or a rollback, in the handler of
      [criar_usuario], finds the database locked.
    - The clock is an argument: [agora] is the value of CURRENT_TIMESTAMP
      during the call, [ano] the value of [datetime.now().year]. *)

From Stdlib Require Import ZArith List String Ascii Bool Lia.
From Stdlib Require Import DecimalString DecimalN DecimalZ.
From Stdlib Require Import Sorting.Sorted Sorting.Permutation.
Import ListNotations.

Set Warnings "-register-all".

Local Open Scope string_scope.
Local Open Scope Z_scope.

(** ** Python values *)

(** Keys a dictionary handed to [json.dumps] may have. *)
Inductive pykey : Type :=
| KNone
| KBool (b : bool)
| KInt (z : Z)
| KStr (s : string).

(** The values that travel between SQLite rows, the [detalhes] payloads and
    JSON: [None], [bool], [int], [str], [list] and [dict]. *)
Inductive pyval : Type :=
| PNone
| PBool (b : bool)
| PInt (z : Z)
| PStr (s : string)
| PList (l : list pyval)
| PDict (d : list (pykey * pyval)).

Definition pydict : Type := list (pykey * pyval).

(** Python's [==] on keys: [True == 1] and [False == 0]. *)
Definition key_num (k : pykey) : option Z :=
  match k with
  | KBool b => Some (if b then 1 else 0)
  | KInt z => Some z
  | _ => None
  end.

Definition key_eqb (a b : pykey) : bool :=
  match a, b with
  | KNone, KNone => true
  | KStr s, KStr t => String.eqb s t
  | _, _ =>
      match key_num a, key_num b with
      | Some x, Some y => Z.eqb x y
      | _, _ => false
      end
  end.

Fixpoint dict_get (k : pykey) (d : pydict) : option pyval :=
  match d with
  | [] => None
  | (k', v) :: t => if key_eqb k k' then Some v else dict_get k t
  end.

(** [d[k] = v]: an existing key keeps its place and takes the new value, a
    new key goes last. *)
Fixpoint dict_set (k : pykey) (v : pyval) (d : pydict) : pydict :=
  match d with
  | [] => [(k, v)]
  | (k', v') :: t =>
      if key_eqb k k' then (k', v) :: t else (k', v') :: dict_set k v t
  end.

(** Python's [==] on values; dictionaries compare without regard to
    order. *)
Fixpoint py_eqb (a b : pyval) {struct a} : bool :=
  match a, b with
  | PNone, PNone => true
  | PBool x, PBool y => Bool.eqb x y
  | PBool x, PInt y => Z.eqb (if x then 1 else 0) y
  | PInt x, PBool y => Z.eqb x (if y then 1 else 0)
  | PInt x, PInt y => Z.eqb x y
  | PStr s, PStr t => String.eqb s t
  | PList l1, PList l2 =>
      (fix lista (l1 l2 : list pyval) : bool :=
         match l1, l2 with
         | [], [] => true
         | x :: t1, y :: t2 => py_eqb x y && lista t1 t2
         | _, _ => false
         end) l1 l2
  | PDict d1, PDict d2 =>
      Nat.eqb (List.length d1) (List.length d2)
      && (fix todos (d : pydict) : bool :=
            match d with
            | [] => true
            | (k, v) :: t =>
                match dict_get k d2 with
                | Some w => py_eqb v w
                | None => false
                end && todos t
            end) d1
  | _, _ => false
  end.

(** [x in [a, b, ...]] *)
Definition py_in (x : pyval) (l : list pyval) : bool :=
  existsb (py_eqb x) l.

(** ** Decimal text of integers *)

(** [str(n)] *)
Definition str_int (n : Z) : string :=
  NilZero.string_of_int (Z.to_int n).

Fixpoint zeros (n : nat) : string :=
  match n with
  | O => ""
  | S m => String "0" (zeros m)
  end.

(** Left padding with zeros up to [w] characters. *)
Definition zfill (w : nat) (s : string) : string :=
  zeros (w - String.length s) ++ s.

(** The format [{n:04d}]: the sign first, then zeros, then the digits, at
    least four characters in all. *)
Definition format_04d (n : Z) : string :=
  if n <? 0 then String "-" (zfill 3 (str_int (- n)))
  else zfill 4 (str_int n).

(** ** Exceptions and the database monad *)

Inductive exn : Type :=
| TypeError
| IndexError
| IntegrityError
| OperationalError.

Inductive outcome (A : Type) : Type :=
| Ok (a : A)
| Raise (e : exn).

Arguments Ok {A} a.
Arguments Raise {A} e.

(** [t[i]] on a tuple. *)
Definition tuple_get (t : list pyval) (i : nat) : outcome pyval :=
  match nth_error t i with
  | Some v => Ok v
  | None => Raise IndexError
  end.

(** [r[i]] where [r] is the result of [fetchone()]: subscripting [None]
    raises [TypeError]. *)
Definition row_get (r : option (list pyval)) (i : nat) : outcome pyval :=
  match r with
  | None => Raise TypeError
  | Some t => tuple_get t i
  end.

(** ** The schema *)

Definition py_opt_str (o : option string) : pyval :=
  match o with Some s => PStr s | None => PNone end.

Definition py_opt_int (o : option Z) : pyval :=
  match o with Some z => PInt z | None => PNone end.

(** Table [usuarios]. *)
Record usuario_row : Type := mk_usuario {
  u_id : Z;
  u_usuario : string;
  u_senha : string;
  u_nome : string;
  u_email : option string;
  u_nivel_acesso : string;
  u_ativo : Z;
  u_data_cadastro : Z;
  u_ultimo_login : option Z
}.

(** Table [solicitantes]. *)
Record solicitante_row : Type := mk_solicitante {
  s_id : Z;
  s_nome : string;
  s_email : option string;
  s_telefone : option string;
  s_departamento : option string;
  s_data_cadastro : Z
}.

(** Table [protocolos]. *)
Record protocolo_row : Type := mk_protocolo {
  p_id : Z;
  p_numero_protocolo : string;
  p_titulo : string;
  p_descricao : option string;
  p_tipo_documento : option string;
  p_status : string;
  p_data_protocolo : Z;
  p_data_prazo : option Z;
  p_solicitante_id : option Z;
  p_observacoes : option string;
  p_criado_por : option Z;
  p_data_criacao : Z
}.

(** Table [logs_usuario]. *)
Record log_row : Type := mk_log {
  l_id : Z;
  l_usuario_id : option Z;
  l_acao : string;
  l_tabela_afetada : string;
  l_registro_id : option Z;
  l_detalhes : option string;
  l_ip_address : option string;
  l_user_agent : option string;
  l_timestamp : Z;
  l_status : string
}.

(** [SELECT *]: the columns in the order of CREATE TABLE. *)
Definition tuple_usuario (u : usuario_row) : list pyval :=
  [ PInt (u_id u); PStr (u_usuario u); PStr (u_senha u); PStr (u_nome u);
    py_opt_str (u_email u); PStr (u_nivel_acesso u); PInt (u_ativo u);
    PInt (u_data_cadastro u); py_opt_int (u_ultimo_login u) ].

Definition tuple_solicitante (s : solicitante_row) : list pyval :=
  [ PInt (s_id s); PStr (s_nome s); py_opt_str (s_email s);
    py_opt_str (s_telefone s); py_opt_str (s_departamento s);
    PInt (s_data_cadastro s) ].

Definition tuple_protocolo (p : protocolo_row) : list pyval :=
  [ PInt (p_id p); PStr (p_numero_protocolo p); PStr (p_titulo p);
    py_opt_str (p_descricao p); py_opt_str (p_tipo_documento p);
    PStr (p_status p); PInt (p_data_protocolo p);
    py_opt_int (p_data_prazo p); py_opt_int (p_solicitante_id p);
    py_opt_str (p_observacoes p); py_opt_int (p_criado_por p);
    PInt (p_data_criacao p) ].

(** A table declared with INTEGER PRIMARY KEY AUTOINCREMENT: its rows in
    rowid order and the largest rowid it ever gave out (the entry of
    [sqlite_sequence]). *)
Record tabela (R : Type) : Type := mk_tabela {
  linhas : list R;
  seq : Z
}.

Arguments mk_tabela {R} linhas seq.
Arguments linhas {R} t.
Arguments seq {R} t.

Definition tabela_vazia {R : Type} : tabela R := mk_tabela [] 0.

Record db : Type := mk_db {
  usuarios : tabela usuario_row;
  solicitantes : tabela solicitante_row;
  protocolos : tabela protocolo_row;
  logs_usuario : tabela log_row
}.

Definition db_vazio : db :=
  mk_db tabela_vazia tabela_vazia tabela_vazia tabela_vazia.

(** A method: the committed database in, an outcome and the committed
    database out. *)
Definition M (A : Type) : Type := db -> outcome A * db.

Definition ret {A : Type} (a : A) : M A := fun d => (Ok a, d).

Definition raise {A : Type} (e : exn) : M A := fun d => (Raise e, d).

Definition bind {A B : Type} (m : M A) (f : A -> M B) : M B :=
  fun d =>
    match m d with
    | (Ok a, d') => f a d'
    | (Raise e, d') => (Raise e, d')
    end.

Definition lift {A : Type} (o : outcome A) : M A := fun d => (o, d).

Definition get_db : M db := fun d => (Ok d, d).

Definition put_db (d' : db) : M unit := fun _ => (Ok tt, d').

Notation "x <- m ;; k" := (bind m (fun x => k))
  (at level 61, m at next level, right associativity).
Notation "m ;;; k" := (bind m (fun _ => k))
  (at level 61, right associativity).

(** ** [json.dumps(obj, ensure_ascii=False)]

    The encoder of the standard library with its default separators
    [", "] and [": "].  With [ensure_ascii=False] only the quote, the
    backslash and the control characters below 0x20 are escaped, all of
    them ASCII, so the encoder acts on the UTF-8 bytes as it does on the
    characters. *)

Definition quote : ascii := "034"%char.
Definition backslash : ascii := "\"%char.

Definition hex_digit (n : N) : ascii :=
  if (n <? 10)%N then ascii_of_N (48 + n) else ascii_of_N (87 + n).

(** The replacement of one character: [ESCAPE_DCT] of [json.encoder]. *)
Definition escape_char (c : ascii) : string :=
  let n := N_of_ascii c in
  if Ascii.eqb c quote then String backslash (String quote "")
  else if Ascii.eqb c backslash then String backslash (String backslash "")
  else if (n =? 8)%N then String backslash "b"
  else if (n =? 12)%N then String backslash "f"
  else if (n =? 10)%N then String backslash "n"
  else if (n =? 13)%N then String backslash "r"
  else if (n =? 9)%N then String backslash "t"
  else if (n <? 32)%N then
    String backslash
      (String "u" (String "0" (String "0"
         (String (hex_digit (n / 16)) (String (hex_digit (n mod 16)) "")))))
  else String c "".

Fixpoint escape (s : string) : string :=
  match s with
  | EmptyString => ""
  | String c t => escape_char c ++ escape t
  end.

(** [encode_basestring] *)
Definition encode_basestring (s : string) : string :=
  String quote (escape s ++ String quote "").

(** The text a dictionary key is turned into before it is quoted. *)
Definition key_text (k : pykey) : string :=
  match k with
  | KStr s => s
  | KBool true => "true"
  | KBool false => "false"
  | KNone => "null"
  | KInt z => str_int z
  end.

Fixpoint join (sep : string) (l : list string) : string :=
  match l with
  | [] => ""
  | x :: t =>
      match t with
      | [] => x
      | _ => x ++ sep ++ join sep t
      end
  end.

Fixpoint json_dumps (v : pyval) : string :=
  match v with
  | PNone => "null"
  | PBool true => "true"
  | PBool false => "false"
  | PInt z => str_int z
  | PStr s => encode_basestring s
  | PList l => "[" ++ join ", " (map json_dumps l) ++ "]"
  | PDict d =>
      "{" ++ join ", "
               (map (fun kv => encode_basestring (key_text (fst kv))
                                 ++ ": " ++ json_dumps (snd kv)) d)
          ++ "}"
  end.

(** ** SQL statements on one table *)

Section Tabela.
Context {R : Type} (id : R -> Z).

Definition max_id (l : list R) : Z :=
  fold_right (fun r m => Z.max (id r) m) 0 l.

(** The rowid AUTOINCREMENT gives to the next row: one more than the
    largest rowid that ever existed in the table. *)
Definition proximo_id (t : tabela R) : Z :=
  Z.max (seq t) (max_id (linhas t)) + 1.

(** [INSERT INTO t ...] of the row [r], whose rowid is [k]. *)
Definition inserir (k : Z) (r : R) (t : tabela R) : tabela R :=
  mk_tabela (linhas t ++ [r]) k.

(** [SELECT ... FROM t WHERE id=?] followed by [fetchone()]. *)
Definition selecionar_por_id (k : Z) (t : tabela R) : option R :=
  find (fun r => id r =? k) (linhas t).

(** [UPDATE t SET ... WHERE id=?] *)
Definition atualizar_por_id (k : Z) (f : R -> R) (t : tabela R) : tabela R :=
  mk_tabela (map (fun r => if id r =? k then f r else r) (linhas t)) (seq t).

(** [DELETE FROM t WHERE id=?] *)
Definition deletar_por_id (k : Z) (t : tabela R) : tabela R :=
  mk_tabela (filter (fun r => negb (id r =? k)) (linhas t)) (seq t).

(** [SELECT COUNT( * ) FROM t] *)
Definition contar (t : tabela R) : Z := Z.of_nat (List.length (linhas t)).
End Tabela.

Definition set_usuarios (t : tabela usuario_row) (d : db) : db :=
  mk_db t (solicitantes d) (protocolos d) (logs_usuario d).

Definition set_solicitantes (t : tabela solicitante_row) (d : db) : db :=
  mk_db (usuarios d) t (protocolos d) (logs_usuario d).

Definition set_protocolos (t : tabela protocolo_row) (d : db) : db :=
  mk_db (usuarios d) (solicitantes d) t (logs_usuario d).

Definition set_logs (t : tabela log_row) (d : db) : db :=
  mk_db (usuarios d) (solicitantes d) (protocolos d) t.

(** ** class LogManager: [registrar_log] *)

(** What callers hand over as [detalhes]: nothing, a text, or a
    dictionary. *)
Inductive detalhes_arg : Type :=
| DNone
| DTexto (s : string)
| DDict (d : pydict).

(** [if isinstance(detalhes, dict): detalhes = json.dumps(detalhes,
    ensure_ascii=False)] *)
Definition detalhes_texto (a : detalhes_arg) : option string :=
  match a with
  | DNone => None
  | DTexto s => Some s
  | DDict d => Some (json_dumps (PDict d))
  end.

Definition registrar_log (agora : Z) (usuario_id : option Z)
    (acao tabela_afetada : string) (registro_id : option Z)
    (detalhes : detalhes_arg) (status : string)
    (ip_address user_agent : option string) : M unit :=
  fun d =>
    let t := logs_usuario d in
    let k := proximo_id l_id t in
    let r := mk_log k usuario_id acao tabela_afetada registro_id
                    (detalhes_texto detalhes) ip_address user_agent
                    agora status in
    (Ok tt, set_logs (inserir k r t) d).

(** ** class DatabaseManager: [gerar_numero_protocolo] *)

(** [f"PROT-{ano}-{count + 1:04d}"] with [count] the result of
    [SELECT COUNT( * ) FROM protocolos]. *)
Definition gerar_numero_protocolo (ano : Z) : M string :=
  fun d =>
    let count := contar (protocolos d) in
    (Ok ("PROT-" ++ str_int ano ++ "-" ++ format_04d (count + 1)), d).

(** ** class SolicitantesCRUD *)

Module SolicitantesCRUD.

Definition criar (agora : Z) (nome : string)
    (email telefone departamento : option string)
    (criado_por_id : option Z) : M bool :=
  d <- get_db ;;
  let t := solicitantes d in
  let solicitante_id := proximo_id s_id t in
  put_db (set_solicitantes
            (inserir solicitante_id
               (mk_solicitante solicitante_id nome email telefone
                               departamento agora) t) d) ;;;
  registrar_log agora criado_por_id "CRIAR" "solicitantes"
    (Some solicitante_id)
    (DDict [ (KStr "nome", PStr nome);
             (KStr "email", py_opt_str email);
             (KStr "telefone", py_opt_str telefone);
             (KStr "departamento", py_opt_str departamento) ])
    "sucesso" None None ;;;
  ret true.

Definition buscar_por_id (id : Z) : M (option (list pyval)) :=
  d <- get_db ;;
  ret (option_map tuple_solicitante
         (selecionar_por_id s_id id (solicitantes d))).

Definition atualizar (agora : Z) (id : Z) (nome : string)
    (email telefone departamento : option string)
    (atualizado_por_id : option Z) : M bool :=
  d <- get_db ;;
  let dados_antigos :=
    option_map tuple_solicitante
      (selecionar_por_id s_id id (solicitantes d)) in
  put_db (set_solicitantes
            (atualizar_por_id s_id id
               (fun r => mk_solicitante (s_id r) nome email telefone
                           departamento (s_data_cadastro r))
               (solicitantes d)) d) ;;;
  a_nome <- lift (row_get dados_antigos 1) ;;
  a_email <- lift (row_get dados_antigos 2) ;;
  a_telefone <- lift (row_get dados_antigos 3) ;;
  a_departamento <- lift (row_get dados_antigos 4) ;;
  registrar_log agora atualizado_por_id "ATUALIZAR" "solicitantes"
    (Some id)
    (DDict [ (KStr "campos_alterados",
              PDict [ (KStr "nome",
                       PDict [ (KStr "antes", a_nome);
                               (KStr "depois", PStr nome) ]);
                      (KStr "email",
                       PDict [ (KStr "antes", a_email);
                               (KStr "depois", py_opt_str email) ]);
                      (KStr "telefone",
                       PDict [ (KStr "antes", a_telefone);
                               (KStr "depois", py_opt_str telefone) ]);
                      (KStr "departamento",
                       PDict [ (KStr "antes", a_departamento);
                               (KStr "depois",
                                py_opt_str departamento) ]) ]) ])
    "sucesso" None None ;;;
  ret true.

(** [cursor.fetchone()[0]] comes before the DELETE: a missing id raises
    and leaves the table as it was. *)
Definition deletar (agora : Z) (id : Z) (deletado_por_id : option Z)
    : M bool :=
  d <- get_db ;;
  match selecionar_por_id s_id id (solicitantes d) with
  | None => raise TypeError
  | Some r =>
      let nome_solicitante := s_nome r in
      put_db (set_solicitantes
                (deletar_por_id s_id id (solicitantes d)) d) ;;;
      registrar_log agora deletado_por_id "DELETAR" "solicitantes"
        (Some id)
        (DTexto ("Solicitante deletado: " ++ nome_solicitante))
        "sucesso" None None ;;;
      ret true
  end.

End SolicitantesCRUD.

(** ** class ProtocolosCRUD *)

Module ProtocolosCRUD.

(** The insert raises [IntegrityError] when [numero_protocolo], declared
    UNIQUE, is already in the table; nothing is committed then. *)
Definition criar (ano agora : Z) (titulo : string)
    (descricao tipo_documento : option string) (data_protocolo : Z)
    (data_prazo solicitante_id : option Z) (observacoes : option string)
    (criado_por : option Z) : M string :=
  numero_protocolo <- gerar_numero_protocolo ano ;;
  d <- get_db ;;
  let t := protocolos d in
  if existsb (fun r => String.eqb (p_numero_protocolo r) numero_protocolo)
             (linhas t)
  then raise IntegrityError
  else
    let protocolo_id := proximo_id p_id t in
    put_db (set_protocolos
              (inserir protocolo_id
                 (mk_protocolo protocolo_id numero_protocolo titulo
                    descricao tipo_documento "Pendente" data_protocolo
                    data_prazo solicitante_id observacoes criado_por
                    agora) t) d) ;;;
    registrar_log agora criado_por "CRIAR" "protocolos"
      (Some protocolo_id)
      (DDict [ (KStr "numero_protocolo", PStr numero_protocolo);
               (KStr "titulo", PStr titulo);
               (KStr "tipo_documento", py_opt_str tipo_documento);
               (KStr "solicitante_id", py_opt_int solicitante_id) ])
      "sucesso" None None ;;;
    ret numero_protocolo.

Definition buscar_por_id (id : Z) : M (option (list pyval)) :=
  d <- get_db ;;
  ret (option_map tuple_protocolo
         (selecionar_por_id p_id id (protocolos d))).

(** The UPDATE names eight columns; [numero_protocolo], [criado_por] and
    [data_criacao] are not among them. *)
Definition atualizar (agora : Z) (id : Z) (titulo : string)
    (descricao tipo_documento : option string) (status : string)
    (data_protocolo : Z) (data_prazo solicitante_id : option Z)
    (observacoes : option string) (atualizado_por_id : option Z)
    : M bool :=
  d <- get_db ;;
  let dados_antigos :=
    option_map tuple_protocolo
      (selecionar_por_id p_id id (protocolos d)) in
  put_db (set_protocolos
            (atualizar_por_id p_id id
               (fun r => mk_protocolo (p_id r) (p_numero_protocolo r)
                           titulo descricao tipo_documento status
                           data_protocolo data_prazo solicitante_id
                           observacoes (p_criado_por r)
                           (p_data_criacao r))
               (protocolos d)) d) ;;;
  a_numero <- lift (row_get dados_antigos 1) ;;
  a_titulo <- lift (row_get dados_antigos 2) ;;
  a_status <- lift (row_get dados_antigos 5) ;;
  a_tipo <- lift (row_get dados_antigos 4) ;;
  registrar_log agora atualizado_por_id "ATUALIZAR" "protocolos"
    (Some id)
    (DDict [ (KStr "numero_protocolo", a_numero);
             (KStr "campos_alterados",
              PDict [ (KStr "titulo",
                       PDict [ (KStr "antes", a_titulo);
                               (KStr "depois", PStr titulo) ]);
                      (KStr "status",
                       PDict [ (KStr "antes", a_status);
                               (KStr "depois", PStr status) ]);
                      (KStr "tipo_documento",
                       PDict [ (KStr "antes", a_tipo);
                               (KStr "depois",
                                py_opt_str tipo_documento) ]) ]) ])
    "sucesso" None None ;;;
  ret true.

(** The DELETE is committed before [dados_protocolo[0]] is read. *)
Definition deletar (agora : Z) (id : Z) (deletado_por_id : option Z)
    : M bool :=
  d <- get_db ;;
  let dados_protocolo :=
    option_map (fun r => [PStr (p_numero_protocolo r); PStr (p_titulo r)])
      (selecionar_por_id p_id id (protocolos d)) in
  put_db (set_protocolos (deletar_por_id p_id id (protocolos d)) d) ;;;
  d_numero <- lift (row_get dados_protocolo 0) ;;
  d_titulo <- lift (row_get dados_protocolo 1) ;;
  registrar_log agora deletado_por_id "DELETAR" "protocolos" (Some id)
    (DDict [ (KStr "numero_protocolo", d_numero);
             (KStr "titulo", d_titulo) ])
    "sucesso" None None ;;;
  ret true.

End ProtocolosCRUD.

(** ** class AuthManager *)

Section Auth.
(** [hashlib.sha256(senha.encode()).hexdigest()] *)
Variable hash_senha : string -> string.

(** The row [SELECT id, usuario, nome, nivel_acesso, ativo] returns. *)
Definition tuple_login (u : usuario_row) : list pyval :=
  [ PInt (u_id u); PStr (u_usuario u); PStr (u_nome u);
    PStr (u_nivel_acesso u); PInt (u_ativo u) ].

(** [WHERE usuario = ? AND senha = ? AND ativo = 1] *)
Definition credencial_ok (usuario senha_hash : string) (u : usuario_row)
    : bool :=
  String.eqb (u_usuario u) usuario
  && String.eqb (u_senha u) senha_hash
  && (u_ativo u =? 1).

Definition login (agora : Z) (usuario senha : string)
    : M (option (list pyval)) :=
  d <- get_db ;;
  let senha_hash := hash_senha senha in
  match find (credencial_ok usuario senha_hash) (linhas (usuarios d)) with
  | Some u =>
      put_db (set_usuarios
                (atualizar_por_id u_id (u_id u)
                   (fun r => mk_usuario (u_id r) (u_usuario r) (u_senha r)
                               (u_nome r) (u_email r) (u_nivel_acesso r)
                               (u_ativo r) (u_data_cadastro r)
                               (Some agora))
                   (usuarios d)) d) ;;;
      registrar_log agora (Some (u_id u)) "LOGIN" "usuarios"
        (Some (u_id u))
        (DTexto ("Login realizado com sucesso para usuário: "
                 ++ u_usuario u))
        "sucesso" None None ;;;
      ret (Some (tuple_login u))
  | None =>
      registrar_log agora None "LOGIN_FALHOU" "usuarios" None
        (DTexto ("Tentativa de login falhada para usuário: " ++ usuario))
        "erro" None None ;;;
      ret None
  end.

(** The insert raises [IntegrityError] when the login, declared UNIQUE,
    exists.  The handler then calls [registrar_log], which opens a
    connection of its own while the connection of [criar_usuario] still
    holds the write lock of the transaction its INSERT began: the write
    of the log entry waits for the lock in vain and raises
    [OperationalError] (database is locked).  Nothing is logged, the open
    transaction is never committed, and [return False] is not reached. *)
Definition criar_usuario (agora : Z) (usuario senha nome : string)
    (email : option string) (nivel_acesso : string)
    (criado_por_id : option Z) : M bool :=
  d <- get_db ;;
  let senha_hash := hash_senha senha in
  let t := usuarios d in
  if existsb (fun r => String.eqb (u_usuario r) usuario) (linhas t)
  then raise OperationalError
  else
    let novo_usuario_id := proximo_id u_id t in
    put_db (set_usuarios
              (inserir novo_usuario_id
                 (mk_usuario novo_usuario_id usuario senha_hash nome
                    email nivel_acesso 1 agora None) t) d) ;;;
    registrar_log agora criado_por_id "CRIAR" "usuarios"
      (Some novo_usuario_id)
      (DDict [ (KStr "usuario_criado", PStr usuario);
               (KStr "nome", PStr nome);
               (KStr "email", py_opt_str email);
               (KStr "nivel_acesso", PStr nivel_acesso) ])
      "sucesso" None None ;;;
    ret true.

Definition atualizar_usuario (agora : Z) (id : Z) (nome : string)
    (email : option string) (nivel_acesso : string) (ativo : bool)
    (atualizado_por_id : option Z) : M bool :=
  d <- get_db ;;
  let dados_antigos :=
    option_map tuple_usuario (selecionar_por_id u_id id (usuarios d)) in
  put_db (set_usuarios
            (atualizar_por_id u_id id
               (fun r => mk_usuario (u_id r) (u_usuario r) (u_senha r)
                           nome email nivel_acesso
                           (if ativo then 1 else 0)
                           (u_data_cadastro r) (u_ultimo_login r))
               (usuarios d)) d) ;;;
  a_nome <- lift (row_get dados_antigos 3) ;;
  a_email <- lift (row_get dados_antigos 4) ;;
  a_nivel <- lift (row_get dados_antigos 5) ;;
  a_ativo <- lift (row_get dados_antigos 6) ;;
  registrar_log agora atualizado_por_id "ATUALIZAR" "usuarios" (Some id)
    (DDict [ (KStr "campos_alterados",
              PDict [ (KStr "nome",
                       PDict [ (KStr "antes", a_nome);
                               (KStr "depois", PStr nome) ]);
                      (KStr "email",
                       PDict [ (KStr "antes", a_email);
                               (KStr "depois", py_opt_str email) ]);
                      (KStr "nivel_acesso",
                       PDict [ (KStr "antes", a_nivel);
                               (KStr "depois", PStr nivel_acesso) ]);
                      (KStr "ativo",
                       PDict [ (KStr "antes", a_ativo);
                               (KStr "depois", PBool ativo) ]) ]) ])
    "sucesso" None None ;;;
  ret true.

Definition alterar_senha (agora : Z) (id : Z) (nova_senha : string)
    (alterado_por_id : option Z) : M bool :=
  d <- get_db ;;
  let senha_hash := hash_senha nova_senha in
  put_db (set_usuarios
            (atualizar_por_id u_id id
               (fun r => mk_usuario (u_id r) (u_usuario r) senha_hash
                           (u_nome r) (u_email r) (u_nivel_acesso r)
                           (u_ativo r) (u_data_cadastro r)
                           (u_ultimo_login r))
               (usuarios d)) d) ;;;
  registrar_log agora alterado_por_id "ALTERAR_SENHA" "usuarios" (Some id)
    (DTexto ("Senha alterada para usuário ID: " ++ str_int id))
    "sucesso" None None ;;;
  ret true.

(** The DELETE is committed before [dados_usuario[0]] is read. *)
Definition deletar_usuario (agora : Z) (id : Z)
    (deletado_por_id : option Z) : M bool :=
  d <- get_db ;;
  let dados_usuario :=
    option_map (fun r => [PStr (u_usuario r); PStr (u_nome r)])
      (selecionar_por_id u_id id (usuarios d)) in
  put_db (set_usuarios (deletar_por_id u_id id (usuarios d)) d) ;;;
  d_usuario <- lift (row_get dados_usuario 0) ;;
  d_nome <- lift (row_get dados_usuario 1) ;;
  registrar_log agora deletado_por_id "DELETAR" "usuarios" (Some id)
    (DDict [ (KStr "usuario_deletado", d_usuario);
             (KStr "nome_deletado", d_nome) ])
    "sucesso" None None ;;;
  ret true.

(** [init_database]: the four CREATE TABLE IF NOT EXISTS leave existing
    tables alone; the default administrator is inserted when no row has
    [nivel_acesso = 'admin']. *)
Definition init_database (agora : Z) : M unit :=
  d <- get_db ;;
  let t := usuarios d in
  if existsb (fun r => String.eqb (u_nivel_acesso r) "admin") (linhas t)
  then ret tt
  else if existsb (fun r => String.eqb (u_usuario r) "admin") (linhas t)
  then raise IntegrityError
  else
    let k := proximo_id u_id t in
    put_db (set_usuarios
              (inserir k
                 (mk_usuario k "admin" (hash_senha "admin123")
                    "Administrador" None "admin" 1 agora None) t) d).
End Auth.

(** ** ORDER BY, GROUP BY and LIMIT *)

Section Consultas.
Context {A : Type}.

(** Insertion into a list ordered by [le], after the elements that are
    [le] it: rows that tie keep the order they came in. *)
Fixpoint inserir_ordenado (le : A -> A -> bool) (x : A) (l : list A)
    : list A :=
  match l with
  | [] => [x]
  | y :: t => if le y x then y :: inserir_ordenado le x t else x :: y :: t
  end.

(** [ORDER BY]: SQL leaves the order of ties open; here they keep their
    order.  No property below depends on the order of ties. *)
Definition ordenar (le : A -> A -> bool) (l : list A) : list A :=
  fold_left (fun acc x => inserir_ordenado le x acc) l [].

(** [LIMIT n]: a negative [n] is no limit. *)
Definition limitar (n : Z) (l : list A) : list A :=
  if n <? 0 then l else firstn (Z.to_nat n) l.

Context (eq_dec : forall x y : A, {x = y} + {x <> y}).

Fixpoint contar_chave (k : A) (g : list (A * Z)) : list (A * Z) :=
  match g with
  | [] => [(k, 1)]
  | (k', n) :: t =>
      if eq_dec k k' then (k', n + 1) :: t else (k', n) :: contar_chave k t
  end.

(** [SELECT k, COUNT( * ) ... GROUP BY k]: one row for each distinct
    key, with the number of rows that have it. *)
Definition agrupar (l : list A) : list (A * Z) :=
  fold_left (fun g k => contar_chave k g) l [].
End Consultas.

(** [DATE(t)] *)
Definition DATE (t : Z) : Z := t / 86400.

(** [datetime('now', '-30 days')] *)
Definition trinta_dias_atras (agora : Z) : Z := agora - 30 * 86400.

Definition opt_eqb {A : Type} (eqb : A -> A -> bool) (a b : option A)
    : bool :=
  match a, b with
  | Some x, Some y => eqb x y
  | _, _ => false
  end.

(** [LEFT JOIN usuarios u ON x = u.id], column [u.nome]: [id] is the
    primary key, at most one row joins; NULL joins nothing. *)
Definition nome_usuario (d : db) (x : option Z) : option string :=
  match x with
  | None => None
  | Some k => option_map u_nome (selecionar_por_id u_id k (usuarios d))
  end.

(** ** class LogManager: [buscar_logs] and [estatisticas_logs] *)

(** The WHERE clause [buscar_logs] assembles: a filter that is [None] or
    falsy ([0], the empty text) adds no condition; a comparison with a
    NULL column is not true. *)
Definition filtro_logs (filtro_usuario : option Z)
    (filtro_tabela filtro_acao : option string)
    (data_inicio data_fim : option Z) (l : log_row) : bool :=
  match filtro_usuario with
  | Some u => if u =? 0 then true else opt_eqb Z.eqb (l_usuario_id l) (Some u)
  | None => true
  end
  && match filtro_tabela with
     | Some t =>
         if String.eqb t "" then true else String.eqb (l_tabela_afetada l) t
     | None => true
     end
  && match filtro_acao with
     | Some a => if String.eqb a "" then true else String.eqb (l_acao l) a
     | None => true
     end
  && match data_inicio with
     | Some i => i <=? DATE (l_timestamp l)
     | None => true
     end
  && match data_fim with
     | Some f => DATE (l_timestamp l) <=? f
     | None => true
     end.

(** The rows are [l.*] with [usuario_nome], newest first. *)
Definition buscar_logs (filtro_usuario : option Z)
    (filtro_tabela filtro_acao : option string)
    (data_inicio data_fim : option Z) (limite : Z)
    : M (list (log_row * option string)) :=
  d <- get_db ;;
  let sel :=
    filter (filtro_logs filtro_usuario filtro_tabela filtro_acao
                        data_inicio data_fim)
           (linhas (logs_usuario d)) in
  let ord := ordenar (fun a b => l_timestamp b <=? l_timestamp a) sel in
  ret (map (fun l => (l, nome_usuario d (l_usuario_id l)))
           (limitar limite ord)).

Definition string_opt_dec (a b : option string) : {a = b} + {a <> b}.
Proof. decide equality. apply string_dec. Defined.

Definition Z_opt_dec (a b : option Z) : {a = b} + {a <> b}.
Proof. decide equality. apply Z.eq_dec. Defined.

Definition ator_dec (a b : option Z * option string) : {a = b} + {a <> b}.
Proof. decide equality; [apply string_opt_dec | apply Z_opt_dec]. Defined.

(** [GROUP BY acao ORDER BY total DESC] *)
Definition estat_acoes (d : db) : list (string * Z) :=
  ordenar (fun a b => snd b <=? snd a)
    (agrupar string_dec (map l_acao (linhas (logs_usuario d)))).

(** [SELECT u.nome, COUNT( * ) ... GROUP BY l.usuario_id, u.nome
    ORDER BY total_acoes DESC]: the groups are by actor id and name, the
    result shows the name and the total. *)
Definition estat_usuarios (d : db) : list (option string * Z) :=
  map (fun g => (snd (fst g), snd g))
    (ordenar (fun a b => snd b <=? snd a)
       (agrupar ator_dec
          (map (fun l => (l_usuario_id l, nome_usuario d (l_usuario_id l)))
               (linhas (logs_usuario d))))).

(** [WHERE timestamp >= datetime('now', '-30 days')
    GROUP BY DATE(timestamp) ORDER BY data] *)
Definition estat_diario (agora : Z) (d : db) : list (Z * Z) :=
  ordenar (fun a b => fst a <=? fst b)
    (agrupar Z.eq_dec
       (map (fun l => DATE (l_timestamp l))
            (filter (fun l => trinta_dias_atras agora <=? l_timestamp l)
                    (linhas (logs_usuario d))))).

Definition estatisticas_logs (agora : Z)
    : M (list (string * Z) * list (option string * Z) * list (Z * Z)) :=
  d <- get_db ;;
  ret (estat_acoes d, estat_usuarios d, estat_diario agora d).

(** ** [ProtocolosCRUD.listar] *)

(** A row of the DataFrame: the column names with their values. *)
Definition series : Type := list (string * pyval).

(** [p.*, s.nome as solicitante_nome, u.nome as criado_por_nome] *)
Definition series_protocolo (d : db) (p : protocolo_row) : series :=
  List.app
    (combine
       [ "id"; "numero_protocolo"; "titulo"; "descricao"; "tipo_documento";
         "status"; "data_protocolo"; "data_prazo"; "solicitante_id";
         "observacoes"; "criado_por"; "data_criacao" ]
       (tuple_protocolo p))
     [ ("solicitante_nome",
        py_opt_str
          match p_solicitante_id p with
          | None => None
          | Some k =>
              option_map s_nome (selecionar_por_id s_id k (solicitantes d))
          end);
       ("criado_por_nome", py_opt_str (nome_usuario d (p_criado_por p))) ].

Definition listar (usuario_id : option Z) (nivel_acesso : string)
    : M (list series) :=
  d <- get_db ;;
  let sel :=
    if String.eqb nivel_acesso "admin" then linhas (protocolos d)
    else filter (fun p => opt_eqb Z.eqb (p_criado_por p) usuario_id)
                (linhas (protocolos d)) in
  ret (map (series_protocolo d)
         (ordenar (fun a b => String.leb (p_numero_protocolo b)
                                         (p_numero_protocolo a)) sel)).

(** ** Access policy *)

(** [verificar_permissao]; [session] is [st.session_state.user_data] when
    the key is there. *)
Definition verificar_permissao (session : option (list pyval))
    (nivel_requerido : string) : outcome bool :=
  match session with
  | None => Ok false
  | Some user_data =>
      match tuple_get user_data 3 with
      | Raise e => Raise e
      | Ok user_level =>
          if String.eqb nivel_requerido "admin"
          then Ok (py_eqb user_level (PStr "admin"))
          else if String.eqb nivel_requerido "usuario"
          then Ok (py_in user_level [PStr "admin"; PStr "usuario"])
          else Ok false
      end
  end.

(** The test of the edit form in [gerenciar_protocolos]:
    [protocolo_data] is the tuple of [buscar_por_id]. *)
Definition pode_editar_form (user_data protocolo_data : list pyval)
    : outcome bool :=
  match tuple_get user_data 3 with
  | Raise e => Raise e
  | Ok nivel =>
      let is_admin := py_eqb nivel (PStr "admin") in
      match tuple_get user_data 0 with
      | Raise e => Raise e
      | Ok current_user_id =>
          let protocolo_criado_por :=
            if (10 <? List.length protocolo_data)%nat
            then nth 10 protocolo_data PNone
            else if (9 <? List.length protocolo_data)%nat
            then nth 9 protocolo_data PNone
            else PNone in
          Ok (is_admin || py_eqb protocolo_criado_por current_user_id)
      end
  end.

Definition series_get (k : string) (s : series) : option pyval :=
  option_map snd (find (fun kv => String.eqb (fst kv) k) s).

(** The test of the protocol list in [gerenciar_protocolos]:
    [protocolo] is a row of [listar()]. *)
Definition pode_editar_lista (user_data : list pyval) (protocolo : series)
    : outcome bool :=
  match tuple_get user_data 3 with
  | Raise e => Raise e
  | Ok nivel =>
      let is_admin := py_eqb nivel (PStr "admin") in
      match tuple_get user_data 0 with
      | Raise e => Raise e
      | Ok current_user_id =>
          let protocolo_criado_por_id :=
            match series_get "criado_por_id" protocolo with
            | Some v => v
            | None =>
                match series_get "criado_por" protocolo with
                | Some v => v
                | None =>
                    match series_get "user_id" protocolo with
                    | Some v => v
                    | None => PNone
                    end
                end
            end in
          Ok (is_admin || py_eqb protocolo_criado_por_id current_user_id)
      end
  end.

(** ** [json.loads]

    The decoder of the standard library ([json.decoder], [json.scanner])
    on the UTF-8 bytes of the text.  [None] stands for [JSONDecodeError]
    and for the results that have no counterpart here: a number with a
    fraction or an exponent ([float]) and a string with an unpaired
    surrogate (a [str] without UTF-8 encoding). *)

Definition is_ws (c : ascii) : bool :=
  let n := N_of_ascii c in
  ((n =? 32) || (n =? 9) || (n =? 10) || (n =? 13))%N.

Fixpoint skip_ws (s : string) : string :=
  match s with
  | EmptyString => s
  | String c t => if is_ws c then skip_ws t else s
  end.

Definition is_digit (c : ascii) : bool :=
  let n := N_of_ascii c in ((48 <=? n) && (n <=? 57))%N.

Definition hex_val (c : ascii) : option N :=
  let n := N_of_ascii c in
  if ((48 <=? n) && (n <=? 57))%N then Some (n - 48)%N
  else if ((97 <=? n) && (n <=? 102))%N then Some (n - 87)%N
  else if ((65 <=? n) && (n <=? 70))%N then Some (n - 55)%N
  else None.

Definition hex4 (a b c d : ascii) : option N :=
  match hex_val a, hex_val b, hex_val c, hex_val d with
  | Some x, Some y, Some z, Some w =>
      Some (((x * 16 + y) * 16 + z) * 16 + w)%N
  | _, _, _, _ => None
  end.

(** The UTF-8 bytes of a code point. *)
Definition utf8 (cp : N) : string :=
  (if cp <? 128 then String (ascii_of_N cp) ""
   else if cp <? 2048 then
     String (ascii_of_N (192 + cp / 64))
       (String (ascii_of_N (128 + cp mod 64)) "")
   else if cp <? 65536 then
     String (ascii_of_N (224 + cp / 4096))
       (String (ascii_of_N (128 + (cp / 64) mod 64))
          (String (ascii_of_N (128 + cp mod 64)) ""))
   else
     String (ascii_of_N (240 + cp / 262144))
       (String (ascii_of_N (128 + (cp / 4096) mod 64))
          (String (ascii_of_N (128 + (cp / 64) mod 64))
             (String (ascii_of_N (128 + cp mod 64)) ""))))%N.

(** [BACKSLASH] of [json.decoder]: the one-letter escapes. *)
Definition unescape (e : ascii) : option ascii :=
  let n := N_of_ascii e in
  (if Ascii.eqb e quote then Some quote
   else if Ascii.eqb e backslash then Some backslash
   else if n =? 47 then Some e
   else if n =? 98 then Some (ascii_of_N 8)
   else if n =? 102 then Some (ascii_of_N 12)
   else if n =? 110 then Some (ascii_of_N 10)
   else if n =? 114 then Some (ascii_of_N 13)
   else if n =? 116 then Some (ascii_of_N 9)
   else None)%N.

Definition prepend (u : string) (r : option (string * string))
    : option (string * string) :=
  match r with
  | Some (x, rest) => Some (u ++ x, rest)
  | None => None
  end.

(** [scanstring] in strict mode, from the character after the opening
    quote: the decoded text and what follows the closing quote. *)
Fixpoint scanstring (s : string) : option (string * string) :=
  match s with
  | EmptyString => None
  | String c t =>
      if Ascii.eqb c quote then Some ("", t)
      else if Ascii.eqb c backslash then
        match t with
        | EmptyString => None
        | String e t1 =>
            if Ascii.eqb e "u" then
              match t1 with
              | String h1 (String h2 (String h3 (String h4 t2))) =>
                  match hex4 h1 h2 h3 h4 with
                  | None => None
                  | Some cp =>
                      if ((55296 <=? cp) && (cp <=? 56319))%N then
                        match t2 with
                        | String b (String u (String k1 (String k2
                            (String k3 (String k4 t3))))) =>
                            if Ascii.eqb b backslash && Ascii.eqb u "u" then
                              match hex4 k1 k2 k3 k4 with
                              | Some lo =>
                                  if ((56320 <=? lo) && (lo <=? 57343))%N
                                  then
                                    prepend
                                      (utf8 (65536 + (cp - 55296) * 1024
                                             + (lo - 56320))%N)
                                      (scanstring t3)
                                  else None
                              | None => None
                              end
                            else None
                        | _ => None
                        end
                      else if ((56320 <=? cp) && (cp <=? 57343))%N then None
                      else prepend (utf8 cp) (scanstring t2)
                  end
              | _ => None
              end
            else
              match unescape e with
              | Some c' => prepend (String c' "") (scanstring t1)
              | None => None
              end
        end
      else if (N_of_ascii c <? 32)%N then None
      else prepend (String c "") (scanstring t)
  end.

(** The longest prefix of decimal digits, and the rest. *)
Fixpoint span_digits (s : string) : string * string :=
  match s with
  | EmptyString => ("", s)
  | String c t =>
      if is_digit c
      then let (ds, r) := span_digits t in (String c ds, r)
      else ("", s)
  end.

Definition starts_with_digit (s : string) : bool :=
  match s with
  | String c _ => is_digit c
  | EmptyString => false
  end.

(** What [NUMBER_RE] would take after the integer part: [.] and a
    digit, or [e] or [E], an optional sign and a digit. *)
Definition float_tail (r : string) : bool :=
  match r with
  | String c t =>
      if Ascii.eqb c "." then starts_with_digit t
      else if Ascii.eqb c "e" || Ascii.eqb c "E" then
        match t with
        | String g t' =>
            if Ascii.eqb g "+" || Ascii.eqb g "-" then starts_with_digit t'
            else is_digit g
        | EmptyString => false
        end
      else false
  | EmptyString => false
  end.

(** [NUMBER_RE]: an optional minus, then [0] or a digit from 1 to 9 and
    further digits. *)
Definition scan_number (s : string) : option (pyval * string) :=
  let (neg, s1) :=
    match s with
    | String c t => if Ascii.eqb c "-" then (true, t) else (false, s)
    | EmptyString => (false, s)
    end in
  match s1 with
  | EmptyString => None
  | String c t =>
      if is_digit c then
        let (ds, r) :=
          if Ascii.eqb c "0" then ("0", t) else span_digits s1 in
        if float_tail r then None
        else
          match NilEmpty.uint_of_string ds with
          | Some d =>
              Some (PInt (if neg then - Z.of_uint d else Z.of_uint d), r)
          | None => None
          end
      else None
  end.

Fixpoint strip_prefix (p s : string) : option string :=
  match p with
  | EmptyString => Some s
  | String a p' =>
      match s with
      | String b s' => if Ascii.eqb a b then strip_prefix p' s' else None
      | EmptyString => None
      end
  end.

(** [dict(pairs)] *)
Definition dict_of_pairs (ps : list (string * pyval)) : pydict :=
  fold_left (fun d kv => dict_set (KStr (fst kv)) (snd kv) d) ps [].

(** [scan_once], [JSONArray] and [JSONObject].  The two loops are written
    as recursions; [n] bounds the number of calls, each of which reads at
    least one character. *)
Fixpoint scan_once (n : nat) (s : string) {struct n}
    : option (pyval * string) :=
  match n with
  | O => None
  | S n' =>
      match s with
      | EmptyString => None
      | String c t =>
          if Ascii.eqb c quote then
            match scanstring t with
            | Some (x, r) => Some (PStr x, r)
            | None => None
            end
          else if Ascii.eqb c "{" then
            match skip_ws t with
            | EmptyString => None
            | String c' r =>
                if Ascii.eqb c' "}" then Some (PDict [], r)
                else
                  match scan_members n' (String c' r) with
                  | Some (ps, r') => Some (PDict (dict_of_pairs ps), r')
                  | None => None
                  end
            end
          else if Ascii.eqb c "[" then
            match skip_ws t with
            | EmptyString => None
            | String c' r =>
                if Ascii.eqb c' "]" then Some (PList [], r)
                else
                  match scan_elems n' (String c' r) with
                  | Some (l, r') => Some (PList l, r')
                  | None => None
                  end
            end
          else
            match strip_prefix "null" s with
            | Some r => Some (PNone, r)
            | None =>
                match strip_prefix "true" s with
                | Some r => Some (PBool true, r)
                | None =>
                    match strip_prefix "false" s with
                    | Some r => Some (PBool false, r)
                    | None => scan_number s
                    end
                end
            end
      end
  end
with scan_elems (n : nat) (s : string) {struct n}
    : option (list pyval * string) :=
  match n with
  | O => None
  | S n' =>
      match scan_once n' s with
      | None => None
      | Some (v, r) =>
          match skip_ws r with
          | EmptyString => None
          | String c r' =>
              if Ascii.eqb c "," then
                match scan_elems n' (skip_ws r') with
                | Some (l, r'') => Some (v :: l, r'')
                | None => None
                end
              else if Ascii.eqb c "]" then Some ([v], r')
              else None
          end
      end
  end
with scan_members (n : nat) (s : string) {struct n}
    : option (list (string * pyval) * string) :=
  match n with
  | O => None
  | S n' =>
      match s with
      | EmptyString => None
      | String c t =>
          if Ascii.eqb c quote then
            match scanstring t with
            | None => None
            | Some (k, r) =>
                match skip_ws r with
                | EmptyString => None
                | String c1 r1 =>
                    if Ascii.eqb c1 ":" then
                      match scan_once n' (skip_ws r1) with
                      | None => None
                      | Some (v, r2) =>
                          match skip_ws r2 with
                          | EmptyString => None
                          | String c2 r3 =>
                              if Ascii.eqb c2 "," then
                                match scan_members n' (skip_ws r3) with
                                | Some (ps, r4) => Some ((k, v) :: ps, r4)
                                | None => None
                                end
                              else if Ascii.eqb c2 "}"
                              then Some ([(k, v)], r3)
                              else None
                          end
                      end
                    else None
                end
            end
          else None
      end
  end.

(** [json.loads]: one value between optional white space, nothing
    after. *)
Definition json_loads (s : string) : option pyval :=
  match scan_once (S (String.length s)) (skip_ws s) with
  | Some (v, r) =>
      match skip_ws r with
      | EmptyString => Some v
      | String _ _ => None
      end
  | None => None
  end.

(** ** Dictionaries as Python has them *)

(** No two keys of a dictionary are equal, at any depth. *)
Fixpoint py_wf (v : pyval) : bool :=
  match v with
  | PList l => forallb py_wf l
  | PDict d =>
      (fix chaves (d : pydict) : bool :=
         match d with
         | [] => true
         | (k, x) :: t =>
             negb (existsb (fun kv => key_eqb k (fst kv)) t)
             && py_wf x && chaves t
         end) d
  | _ => true
  end.

Definition is_str_key (k : pykey) : bool :=
  match k with
  | KStr _ => true
  | _ => false
  end.

(** Every key of every dictionary is a [str], at any depth. *)
Fixpoint str_keys (v : pyval) : bool :=
  match v with
  | PList l => forallb str_keys l
  | PDict d => forallb (fun kv => is_str_key (fst kv) && str_keys (snd kv)) d
  | _ => true
  end.

(** ** What an operation leaves in the audit log *)

(** The log of [d'] is the log of [d] with one entry more, which names
    the table [tabela] and the record [k]. *)
Definition um_log (d d' : db) (tabela : string) (k : Z) : Prop :=
  exists e : log_row,
    linhas (logs_usuario d') = (linhas (logs_usuario d) ++ [e])%list
    /\ l_tabela_afetada e = tabela
    /\ l_registro_id e = Some k.

(** The log of [d'] is the log of [d] with one entry more, the record of
    a failed login. *)
Definition um_log_falha (d d' : db) : Prop :=
  exists e : log_row,
    linhas (logs_usuario d') = (linhas (logs_usuario d) ++ [e])%list
    /\ l_acao e = "LOGIN_FALHOU"
    /\ l_usuario_id e = None
    /\ l_status e = "erro".

(** ** What an operation does to a registry *)

Section Registro.
Context {R : Type} (id : R -> Z).

(** [t'] is [t] with one new row, whose id is [k]. *)
Definition criou (t t' : tabela R) (k : Z) : Prop :=
  exists r : R, linhas t' = (linhas t ++ [r])%list /\ id r = k.

(** The row with id [k] was in [t] when the UPDATE ran, and [t'] has
    the same ids in the same order. *)
Definition atualizou (t t' : tabela R) (k : Z) : Prop :=
  (exists r : R, selecionar_por_id id k t = Some r)
  /\ map id (linhas t') = map id (linhas t).

(** The row with id [k] was in [t] and is not in [t']. *)
Definition deletou (t t' : tabela R) (k : Z) : Prop :=
  (exists r : R, selecionar_por_id id k t = Some r)
  /\ selecionar_por_id id k t' = None.
End Registro.

(** A database with an administrator and a deactivated user, and the
    digest taken as the identity. *)
Definition db_exemplo : db :=
  mk_db
    (mk_tabela
       [ mk_usuario 1 "admin" "admin123" "Administrador" None "admin" 1 0
                    None;
         mk_usuario 2 "ana" "segredo" "Ana" None "usuario" 0 10 None ]
       2)
    tabela_vazia tabela_vazia tabela_vazia.

(** ** Reading a GROUP BY result *)

(** The total the result [g] has for the key [k]; [0] when [k] has no
    row. *)
Fixpoint total_de {A : Type} (eq_dec : forall x y : A, {x = y} + {x <> y})
    (k : A) (g : list (A * Z)) : Z :=
  match g with
  | [] => 0
  | (k', n) :: t => if eq_dec k k' then n else total_de eq_dec k t
  end.

(** The number of elements of [l] that [f] sends to [k]. *)
Definition quantos {A B : Type} (eq_dec : forall x y : B, {x = y} + {x <> y})
    (f : A -> B) (k : B) (l : list A) : Z :=
  Z.of_nat
    (List.length (filter (fun x => if eq_dec (f x) k then true else false) l)).

(** The log rows [estat_diario] counts: those not older than thirty
    days. *)
Definition logs_recentes (agora : Z) (d : db) : list log_row :=
  filter (fun l => trinta_dias_atras agora <=? l_timestamp l)
         (linhas (logs_usuario d)).

(** ** Reading a payload back *)

(** What may follow a value inside a document: nothing, a comma or a
    closing bracket. *)
Definition fim_valor (r : string) : bool :=
  match r with
  | EmptyString => true
  | String c _ => Ascii.eqb c "," || Ascii.eqb c "]" || Ascii.eqb c "}"
  end.

(** The number of calls of [scan_once], [scan_elems] and [scan_members]
    that decoding the text of [v] takes. *)
Fixpoint custo (v : pyval) : nat :=
  match v with
  | PList l => S (fold_right (fun x n => S (custo x + n)) O l)
  | PDict d => S (fold_right (fun kv n => S (custo (snd kv) + n)) O d)
  | _ => 1%nat
  end.

(** [json.loads] of the [detalhes] of the log row with id [k], as
    [buscar_logs] without filters returns it. *)
Definition ler_detalhes (limite k : Z) (d : db) : option pyval :=
  match fst (buscar_logs None None None None None limite d) with
  | Ok rows =>
      match find (fun r => l_id (fst r) =? k) rows with
      | Some (r, _) =>
          match l_detalhes r with
          | Some t => json_loads t
          | None => None
          end
      | None => None
      end
  | Raise _ => None
  end.

(** The first character of the text of a value: no white space and no
    closing bracket. *)
Definition inicio_ok (s : string) : bool :=
  match s with
  | EmptyString => false
  | String c _ =>
      negb (is_ws c) && negb (Ascii.eqb c "]") && negb (Ascii.eqb c "}")
  end.

(** The text of [v] followed by [rest] is read back as [v], leaving
    [rest], whenever [rest] may follow a value and the bound [n] is at
    least [custo v]. *)
Definition decodifica_bem (v : pyval) : Prop :=
  str_keys v = true -> py_wf v = true ->
  forall (n : nat) (rest : string),
    (custo v <= n)%nat -> fim_valor rest = true ->
    scan_once n (json_dumps v ++ rest) = Some (v, rest).

(** ** [AuthManager.listar_usuarios] and [SolicitantesCRUD.listar] *)

(** [SELECT id, usuario, nome, email, nivel_acesso, ativo, data_cadastro,
    ultimo_login]: the column [senha] is not selected. *)
Definition series_usuario (u : usuario_row) : series :=
  [ ("id", PInt (u_id u)); ("usuario", PStr (u_usuario u));
    ("nome", PStr (u_nome u)); ("email", py_opt_str (u_email u));
    ("nivel_acesso", PStr (u_nivel_acesso u)); ("ativo", PInt (u_ativo u));
    ("data_cadastro", PInt (u_data_cadastro u));
    ("ultimo_login", py_opt_int (u_ultimo_login u)) ].

(** [... FROM usuarios ORDER BY nome] *)
Definition listar_usuarios : M (list series) :=
  d <- get_db ;;
  ret (map series_usuario
         (ordenar (fun a b => String.leb (u_nome a) (u_nome b))
                  (linhas (usuarios d)))).

Definition series_solicitante (s : solicitante_row) : series :=
  combine
    [ "id"; "nome"; "email"; "telefone"; "departamento"; "data_cadastro" ]
    (tuple_solicitante s).

(** [SolicitantesCRUD.listar]: [SELECT * FROM solicitantes ORDER BY nome] *)
Definition listar_solicitantes : M (list series) :=
  d <- get_db ;;
  ret (map series_solicitante
         (ordenar (fun a b => String.leb (s_nome a) (s_nome b))
                  (linhas (solicitantes d)))).

(** ** The constraints of the schema *)

(** PRIMARY KEY on every [id], UNIQUE on [usuarios.usuario] and on
    [protocolos.numero_protocolo]. *)
Definition esquema_ok (d : db) : Prop :=
  NoDup (map u_id (linhas (usuarios d)))
  /\ NoDup (map u_usuario (linhas (usuarios d)))
  /\ NoDup (map s_id (linhas (solicitantes d)))
  /\ NoDup (map p_id (linhas (protocolos d)))
  /\ NoDup (map p_numero_protocolo (linhas (protocolos d)))
  /\ NoDup (map l_id (linhas (logs_usuario d))).

(** ** Protocol numbers *)

(** The number [gerar_numero_protocolo] forms in the year [ano] when the
    table holds [i - 1] rows. *)
Definition numero (ano i : Z) : string :=
  "PROT-" ++ str_int ano ++ "-" ++ format_04d i.

(** The numbers of protocols created one after the other in the years
    [anos], the first of them when the table held [i - 1] rows. *)
Fixpoint numeros_desde (i : Z) (anos : list Z) : list string :=
  match anos with
  | [] => []
  | a :: t => numero a i :: numeros_desde (i + 1) t
  end.

(** ** Calls of the methods that write *)

(** A call of one of the methods that write to the database, with its
    arguments. *)
Inductive chamada : Type :=
| ChInitDatabase
| ChRegistrarLog (usuario_id : option Z) (acao tabela_afetada : string)
    (registro_id : option Z) (detalhes : detalhes_arg) (status : string)
    (ip_address user_agent : option string)
| ChLogin (usuario senha : string)
| ChCriarUsuario (usuario senha nome : string) (email : option string)
    (nivel_acesso : string) (criado_por_id : option Z)
| ChAtualizarUsuario (id : Z) (nome : string) (email : option string)
    (nivel_acesso : string) (ativo : bool) (atualizado_por_id : option Z)
| ChAlterarSenha (id : Z) (nova_senha : string) (alterado_por_id : option Z)
| ChDeletarUsuario (id : Z) (deletado_por_id : option Z)
| ChCriarSolicitante (nome : string)
    (email telefone departamento : option string) (criado_por_id : option Z)
| ChAtualizarSolicitante (id : Z) (nome : string)
    (email telefone departamento : option string)
    (atualizado_por_id : option Z)
| ChDeletarSolicitante (id : Z) (deletado_por_id : option Z)
| ChCriarProtocolo (ano : Z) (titulo : string)
    (descricao tipo_documento : option string) (data_protocolo : Z)
    (data_prazo solicitante_id : option Z) (observacoes : option string)
    (criado_por : option Z)
| ChAtualizarProtocolo (id : Z) (titulo : string)
    (descricao tipo_documento : option string) (status : string)
    (data_protocolo : Z) (data_prazo solicitante_id : option Z)
    (observacoes : option string) (atualizado_por_id : option Z)
| ChDeletarProtocolo (id : Z) (deletado_por_id : option Z).

(** The database a call leaves behind, whether it returns or raises. *)
Definition executar (hash_senha : string -> string) (agora : Z)
    (c : chamada) (d : db) : db :=
  match c with
  | ChInitDatabase => snd (init_database hash_senha agora d)
  | ChRegistrarLog u a t r dt s ip ua =>
      snd (registrar_log agora u a t r dt s ip ua d)
  | ChLogin u s => snd (login hash_senha agora u s d)
  | ChCriarUsuario u s n e nv por =>
      snd (criar_usuario hash_senha agora u s n e nv por d)
  | ChAtualizarUsuario id n e nv atv por =>
      snd (atualizar_usuario agora id n e nv atv por d)
  | ChAlterarSenha id s por => snd (alterar_senha hash_senha agora id s por d)
  | ChDeletarUsuario id por => snd (deletar_usuario agora id por d)
  | ChCriarSolicitante n e t dp por =>
      snd (SolicitantesCRUD.criar agora n e t dp por d)
  | ChAtualizarSolicitante id n e t dp por =>
      snd (SolicitantesCRUD.atualizar agora id n e t dp por d)
  | ChDeletarSolicitante id por => snd (SolicitantesCRUD.deletar agora id por d)
  | ChCriarProtocolo ano ti de tp dpr dpz sid ob por =>
      snd (ProtocolosCRUD.criar ano agora ti de tp dpr dpz sid ob por d)
  | ChAtualizarProtocolo id ti de tp st dpr dpz sid ob por =>
      snd (ProtocolosCRUD.atualizar agora id ti de tp st dpr dpz sid ob por d)
  | ChDeletarProtocolo id por => snd (ProtocolosCRUD.deletar agora id por d)
  end.

(** A run of the application: calls in order, each at its time. *)
Definition executar_todas (hash_senha : string -> string)
    (cs : list (Z * chamada)) (d : db) : db :=
  fold_left (fun x ac => executar hash_senha (fst ac) (snd ac) x) cs d.

(** The log after a call is the log before it with at most one entry
    more, which carries the time of the call and an id above every
    earlier one. *)
Definition log_cresce (agora : Z) (d d' : db) : Prop :=
  exists novos : list log_row,
    linhas (logs_usuario d') = (linhas (logs_usuario d) ++ novos)%list
    /\ (List.length novos <= 1)%nat
    /\ forall e, In e novos ->
         l_timestamp e = agora
         /\ forall x, In x (linhas (logs_usuario d)) -> l_id x < l_id e.

(** ** The session, the login page, [logout] and the menu of [main] *)

(** The keys [authenticated] and [user_data] of [st.session_state],
    [None] when the key is absent.  [logout] deletes every key; the
    other keys (the edit markers, the key counter) play no part in the
    functions below. *)
Record session_state : Type := mk_session {
  ss_authenticated : option bool;
  ss_user_data : option (list pyval)
}.

Definition sessao_vazia : session_state := mk_session None None.

(** The form of [pagina_login] when it is submitted: [if user_data:]
    holds for a tuple that is not empty. *)
Definition pagina_login (hash_senha : string -> string) (agora : Z)
    (usuario senha : string) (s : session_state) : M session_state :=
  user_data <- login hash_senha agora usuario senha ;;
  match user_data with
  | Some (x :: t) => ret (mk_session (Some true) (Some (x :: t)))
  | _ => ret s
  end.

(** A Python value bound to the parameter of an INTEGER column that the
    embedding holds as an [option Z]: [None] is NULL and a [bool] is an
    [int].  A text, a list and a dictionary are no ids: the result
    [None] marks them as outside the embedding. *)
Definition sql_integer (v : pyval) : option (option Z) :=
  match v with
  | PNone => Some None
  | PInt z => Some (Some z)
  | PBool b => Some (Some (if b then 1 else 0))
  | _ => None
  end.

(** [str(v)], as an f-string inserts [v]; lists and dictionaries are
    outside the embedding. *)
Definition py_str (v : pyval) : option string :=
  match v with
  | PNone => Some "None"
  | PBool true => Some "True"
  | PBool false => Some "False"
  | PInt z => Some (str_int z)
  | PStr s => Some s
  | _ => None
  end.

(** [logout]: the log entry when [user_data] is in the session, then
    every key deleted and the script run again.  The result is [None]
    when [user_data[0]] or [user_data[1]] is outside the embedding. *)
Definition logout (agora : Z) (s : session_state) (d : db)
    : option (outcome session_state * db) :=
  match ss_user_data s with
  | None => Some (Ok sessao_vazia, d)
  | Some user_data =>
      match tuple_get user_data 0 with
      | Raise e => Some (Raise e, d)
      | Ok uid =>
          match tuple_get user_data 1 with
          | Raise e => Some (Raise e, d)
          | Ok nome =>
              match sql_integer uid, py_str nome with
              | Some k, Some texto =>
                  match registrar_log agora k "LOGOUT" "usuarios" k
                          (DTexto ("Logout realizado para usuário: "
                                   ++ texto))
                          "sucesso" None None d with
                  | (Ok _, d') => Some (Ok sessao_vazia, d')
                  | (Raise e, d') => Some (Raise e, d')
                  end
              | _, _ => None
              end
          end
      end
  end.

(** The pages [main] routes to. *)
Inductive pagina : Type :=
| Dashboard
| GerenciarProtocolos
| GerenciarSolicitantes
| GerenciarUsuarios
| PaginaLogs.

(** The options of the side bar in [main]. *)
Definition opcoes_menu (session : option (list pyval))
    : outcome (list string) :=
  match verificar_permissao session "admin" with
  | Raise e => Raise e
  | Ok admin =>
      Ok (List.app [ "Dashboard"; "Protocolos"; "Solicitantes" ]
            (if admin then [ "Usuários"; "Logs do Sistema" ] else []))
  end.

(** The routing of [main]: the page function called for the option
    chosen, [None] when no branch is taken.  In [a and b] the call [b]
    is made only when [a] holds. *)
Definition roteamento (session : option (list pyval)) (opcao : string)
    : outcome (option pagina) :=
  if String.eqb opcao "Dashboard" then Ok (Some Dashboard)
  else if String.eqb opcao "Protocolos" then Ok (Some GerenciarProtocolos)
  else if String.eqb opcao "Solicitantes" then Ok (Some GerenciarSolicitantes)
  else
    match (if String.eqb opcao "Usuários"
           then verificar_permissao session "admin" else Ok false) with
    | Raise e => Raise e
    | Ok true => Ok (Some GerenciarUsuarios)
    | Ok false =>
        match (if String.eqb opcao "Logs do Sistema"
               then verificar_permissao session "admin" else Ok false) with
        | Raise e => Raise e
        | Ok true => Ok (Some PaginaLogs)
        | Ok false => Ok None
        end
    end.

(** Whether the body of a page runs: [gerenciar_usuarios] and
    [pagina_logs] return at once unless [verificar_permissao("admin")]
    holds; the other pages have no test. *)
Definition corpo_da_pagina (session : option (list pyval)) (p : pagina)
    : outcome bool :=
  match p with
  | GerenciarUsuarios | PaginaLogs => verificar_permissao session "admin"
  | _ => Ok true
  end.

(** ** The numbers of [dashboard] *)

(** The four metrics: protocols, pending protocols, requesters and
    overdue protocols.  [listar()] is called with its defaults.
    [pd.to_datetime] turns a date into the time of its midnight and NULL
    into [NaT], which is below nothing; [agora] is [datetime.now()]. *)
Definition dashboard_metricas (agora : Z) : M (Z * Z * Z * Z) :=
  protocolos_df <- listar None "admin" ;;
  solicitantes_df <- listar_solicitantes ;;
  let len {A : Type} (l : list A) := Z.of_nat (List.length l) in
  let pendente (row : series) :=
    match series_get "status" row with
    | Some v => py_eqb v (PStr "Pendente")
    | None => false
    end in
  let antes_de_agora (row : series) :=
    match series_get "data_prazo" row with
    | Some (PInt dia) => dia * 86400 <? agora
    | _ => false
    end in
  ret (len protocolos_df,
       len (filter pendente protocolos_df),
       len solicitantes_df,
       match protocolos_df with
       | [] => 0
       | _ => len (filter (fun row => antes_de_agora row && pendente row)
                          protocolos_df)
       end).

(** ** The dictionary of [editar_solicitante] *)

(** The conversion of the tuple [buscar_por_id] returned. *)
Definition solicitante_dict (solicitante_raw : list pyval)
    : outcome pydict :=
  match tuple_get solicitante_raw 0 with
  | Raise e => Raise e
  | Ok v0 =>
  match tuple_get solicitante_raw 1 with
  | Raise e => Raise e
  | Ok v1 =>
  match tuple_get solicitante_raw 2 with
  | Raise e => Raise e
  | Ok v2 =>
  match tuple_get solicitante_raw 3 with
  | Raise e => Raise e
  | Ok v3 =>
  match tuple_get solicitante_raw 4 with
  | Raise e => Raise e
  | Ok v4 =>
      let se_houver (i : nat) :=
        if (i <? List.length solicitante_raw)%nat
        then nth i solicitante_raw PNone else PNone in
      Ok [ (KStr "id", v0); (KStr "nome", v1); (KStr "email", v2);
           (KStr "telefone", v3); (KStr "departamento", v4);
           (KStr "criado_por", se_houver 5%nat);
           (KStr "data_criacao", se_houver 6%nat);
           (KStr "data_atualizacao", se_houver 7%nat) ]
  end end end end end.

(** * Properties *)

(** ** Access policy *)

(** C5. [verificar_permissao] is a function of the session and the
    required level alone, and for a logged-in user it has the truth table
    of the specification: admin required and role usuario, denied; admin
    required and role admin, allowed; usuario required, allowed for both
    roles. *)
Theorem verificar_permissao_tabela :
  forall (id ativo dc : Z) (usuario senha nome : string)
         (email : option string) (ul : option Z),
    let sessao (nivel : string) :=
      Some (tuple_login
              (mk_usuario id usuario senha nome email nivel ativo dc ul)) in
    verificar_permissao (sessao "usuario") "admin" = Ok false
    /\ verificar_permissao (sessao "admin") "admin" = Ok true
    /\ verificar_permissao (sessao "admin") "usuario" = Ok true
    /\ verificar_permissao (sessao "usuario") "usuario" = Ok true.
Proof.
  intros; repeat split; reflexivity.
Qed.

Lemma String_eqb_true_iff (a b : string) : String.eqb a b = true <-> a = b.
Proof. apply String.eqb_eq. Qed.

Lemma opt_eqb_Z_true_iff (a : option Z) (b : Z) :
  opt_eqb Z.eqb a (Some b) = true <-> a = Some b.
Proof.
  destruct a as [x|]; cbn.
  - rewrite Z.eqb_eq. split; [intros ->; reflexivity | congruence].
  - split; discriminate.
Qed.

Lemma py_eqb_opt_int (a : option Z) (b : Z) :
  py_eqb (py_opt_int a) (PInt b) = opt_eqb Z.eqb a (Some b).
Proof. destruct a; reflexivity. Qed.

(** C4. For a protocol [p] and a logged-in user [v], the test of the edit
    form (on the tuple of [buscar_por_id]) and the test of the protocol
    list (on the row of [listar]) return the same boolean, and it is true
    exactly when [v] is an administrator or [v]'s id is the protocol's
    [criado_por]. *)
Theorem pode_editar_admin_ou_criador :
  forall (d : db) (p : protocolo_row) (v : usuario_row),
  exists b : bool,
    pode_editar_form (tuple_login v) (tuple_protocolo p) = Ok b
    /\ pode_editar_lista (tuple_login v) (series_protocolo d p) = Ok b
    /\ (b = true <->
        u_nivel_acesso v = "admin" \/ p_criado_por p = Some (u_id v)).
Proof.
  intros d p v.
  exists (String.eqb (u_nivel_acesso v) "admin"
          || opt_eqb Z.eqb (p_criado_por p) (Some (u_id v))).
  repeat split.
  - unfold pode_editar_form; cbn. now rewrite py_eqb_opt_int.
  - unfold pode_editar_lista; cbn. now rewrite py_eqb_opt_int.
  - rewrite orb_true_iff, String_eqb_true_iff, opt_eqb_Z_true_iff. tauto.
  - rewrite orb_true_iff, String_eqb_true_iff, opt_eqb_Z_true_iff. tauto.
Qed.

(** ** Protocol numbers *)

(** C1, as stated, fails: [gerar_numero_protocolo] only counts the rows,
    so a second call with no insert in between returns the first number
    again, not the number 0002. *)
Lemma gerar_numero_segunda_chamada_repete :
  ~ (forall ano : Z,
       fst (gerar_numero_protocolo ano
              (snd (gerar_numero_protocolo ano db_vazio)))
       = Ok ("PROT-" ++ str_int ano ++ "-0002")).
Proof.
  intros H. specialize (H 2024). vm_compute in H. discriminate.
Qed.

(** C1, amended. A call returns [PROT-{ano}-{count + 1:04d}] for the
    current number [count] of protocol rows and changes nothing; on an
    empty table it returns number 0001, as often as it is called, and
    number 0002 is what it returns once [criar] has inserted the first
    protocol. *)
Theorem gerar_numero_protocolo_sequencia :
  forall (ano : Z) (d : db),
    gerar_numero_protocolo ano d
    = (Ok ("PROT-" ++ str_int ano ++ "-"
           ++ format_04d (contar (protocolos d) + 1)), d)
    /\ (linhas (protocolos d) = [] ->
        let primeira := gerar_numero_protocolo ano d in
        let segunda := gerar_numero_protocolo ano (snd primeira) in
        fst primeira = Ok ("PROT-" ++ str_int ano ++ "-0001")
        /\ fst segunda = Ok ("PROT-" ++ str_int ano ++ "-0001")
        /\ forall (agora : Z) (titulo : string)
                  (descricao tipo_documento : option string)
                  (data_protocolo : Z) (data_prazo solicitante_id : option Z)
                  (observacoes : option string) (criado_por : option Z),
            let criado :=
              ProtocolosCRUD.criar ano agora titulo descricao tipo_documento
                data_protocolo data_prazo solicitante_id observacoes
                criado_por d in
            fst criado = Ok ("PROT-" ++ str_int ano ++ "-0001")
            /\ fst (gerar_numero_protocolo ano (snd criado))
               = Ok ("PROT-" ++ str_int ano ++ "-0002")).
Proof.
  intros ano d. split; [reflexivity|].
  destruct d as [us ss [rows sq] ls]. cbn [protocolos linhas].
  intros ->. cbn zeta.
  unfold ProtocolosCRUD.criar, gerar_numero_protocolo, bind, get_db, put_db,
    ret, raise, registrar_log, contar.
  cbn. repeat split; reflexivity.
Qed.

(** The amended C1 on the empty database in the year 2024. *)
Lemma gerar_numero_protocolo_sequencia_witness :
  linhas (protocolos db_vazio) = []
  /\ fst (gerar_numero_protocolo 2024 db_vazio) = Ok "PROT-2024-0001"
  /\ fst (gerar_numero_protocolo 2024
            (snd (gerar_numero_protocolo 2024 db_vazio)))
     = Ok "PROT-2024-0001".
Proof.
  split; [reflexivity|].
  destruct (gerar_numero_protocolo_sequencia 2024 db_vazio) as [_ H].
  specialize (H eq_refl). cbn zeta in H.
  destruct H as (H1 & H2 & _).
  split; [exact H1 | exact H2].
Defined.

(** ** The database monad *)

Ltac run_m :=
  unfold bind, get_db, put_db, ret, raise, lift, registrar_log;
  cbn [fst snd].

Lemma find_none_iff {A : Type} (f : A -> bool) (l : list A) :
  find f l = None <-> (forall x, In x l -> f x = false).
Proof.
  split.
  - intros H x Hx. exact (find_none f l H x Hx).
  - induction l as [|a l IH]; intros H; cbn; [reflexivity|].
    rewrite (H a (or_introl eq_refl)). apply IH.
    intros x Hx. apply H. now right.
Qed.

Section TabelaFacts.
Context {R : Type} (id : R -> Z).

Lemma map_id_atualizar (k : Z) (f : R -> R) (t : tabela R) :
  (forall r, id (f r) = id r) ->
  map id (linhas (atualizar_por_id id k f t)) = map id (linhas t).
Proof.
  intros Hf. unfold atualizar_por_id; cbn [linhas].
  rewrite map_map. apply map_ext. intros r.
  destruct (id r =? k); [apply Hf | reflexivity].
Qed.

Lemma selecionar_deletar (k : Z) (t : tabela R) :
  selecionar_por_id id k (deletar_por_id id k t) = None.
Proof.
  unfold selecionar_por_id, deletar_por_id; cbn [linhas].
  apply find_none_iff. intros x Hx.
  apply filter_In in Hx. destruct Hx as [_ Hx].
  now apply negb_true_iff in Hx.
Qed.
End TabelaFacts.

(** ** Login *)

Lemma login_sem_credencial (hash_senha : string -> string) (agora : Z)
    (usuario senha : string) (d : db) :
  find (credencial_ok usuario (hash_senha senha)) (linhas (usuarios d)) = None ->
  login hash_senha agora usuario senha d
  = (Ok None,
     set_logs
       (inserir (proximo_id l_id (logs_usuario d))
          (mk_log (proximo_id l_id (logs_usuario d)) None "LOGIN_FALHOU"
             "usuarios" None
             (Some ("Tentativa de login falhada para usuário: " ++ usuario))
             None None agora "erro")
          (logs_usuario d)) d).
Proof.
  intros H. unfold login. run_m. rewrite H. reflexivity.
Qed.

Lemma login_none_sem_credencial (hash_senha : string -> string) (agora : Z)
    (usuario senha : string) (d : db) :
  fst (login hash_senha agora usuario senha d) = Ok None ->
  find (credencial_ok usuario (hash_senha senha)) (linhas (usuarios d)) = None.
Proof.
  unfold login. run_m.
  destruct (find _ _) as [u|]; [cbn; discriminate | reflexivity].
Qed.

(** C3. When the login exists and the digest of the password is not the
    stored one, and when no row has the login, [login] returns [None] and
    appends exactly one log entry, with [acao = 'LOGIN_FALHOU'],
    [usuario_id] NULL and [status = 'erro']. *)
Theorem login_falhou_registra :
  forall (hash_senha : string -> string) (agora : Z)
         (usuario senha : string) (d : db),
    ((exists u, In u (linhas (usuarios d)) /\ u_usuario u = usuario)
     /\ (forall u, In u (linhas (usuarios d)) -> u_usuario u = usuario ->
                   u_senha u <> hash_senha senha))
    \/ (forall u, In u (linhas (usuarios d)) -> u_usuario u <> usuario) ->
    fst (login hash_senha agora usuario senha d) = Ok None
    /\ um_log_falha d (snd (login hash_senha agora usuario senha d)).
Proof.
  intros hash_senha agora usuario senha d H.
  assert (Hnone : find (credencial_ok usuario (hash_senha senha))
                       (linhas (usuarios d)) = None).
  { apply find_none_iff. intros u Hu. unfold credencial_ok.
    destruct (String.eqb (u_usuario u) usuario) eqn:E1; [|reflexivity].
    apply String.eqb_eq in E1.
    destruct H as [[_ H] | H]; [|now elim (H u Hu)].
    destruct (String.eqb (u_senha u) (hash_senha senha)) eqn:E2;
      [|reflexivity].
    apply String.eqb_eq in E2. now elim (H u Hu E1). }
  rewrite (login_sem_credencial _ _ _ _ _ Hnone). cbn [fst snd].
  split; [reflexivity|].
  eexists. cbn. repeat split; reflexivity.
Qed.

(** C10. A login attempt that returns [None] leaves the tables
    [usuarios], [solicitantes] and [protocolos] as they were, and the log
    with exactly one entry more. *)
Theorem login_falhou_nao_altera_usuarios :
  forall (hash_senha : string -> string) (agora : Z)
         (usuario senha : string) (d : db),
    fst (login hash_senha agora usuario senha d) = Ok None ->
    let d' := snd (login hash_senha agora usuario senha d) in
    usuarios d' = usuarios d
    /\ solicitantes d' = solicitantes d
    /\ protocolos d' = protocolos d
    /\ exists e : log_row,
         linhas (logs_usuario d') = (linhas (logs_usuario d) ++ [e])%list.
Proof.
  intros hash_senha agora usuario senha d H.
  apply login_none_sem_credencial in H.
  rewrite (login_sem_credencial _ _ _ _ _ H). cbn.
  repeat split. eexists. reflexivity.
Qed.

(** C3 on [db_exemplo]: a wrong password for [admin] and the unknown
    login [bia]. *)
Lemma login_falhou_registra_witness :
  (fst (login (fun s => s) 100 "admin" "errada" db_exemplo) = Ok None
   /\ um_log_falha db_exemplo
        (snd (login (fun s => s) 100 "admin" "errada" db_exemplo)))
  /\ (fst (login (fun s => s) 100 "bia" "x" db_exemplo) = Ok None
      /\ um_log_falha db_exemplo
           (snd (login (fun s => s) 100 "bia" "x" db_exemplo))).
Proof.
  split.
  - apply (login_falhou_registra (fun s => s) 100 "admin" "errada" db_exemplo).
    left. split.
    + eexists. split; [left; reflexivity | reflexivity].
    + intros u [<- | [<- | []]]; cbn; intros; discriminate.
  - apply (login_falhou_registra (fun s => s) 100 "bia" "x" db_exemplo).
    right. intros u [<- | [<- | []]]; cbn; discriminate.
Defined.

(** C10 on [db_exemplo]: the deactivated user [ana] with her own
    password. *)
Lemma login_falhou_nao_altera_usuarios_witness :
  fst (login (fun s => s) 100 "ana" "segredo" db_exemplo) = Ok None
  /\ usuarios (snd (login (fun s => s) 100 "ana" "segredo" db_exemplo))
     = usuarios db_exemplo.
Proof.
  split; [reflexivity|].
  apply (login_falhou_nao_altera_usuarios (fun s => s) 100 "ana" "segredo"
           db_exemplo).
  reflexivity.
Defined.

(** ** Protocols *)

(** C7. Whatever its arguments and whether it returns or raises,
    [ProtocolosCRUD.atualizar] leaves the [numero_protocolo] of every row
    as it was: the rows keep their ids, their order and their numbers, so
    the row [id] has the number it had before. *)
Theorem atualizar_preserva_numero_protocolo :
  forall (agora id : Z) (titulo : string)
         (descricao tipo_documento : option string) (status : string)
         (data_protocolo : Z) (data_prazo solicitante_id : option Z)
         (observacoes : option string) (atualizado_por_id : option Z)
         (d : db),
    let d' :=
      snd (ProtocolosCRUD.atualizar agora id titulo descricao tipo_documento
             status data_protocolo data_prazo solicitante_id observacoes
             atualizado_por_id d) in
    map (fun p => (p_id p, p_numero_protocolo p)) (linhas (protocolos d'))
    = map (fun p => (p_id p, p_numero_protocolo p)) (linhas (protocolos d))
    /\ forall k : Z,
         option_map p_numero_protocolo
           (selecionar_por_id p_id k (protocolos d'))
         = option_map p_numero_protocolo
             (selecionar_por_id p_id k (protocolos d)).
Proof.
  intros. subst d'.
  set (f := fun r : protocolo_row =>
              mk_protocolo (p_id r) (p_numero_protocolo r) titulo descricao
                tipo_documento status data_protocolo data_prazo
                solicitante_id observacoes (p_criado_por r)
                (p_data_criacao r)).
  assert (E : protocolos
                (snd (ProtocolosCRUD.atualizar agora id titulo descricao
                        tipo_documento status data_protocolo data_prazo
                        solicitante_id observacoes atualizado_por_id d))
              = atualizar_por_id p_id id f (protocolos d)).
  { unfold ProtocolosCRUD.atualizar. run_m.
    destruct (selecionar_por_id p_id id (protocolos d)); reflexivity. }
  rewrite E. clear E.
  unfold atualizar_por_id, selecionar_por_id; cbn [linhas].
  split.
  - rewrite map_map. apply map_ext. intros r.
    destruct (p_id r =? id); reflexivity.
  - intros k. induction (linhas (protocolos d)) as [|r l IH]; [reflexivity|].
    cbn [map find].
    assert (Hid : p_id (if p_id r =? id then f r else r) = p_id r)
      by (destruct (p_id r =? id); reflexivity).
    rewrite Hid. destruct (p_id r =? k); [|exact IH].
    destruct (p_id r =? id); reflexivity.
Qed.

(** ** One log entry for each mutation *)

Ltac um_log_ok := eexists; cbn; repeat split; reflexivity.

Lemma row_get_some_ok (t : option (list pyval)) (i : nat) (v : pyval) :
  row_get t i = Ok v -> exists l, t = Some l.
Proof. destruct t as [l|]; [eauto | discriminate]. Qed.

Lemma criar_usuario_um_log (hash_senha : string -> string) (agora : Z)
    (usuario senha nome : string) (email : option string)
    (nivel_acesso : string) (criado_por_id : option Z) (d d' : db) :
  criar_usuario hash_senha agora usuario senha nome email nivel_acesso
    criado_por_id d = (Ok true, d') ->
  exists k, criou u_id (usuarios d) (usuarios d') k
            /\ um_log d d' "usuarios" k.
Proof.
  unfold criar_usuario. run_m.
  destruct (existsb _ _); cbn; intros H; [discriminate|].
  injection H as <-. eexists. split; [|um_log_ok].
  eexists. cbn. split; reflexivity.
Qed.

Lemma atualizar_usuario_um_log (agora id : Z) (nome : string) (email : option string) (nivel_acesso : string)
    (ativo : bool) (atualizado_por_id : option Z) (b : bool) (d d' : db) :
  atualizar_usuario agora id nome email nivel_acesso ativo
    atualizado_por_id d = (Ok b, d') ->
  atualizou u_id (usuarios d) (usuarios d') id
  /\ um_log d d' "usuarios" id.
Proof.
  unfold atualizar_usuario. run_m.
  destruct (selecionar_por_id u_id id (usuarios d)) as [r|] eqn:E; cbn;
    intros H; [|discriminate].
  injection H as _ <-. split; [|um_log_ok].
  split; [eauto|]. cbn [usuarios set_usuarios set_logs].
  now apply map_id_atualizar.
Qed.

Lemma deletar_usuario_um_log (agora id : Z) (deletado_por_id : option Z)
    (b : bool) (d d' : db) :
  deletar_usuario agora id deletado_por_id d = (Ok b, d') ->
  deletou u_id (usuarios d) (usuarios d') id
  /\ um_log d d' "usuarios" id.
Proof.
  unfold deletar_usuario. run_m.
  destruct (selecionar_por_id u_id id (usuarios d)) as [r|] eqn:E; cbn;
    intros H; [|discriminate].
  injection H as _ <-. split; [|um_log_ok].
  split; [eauto|]. cbn [usuarios set_usuarios set_logs].
  apply selecionar_deletar.
Qed.

Lemma solicitantes_criar_um_log (agora : Z) (nome : string)
    (email telefone departamento : option string) (criado_por_id : option Z)
    (b : bool) (d d' : db) :
  SolicitantesCRUD.criar agora nome email telefone departamento
    criado_por_id d = (Ok b, d') ->
  exists k, criou s_id (solicitantes d) (solicitantes d') k
            /\ um_log d d' "solicitantes" k.
Proof.
  unfold SolicitantesCRUD.criar. run_m. cbn. intros H.
  injection H as _ <-. eexists. split; [|um_log_ok].
  eexists. cbn. split; reflexivity.
Qed.

Lemma solicitantes_atualizar_um_log (agora id : Z) (nome : string)
    (email telefone departamento : option string)
    (atualizado_por_id : option Z) (b : bool) (d d' : db) :
  SolicitantesCRUD.atualizar agora id nome email telefone departamento
    atualizado_por_id d = (Ok b, d') ->
  atualizou s_id (solicitantes d) (solicitantes d') id
  /\ um_log d d' "solicitantes" id.
Proof.
  unfold SolicitantesCRUD.atualizar. run_m.
  destruct (selecionar_por_id s_id id (solicitantes d)) as [r|] eqn:E; cbn;
    intros H; [|discriminate].
  injection H as _ <-. split; [|um_log_ok].
  split; [eauto|]. cbn [solicitantes set_solicitantes set_logs].
  now apply map_id_atualizar.
Qed.

Lemma solicitantes_deletar_um_log (agora id : Z) (deletado_por_id : option Z)
    (b : bool) (d d' : db) :
  SolicitantesCRUD.deletar agora id deletado_por_id d = (Ok b, d') ->
  deletou s_id (solicitantes d) (solicitantes d') id
  /\ um_log d d' "solicitantes" id.
Proof.
  unfold SolicitantesCRUD.deletar. run_m.
  destruct (selecionar_por_id s_id id (solicitantes d)) as [r|] eqn:E; cbn;
    intros H; [|discriminate].
  injection H as _ <-. split; [|um_log_ok].
  split; [eauto|]. cbn [solicitantes set_solicitantes set_logs].
  apply selecionar_deletar.
Qed.

Lemma protocolos_criar_um_log (ano agora : Z) (titulo : string)
    (descricao tipo_documento : option string) (data_protocolo : Z)
    (data_prazo solicitante_id : option Z) (observacoes : option string)
    (criado_por : option Z) (numero : string) (d d' : db) :
  ProtocolosCRUD.criar ano agora titulo descricao tipo_documento
    data_protocolo data_prazo solicitante_id observacoes criado_por d
  = (Ok numero, d') ->
  exists k, criou p_id (protocolos d) (protocolos d') k
            /\ um_log d d' "protocolos" k.
Proof.
  unfold ProtocolosCRUD.criar, gerar_numero_protocolo. run_m.
  destruct (existsb _ _); cbn; intros H; [discriminate|].
  injection H as _ <-. eexists. split; [|um_log_ok].
  eexists. cbn. split; reflexivity.
Qed.

Lemma protocolos_atualizar_um_log (agora id : Z) (titulo : string)
    (descricao tipo_documento : option string) (status : string)
    (data_protocolo : Z) (data_prazo solicitante_id : option Z)
    (observacoes : option string) (atualizado_por_id : option Z)
    (b : bool) (d d' : db) :
  ProtocolosCRUD.atualizar agora id titulo descricao tipo_documento status
    data_protocolo data_prazo solicitante_id observacoes atualizado_por_id d
  = (Ok b, d') ->
  atualizou p_id (protocolos d) (protocolos d') id
  /\ um_log d d' "protocolos" id.
Proof.
  unfold ProtocolosCRUD.atualizar. run_m.
  destruct (selecionar_por_id p_id id (protocolos d)) as [r|] eqn:E; cbn;
    intros H; [|discriminate].
  injection H as _ <-. split; [|um_log_ok].
  split; [eauto|]. cbn [protocolos set_protocolos set_logs].
  now apply map_id_atualizar.
Qed.

Lemma protocolos_deletar_um_log (agora id : Z) (deletado_por_id : option Z)
    (b : bool) (d d' : db) :
  ProtocolosCRUD.deletar agora id deletado_por_id d = (Ok b, d') ->
  deletou p_id (protocolos d) (protocolos d') id
  /\ um_log d d' "protocolos" id.
Proof.
  unfold ProtocolosCRUD.deletar. run_m.
  destruct (selecionar_por_id p_id id (protocolos d)) as [r|] eqn:E; cbn;
    intros H; [|discriminate].
  injection H as _ <-. split; [|um_log_ok].
  split; [eauto|]. cbn [protocolos set_protocolos set_logs].
  apply selecionar_deletar.
Qed.

(** C2. Every create, update and delete on [usuarios], [solicitantes]
    and [protocolos] that returns (rather than raises, as [criar_usuario]
    does for a login that exists) has written its row
    and appended exactly one log entry, whose [tabela_afetada] is the
    table and whose [registro_id] is the id of the row created, updated
    or deleted. *)
Theorem toda_mutacao_registra_um_log :
  forall (hash_senha : string -> string) (agora : Z) (d d' : db),
    (forall usuario senha nome email nivel_acesso criado_por_id,
        criar_usuario hash_senha agora usuario senha nome email nivel_acesso
          criado_por_id d = (Ok true, d') ->
        exists k, criou u_id (usuarios d) (usuarios d') k
                  /\ um_log d d' "usuarios" k)
    /\ (forall id nome email nivel_acesso ativo atualizado_por_id b,
          atualizar_usuario agora id nome email nivel_acesso ativo
            atualizado_por_id d = (Ok b, d') ->
          atualizou u_id (usuarios d) (usuarios d') id
          /\ um_log d d' "usuarios" id)
    /\ (forall id deletado_por_id b,
          deletar_usuario agora id deletado_por_id d = (Ok b, d') ->
          deletou u_id (usuarios d) (usuarios d') id
          /\ um_log d d' "usuarios" id)
    /\ (forall nome email telefone departamento criado_por_id b,
          SolicitantesCRUD.criar agora nome email telefone departamento
            criado_por_id d = (Ok b, d') ->
          exists k, criou s_id (solicitantes d) (solicitantes d') k
                    /\ um_log d d' "solicitantes" k)
    /\ (forall id nome email telefone departamento atualizado_por_id b,
          SolicitantesCRUD.atualizar agora id nome email telefone
            departamento atualizado_por_id d = (Ok b, d') ->
          atualizou s_id (solicitantes d) (solicitantes d') id
          /\ um_log d d' "solicitantes" id)
    /\ (forall id deletado_por_id b,
          SolicitantesCRUD.deletar agora id deletado_por_id d = (Ok b, d') ->
          deletou s_id (solicitantes d) (solicitantes d') id
          /\ um_log d d' "solicitantes" id)
    /\ (forall ano titulo descricao tipo_documento data_protocolo data_prazo
                solicitante_id observacoes criado_por numero,
          ProtocolosCRUD.criar ano agora titulo descricao tipo_documento
            data_protocolo data_prazo solicitante_id observacoes criado_por d
          = (Ok numero, d') ->
          exists k, criou p_id (protocolos d) (protocolos d') k
                    /\ um_log d d' "protocolos" k)
    /\ (forall id titulo descricao tipo_documento status data_protocolo
                data_prazo solicitante_id observacoes atualizado_por_id b,
          ProtocolosCRUD.atualizar agora id titulo descricao tipo_documento
            status data_protocolo data_prazo solicitante_id observacoes
            atualizado_por_id d = (Ok b, d') ->
          atualizou p_id (protocolos d) (protocolos d') id
          /\ um_log d d' "protocolos" id)
    /\ (forall id deletado_por_id b,
          ProtocolosCRUD.deletar agora id deletado_por_id d = (Ok b, d') ->
          deletou p_id (protocolos d) (protocolos d') id
          /\ um_log d d' "protocolos" id).
Proof.
  intros hash_senha agora d d'.
  repeat match goal with |- _ /\ _ => split end; intros.
  - eapply criar_usuario_um_log; eassumption.
  - eapply atualizar_usuario_um_log; eassumption.
  - eapply deletar_usuario_um_log; eassumption.
  - eapply solicitantes_criar_um_log; eassumption.
  - eapply solicitantes_atualizar_um_log; eassumption.
  - eapply solicitantes_deletar_um_log; eassumption.
  - eapply protocolos_criar_um_log; eassumption.
  - eapply protocolos_atualizar_um_log; eassumption.
  - eapply protocolos_deletar_um_log; eassumption.
Qed.

(** C2 on [db_exemplo]: deleting the user 2 and creating a requester. *)
Lemma toda_mutacao_registra_um_log_witness :
  (deletar_usuario 100 2 (Some 1) db_exemplo
   = (Ok true, snd (deletar_usuario 100 2 (Some 1) db_exemplo))
   /\ um_log db_exemplo (snd (deletar_usuario 100 2 (Some 1) db_exemplo))
        "usuarios" 2)
  /\ (SolicitantesCRUD.criar 100 "Ana" None None (Some "RH") (Some 1)
        db_exemplo
      = (Ok true,
         snd (SolicitantesCRUD.criar 100 "Ana" None None (Some "RH")
                (Some 1) db_exemplo))
      /\ exists k,
           criou s_id (solicitantes db_exemplo)
             (solicitantes
                (snd (SolicitantesCRUD.criar 100 "Ana" None None (Some "RH")
                        (Some 1) db_exemplo))) k
           /\ um_log db_exemplo
                (snd (SolicitantesCRUD.criar 100 "Ana" None None (Some "RH")
                        (Some 1) db_exemplo)) "solicitantes" k).
Proof.
  split.
  - split; [reflexivity|].
    destruct (toda_mutacao_registra_um_log (fun s => s) 100 db_exemplo
                (snd (deletar_usuario 100 2 (Some 1) db_exemplo)))
      as (_ & _ & H & _).
    apply (H 2 (Some 1) true). reflexivity.
  - split; [reflexivity|].
    destruct (toda_mutacao_registra_um_log (fun s => s) 100 db_exemplo
                (snd (SolicitantesCRUD.criar 100 "Ana" None None (Some "RH")
                        (Some 1) db_exemplo)))
      as (_ & _ & _ & H & _).
    apply (H "Ana" None None (Some "RH") (Some 1) true). reflexivity.
Defined.

(** ** ORDER BY *)

Section OrdenarFacts.
Context {A : Type} (le : A -> A -> bool).

Lemma inserir_ordenado_perm (x : A) (l : list A) :
  Permutation (inserir_ordenado le x l) (x :: l).
Proof.
  induction l as [|y t IH]; cbn; [reflexivity|].
  destruct (le y x); [|reflexivity].
  rewrite IH. apply perm_swap.
Qed.

Lemma fold_inserir_perm (l acc : list A) :
  Permutation (fold_left (fun a x => inserir_ordenado le x a) l acc)
              (acc ++ l).
Proof.
  revert acc. induction l as [|x t IH]; intros acc; cbn.
  - now rewrite app_nil_r.
  - rewrite IH, inserir_ordenado_perm. apply Permutation_middle.
Qed.

Lemma ordenar_perm (l : list A) : Permutation (ordenar le l) l.
Proof. unfold ordenar. now rewrite fold_inserir_perm. Qed.

Hypothesis le_total : forall a b, le a b = false -> le b a = true.
Hypothesis le_trans :
  forall a b c, le a b = true -> le b c = true -> le a c = true.

Let R (a b : A) : Prop := le a b = true.

Lemma inserir_ordenado_sorted (x : A) (l : list A) :
  StronglySorted R l -> StronglySorted R (inserir_ordenado le x l).
Proof.
  induction 1 as [|y t Hs IH Hy]; cbn.
  - repeat constructor.
  - destruct (le y x) eqn:E.
    + constructor; [exact IH|].
      rewrite Forall_forall in *. intros z Hz.
      apply (Permutation_in _ (inserir_ordenado_perm x t)) in Hz.
      destruct Hz as [<- | Hz]; [exact E | now apply Hy].
    + constructor; [now constructor|].
      apply le_total in E. constructor; [exact E|].
      rewrite Forall_forall in *. intros z Hz.
      apply (le_trans x y z E). now apply Hy.
Qed.

Lemma ordenar_sorted (l : list A) : StronglySorted R (ordenar le l).
Proof.
  unfold ordenar.
  assert (H : forall acc, StronglySorted R acc ->
            StronglySorted R
              (fold_left (fun a x => inserir_ordenado le x a) l acc)).
  { induction l as [|x t IH]; intros acc Hacc; cbn; [exact Hacc|].
    apply IH. now apply inserir_ordenado_sorted. }
  apply H. constructor.
Qed.
End OrdenarFacts.

(** ** GROUP BY *)

Section AgruparFacts.
Context {A : Type} (eq_dec : forall x y : A, {x = y} + {x <> y}).

Lemma total_de_contar_chave (k k' : A) (g : list (A * Z)) :
  total_de eq_dec k' (contar_chave eq_dec k g)
  = total_de eq_dec k' g + (if eq_dec k' k then 1 else 0).
Proof.
  induction g as [|[a n] t IH]; cbn.
  - destruct (eq_dec k' k); reflexivity.
  - destruct (eq_dec k a) as [->|Hka]; cbn.
    + destruct (eq_dec k' a); lia.
    + destruct (eq_dec k' a) as [->|Hk'a]; [|exact IH].
      destruct (eq_dec a k); [congruence | lia].
Qed.

Lemma chaves_contar_chave_in (k : A) (g : list (A * Z)) :
  In k (map fst g) -> map fst (contar_chave eq_dec k g) = map fst g.
Proof.
  induction g as [|[a n] t IH]; cbn; [tauto|].
  destruct (eq_dec k a) as [->|Hka]; cbn; [reflexivity|].
  intros [H | H]; [congruence | now rewrite IH].
Qed.

Lemma chaves_contar_chave_out (k : A) (g : list (A * Z)) :
  ~ In k (map fst g) ->
  map fst (contar_chave eq_dec k g) = (map fst g ++ [k])%list.
Proof.
  induction g as [|[a n] t IH]; cbn; [reflexivity|].
  intros H. destruct (eq_dec k a) as [->|Hka]; [tauto|].
  cbn. rewrite IH; tauto.
Qed.

Lemma fold_contar_chave_app (l : list A) (x : A) :
  agrupar eq_dec (l ++ [x]) = contar_chave eq_dec x (agrupar eq_dec l).
Proof. unfold agrupar. now rewrite fold_left_app. Qed.

Lemma agrupar_total (l : list A) (k : A) :
  total_de eq_dec k (agrupar eq_dec l) = Z.of_nat (count_occ eq_dec l k).
Proof.
  induction l as [|x t IH] using rev_ind; [reflexivity|].
  rewrite fold_contar_chave_app, total_de_contar_chave, IH, count_occ_app.
  cbn. destruct (eq_dec x k) as [->|Hx]; destruct (eq_dec k k) as [|Hk];
    try congruence; try lia.
  destruct (eq_dec k x); [congruence | lia].
Qed.

Lemma agrupar_chaves (l : list A) :
  NoDup (map fst (agrupar eq_dec l))
  /\ forall k, In k (map fst (agrupar eq_dec l)) <-> In k l.
Proof.
  induction l as [|x t [IHn IHi]] using rev_ind.
  - split; [constructor | reflexivity].
  - rewrite fold_contar_chave_app.
    destruct (in_dec eq_dec x (map fst (agrupar eq_dec t))) as [Hin|Hout].
    + rewrite (chaves_contar_chave_in _ _ Hin).
      split; [exact IHn|]. intros k. rewrite IHi, in_app_iff. cbn.
      split; [tauto|]. intros [H | [<- | []]]; [exact H | now apply IHi].
    + rewrite (chaves_contar_chave_out _ _ Hout). split.
      * apply NoDup_app; [exact IHn | repeat constructor; intros [] |].
        intros a Ha [<- | []]. exact (Hout Ha).
      * intros k. rewrite !in_app_iff, IHi. reflexivity.
Qed.

Lemma total_de_in (g : list (A * Z)) (k : A) (n : Z) :
  NoDup (map fst g) -> In (k, n) g -> total_de eq_dec k g = n.
Proof.
  induction g as [|[a m] t IH]; cbn; [tauto|].
  intros Hnd [H | H].
  - injection H as -> ->. destruct (eq_dec k k); congruence.
  - inversion Hnd as [|? ? Hnot Hnd']; subst.
    destruct (eq_dec k a) as [->|]; [|now apply IH].
    elim Hnot. change a with (fst (a, n)). now apply in_map.
Qed.

Lemma in_total_de (g : list (A * Z)) (k : A) :
  In k (map fst g) -> In (k, total_de eq_dec k g) g.
Proof.
  induction g as [|[a m] t IH]; cbn; [tauto|].
  destruct (eq_dec k a) as [->|Hka]; [now left|].
  intros [H | H]; [congruence | right; now apply IH].
Qed.

(** A row [(k, n)] is in the result exactly when [k] occurs in [l] and
    [n] is the number of its occurrences. *)
Lemma agrupar_spec (l : list A) (k : A) (n : Z) :
  In (k, n) (agrupar eq_dec l)
  <-> In k l /\ n = Z.of_nat (count_occ eq_dec l k).
Proof.
  destruct (agrupar_chaves l) as [Hnd Hin]. split.
  - intros H. split.
    + apply Hin. change k with (fst (k, n)). now apply in_map.
    + rewrite <- agrupar_total. symmetry. now apply total_de_in.
  - intros [Hk ->]. rewrite <- agrupar_total. apply in_total_de.
    now apply Hin.
Qed.
End AgruparFacts.

Lemma count_occ_map_quantos {A B : Type}
    (eq_dec : forall x y : B, {x = y} + {x <> y}) (f : A -> B) (k : B)
    (l : list A) :
  Z.of_nat (count_occ eq_dec (map f l) k) = quantos eq_dec f k l.
Proof.
  unfold quantos. f_equal.
  induction l as [|x t IH]; cbn; [reflexivity|].
  destruct (eq_dec (f x) k); cbn; now rewrite IH.
Qed.

Lemma quantos_pos {A B : Type}
    (eq_dec : forall x y : B, {x = y} + {x <> y}) (f : A -> B) (k : B)
    (l : list A) :
  0 < quantos eq_dec f k l <-> In k (map f l).
Proof.
  rewrite <- count_occ_map_quantos.
  rewrite (count_occ_In eq_dec (map f l) k). lia.
Qed.

Lemma sorted_le_nodup_lt {A : Type} (key : A -> Z) (l : list A) :
  StronglySorted (fun a b => key a <= key b) l ->
  NoDup (map key l) ->
  StronglySorted (fun a b => key a < key b) l.
Proof.
  induction 1 as [|x t Hs IH Hx]; intros Hnd; [constructor|].
  cbn in Hnd. inversion Hnd as [|? ? Hnot Hnd']; subst.
  constructor; [now apply IH|].
  rewrite Forall_forall in *. intros y Hy.
  specialize (Hx y Hy).
  assert (key x <> key y) by (intros E; apply Hnot; rewrite E; now apply in_map).
  lia.
Qed.

Lemma StronglySorted_impl {A : Type} (R S : A -> A -> Prop) (l : list A) :
  (forall a b, R a b -> S a b) -> StronglySorted R l -> StronglySorted S l.
Proof.
  intros HRS. induction 1 as [|x t Hs IH Hx]; constructor; [exact IH|].
  eapply Forall_impl; [|exact Hx]. intros a. apply HRS.
Qed.

(** ** Statistics of the log *)

Lemma logs_recentes_spec (agora : Z) (d : db) (l : log_row) :
  In l (logs_recentes agora d)
  <-> In l (linhas (logs_usuario d))
      /\ agora - 30 * 86400 <= l_timestamp l.
Proof.
  unfold logs_recentes, trinta_dias_atras.
  rewrite filter_In, Z.leb_le. reflexivity.
Qed.

(** C8. The daily counts of [estatisticas_logs] are in strictly
    ascending order of date, hence with at most one row for a date; a row
    [(dia, n)] is in the result exactly when [n] is the number of log
    rows not older than thirty days (from [agora], the time of the query)
    whose date is [dia], and that number is positive: a date without such
    rows has no row. *)
Theorem estat_diario_ultimos_30_dias :
  forall (agora : Z) (d : db),
    StronglySorted (fun a b => fst a < fst b) (estat_diario agora d)
    /\ (forall dia n,
          In (dia, n) (estat_diario agora d)
          <-> n = quantos Z.eq_dec (fun l => DATE (l_timestamp l)) dia
                    (logs_recentes agora d)
              /\ 0 < n)
    /\ (forall l,
          In l (logs_recentes agora d)
          <-> In l (linhas (logs_usuario d))
              /\ agora - 30 * 86400 <= l_timestamp l).
Proof.
  intros agora d.
  set (f := fun l : log_row => DATE (l_timestamp l)).
  set (le := fun a b : Z * Z => fst a <=? fst b).
  assert (E : estat_diario agora d
              = ordenar le (agrupar Z.eq_dec (map f (logs_recentes agora d))))
    by reflexivity.
  rewrite E. clear E.
  pose proof (ordenar_perm le (agrupar Z.eq_dec
                                 (map f (logs_recentes agora d)))) as Hperm.
  split; [|split].
  - apply sorted_le_nodup_lt.
    + eapply StronglySorted_impl; [|apply (ordenar_sorted le)].
      * intros a b H. unfold le in H. cbn beta in H. now apply Z.leb_le.
      * intros a b H. unfold le in *. cbn beta in *.
        apply Z.leb_gt in H. apply Z.leb_le. lia.
      * intros a b c H1 H2. unfold le in *. cbn beta in *.
        apply Z.leb_le in H1, H2. apply Z.leb_le. lia.
    + eapply Permutation_NoDup.
      * apply Permutation_map. symmetry. exact Hperm.
      * apply agrupar_chaves.
  - intros dia n. split.
    + intros H. apply (Permutation_in _ Hperm) in H.
      apply agrupar_spec in H. destruct H as [Hin ->].
      rewrite count_occ_map_quantos. split; [reflexivity|].
      exact (proj2 (quantos_pos _ _ _ _) Hin).
    + intros [-> Hpos].
      apply (Permutation_in _ (Permutation_sym Hperm)).
      apply agrupar_spec. rewrite count_occ_map_quantos.
      split; [|reflexivity].
      exact (proj1 (quantos_pos _ _ _ _) Hpos).
  - apply logs_recentes_spec.
Qed.

Lemma NoDup_map_fst_funcional {A B : Type} (f : A -> B) (l : list (A * B)) :
  (forall p, In p l -> snd p = f (fst p)) ->
  NoDup l -> NoDup (map fst l).
Proof.
  intros Hf. induction 1 as [|x t Hnot Hnd IH]; cbn; constructor.
  - intros Hin. apply in_map_iff in Hin. destruct Hin as (y & Hy & Hyt).
    apply Hnot. replace x with y; [exact Hyt|].
    destruct x as [a b], y as [a' b']. cbn in Hy. subst a'.
    pose proof (Hf (a, b) (or_introl eq_refl)) as E1.
    pose proof (Hf (a, b') (or_intror Hyt)) as E2.
    cbn in E1, E2. congruence.
  - apply IH. intros p Hp. apply Hf. now right.
Qed.

Lemma StronglySorted_map {A B : Type} (R : B -> B -> Prop) (g : A -> B)
    (l : list A) :
  StronglySorted (fun a b => R (g a) (g b)) l -> StronglySorted R (map g l).
Proof.
  induction 1 as [|x t Hs IH Hx]; cbn; constructor; [exact IH|].
  rewrite Forall_forall in *. intros y Hy.
  apply in_map_iff in Hy. destruct Hy as (z & <- & Hz). now apply Hx.
Qed.

Lemma quantos_ator (d : db) (uid : option Z) (l : list log_row) :
  quantos ator_dec
    (fun r => (l_usuario_id r, nome_usuario d (l_usuario_id r)))
    (uid, nome_usuario d uid) l
  = quantos Z_opt_dec l_usuario_id uid l.
Proof.
  unfold quantos. do 2 f_equal. apply filter_ext. intros r.
  destruct (ator_dec _ _) as [E|E], (Z_opt_dec _ _) as [E'|E'];
    try reflexivity.
  - injection E as E _. contradiction.
  - elim E. now rewrite E'.
Qed.

(** C9, as stated, fails: a log row with a NULL [usuario_id] is counted
    in a row whose name is NULL; no row of the result is named
    "unknown". *)
Lemma estat_usuarios_sem_rotulo_unknown :
  ~ (forall d : db,
       In None (map l_usuario_id (linhas (logs_usuario d))) ->
       exists n, In (Some "unknown", n) (estat_usuarios d)).
Proof.
  intros H.
  specialize (H (snd (login (fun s => s) 100 "bia" "x" db_exemplo))).
  destruct H as [n Hn]; [left; reflexivity|].
  vm_compute in Hn. destruct Hn as [Hn | []]. discriminate.
Qed.

(** C9, amended. The counts by actor have one row for each
    [usuario_id] found in the log, in descending order of total, with the
    name the users table has for that id and the number of log rows of
    that id.  The rows whose [usuario_id] is NULL form one of these
    groups; its name is NULL, and so is the name of an id that has no
    row in the users table. *)
Theorem estat_usuarios_por_ator :
  forall d : db,
    StronglySorted (fun a b => snd b <= snd a) (estat_usuarios d)
    /\ (exists grupos : list (option Z * option string * Z),
          estat_usuarios d = map (fun g => (snd (fst g), snd g)) grupos
          /\ NoDup (map (fun g => fst (fst g)) grupos)
          /\ forall uid nome n,
               In (uid, nome, n) grupos
               <-> nome = nome_usuario d uid
                   /\ n = quantos Z_opt_dec l_usuario_id uid
                            (linhas (logs_usuario d))
                   /\ 0 < n)
    /\ (In None (map l_usuario_id (linhas (logs_usuario d))) ->
        In (None,
            quantos Z_opt_dec l_usuario_id None (linhas (logs_usuario d)))
           (estat_usuarios d)).
Proof.
  intros d.
  set (logs := linhas (logs_usuario d)).
  set (f := fun r : log_row =>
              (l_usuario_id r, nome_usuario d (l_usuario_id r))).
  set (le := fun a b : option Z * option string * Z => snd b <=? snd a).
  set (grupos := ordenar le (agrupar ator_dec (map f logs))).
  assert (E : estat_usuarios d = map (fun g => (snd (fst g), snd g)) grupos)
    by reflexivity.
  pose proof (ordenar_perm le (agrupar ator_dec (map f logs))) as Hperm.
  fold grupos in Hperm.
  assert (Hspec : forall uid nome n,
             In (uid, nome, n) grupos
             <-> nome = nome_usuario d uid
                 /\ n = quantos Z_opt_dec l_usuario_id uid logs /\ 0 < n).
  { intros uid nome n. split.
    - intros H. apply (Permutation_in _ Hperm) in H.
      apply agrupar_spec in H. destruct H as [Hin ->].
      apply in_map_iff in Hin. destruct Hin as (r & Hr & Hrin).
      unfold f in Hr. injection Hr as Hu Hn. subst uid nome.
      split; [reflexivity|].
      rewrite count_occ_map_quantos. unfold f.
      rewrite quantos_ator. split; [reflexivity|].
      refine (proj2 (quantos_pos _ _ _ _) _). now apply in_map.
    - intros (-> & -> & Hpos).
      apply (Permutation_in _ (Permutation_sym Hperm)).
      apply agrupar_spec. rewrite count_occ_map_quantos.
      unfold f. rewrite quantos_ator. split; [|reflexivity].
      apply (proj1 (quantos_pos _ _ _ _)) in Hpos.
      apply in_map_iff in Hpos.
      destruct Hpos as (r & <- & Hr). apply in_map_iff. now exists r. }
  split; [|split].
  - rewrite E. apply StronglySorted_map. cbn [snd].
    eapply StronglySorted_impl; [|apply (ordenar_sorted le)].
    + intros a b H. unfold le in H. cbn beta in H. now apply Z.leb_le.
    + intros a b H. unfold le in *. cbn beta in *.
      apply Z.leb_gt in H. apply Z.leb_le. lia.
    + intros a b c H1 H2. unfold le in *. cbn beta in *.
      apply Z.leb_le in H1, H2. apply Z.leb_le. lia.
  - exists grupos. split; [exact E|]. split; [|exact Hspec].
    rewrite <- (map_map fst fst).
    apply (NoDup_map_fst_funcional (nome_usuario d)).
    + intros [u nm] Hp. cbn. apply in_map_iff in Hp.
      destruct Hp as ([[u' nm'] n] & Hfst & Hin). cbn in Hfst.
      injection Hfst as -> ->. now apply Hspec in Hin.
    + eapply Permutation_NoDup.
      * apply Permutation_map. symmetry. exact Hperm.
      * apply agrupar_chaves.
  - intros Hnone. rewrite E.
    apply in_map_iff. exists (None, None, quantos Z_opt_dec l_usuario_id None logs).
    split; [reflexivity|]. apply Hspec.
    split; [reflexivity|]. split; [reflexivity|].
    exact (proj2 (quantos_pos _ _ _ _) Hnone).
Qed.

(** The amended C9 after a failed login on [db_exemplo]: the one log
    row, with NULL actor, is the row [(None, 1)] of the result. *)
Lemma estat_usuarios_por_ator_witness :
  In None
     (map l_usuario_id
        (linhas (logs_usuario
                   (snd (login (fun s => s) 100 "bia" "x" db_exemplo)))))
  /\ In (None, 1)
        (estat_usuarios (snd (login (fun s => s) 100 "bia" "x" db_exemplo))).
Proof.
  split; [left; reflexivity|].
  destruct (estat_usuarios_por_ator
              (snd (login (fun s => s) 100 "bia" "x" db_exemplo)))
    as (_ & _ & H).
  apply H. left. reflexivity.
Defined.

(** ** JSON: strings *)

Lemma append_assoc (a b c : string) : (a ++ b) ++ c = a ++ (b ++ c).
Proof. induction a as [|x a IH]; cbn; [reflexivity | now rewrite IH]. Qed.

Lemma append_nil_r (a : string) : a ++ "" = a.
Proof. induction a as [|x a IH]; cbn; [reflexivity | now rewrite IH]. Qed.

Lemma length_append (a b : string) :
  String.length (a ++ b) = (String.length a + String.length b)%nat.
Proof. induction a as [|x a IH]; cbn; [reflexivity | now rewrite IH]. Qed.

(** Reading back the escape of one character. *)
Lemma scanstring_escape_char (c : ascii) (rest : string) :
  scanstring (escape_char c ++ rest)
  = prepend (String c "") (scanstring rest).
Proof.
  destruct c as [[] [] [] [] [] [] [] []]; reflexivity.
Qed.

Lemma scanstring_escape (s rest : string) :
  scanstring (escape s ++ String quote rest) = Some (s, rest).
Proof.
  induction s as [|c s IH]; [reflexivity|].
  cbn [escape]. rewrite append_assoc, scanstring_escape_char, IH.
  reflexivity.
Qed.

Lemma escape_char_length (c : ascii) :
  (1 <= String.length (escape_char c))%nat.
Proof.
  destruct c as [[] [] [] [] [] [] [] []]; cbn; lia.
Qed.

(** ** JSON: integers *)

Lemma fim_valor_sem_numero (r : string) :
  fim_valor r = true -> starts_with_digit r = false /\ float_tail r = false.
Proof.
  destruct r as [|c r]; [split; reflexivity|].
  cbn [fim_valor]. rewrite !orb_true_iff, !Ascii.eqb_eq.
  intros [[-> | ->] | ->]; split; reflexivity.
Qed.

Lemma span_digits_uint (d : Decimal.uint) (rest : string) :
  starts_with_digit rest = false ->
  span_digits (NilEmpty.string_of_uint d ++ rest)
  = (NilEmpty.string_of_uint d, rest).
Proof.
  intros H. induction d; cbn; try (rewrite IHd; reflexivity).
  destruct rest as [|c r]; [reflexivity|]. cbn in *. now rewrite H.
Qed.

Lemma to_uint_unorm (p : positive) :
  Decimal.unorm (Pos.to_uint p) = Pos.to_uint p.
Proof.
  rewrite <- DecimalN.Unsigned.to_of.
  unfold N.of_uint. now rewrite DecimalPos.Unsigned.of_to.
Qed.

Lemma to_uint_sem_zero_inicial (p : positive) (u : Decimal.uint) :
  Pos.to_uint p <> Decimal.D0 u.
Proof.
  intros E. pose proof (to_uint_unorm p) as H. rewrite E in H.
  unfold Decimal.unorm in H. cbn [Decimal.nzhead] in H.
  destruct (Decimal.nzhead u) eqn:En;
    try (apply (DecimalFacts.nzhead_nonzero u u); congruence).
  injection H as <-.
  now apply (DecimalPos.Unsigned.to_uint_nonzero p).
Qed.

Lemma scan_number_uint (neg : bool) (d : Decimal.uint) (rest : string) :
  d <> Decimal.Nil -> (forall u, d <> Decimal.D0 u) ->
  fim_valor rest = true ->
  scan_number
    ((if neg then "-" else "") ++ NilEmpty.string_of_uint d ++ rest)
  = Some (PInt (if neg then - Z.of_uint d else Z.of_uint d), rest).
Proof.
  intros Hnil Hzero Hfim.
  apply fim_valor_sem_numero in Hfim. destruct Hfim as [Hdig Hfloat].
  destruct neg; destruct d; try congruence;
    try (now elim (Hzero d));
    unfold scan_number; cbn [append NilEmpty.string_of_uint];
    cbn [is_digit Ascii.eqb Bool.eqb N_of_ascii N_of_digits N.leb N.compare
         Pos.compare Pos.compare_cont andb N.add N.mul Pos.add Pos.mul
         Pos.succ span_digits];
    rewrite (span_digits_uint d rest Hdig), Hfloat;
    cbn [NilEmpty.uint_of_string]; rewrite (NilEmpty.usu d);
    reflexivity.
Qed.

Lemma of_uint_to_uint (p : positive) : Z.of_uint (Pos.to_uint p) = Z.pos p.
Proof.
  unfold Z.of_uint. now rewrite DecimalPos.Unsigned.of_to.
Qed.

Lemma string_of_uint_nonnil (d : Decimal.uint) :
  d <> Decimal.Nil ->
  NilZero.string_of_uint d = NilEmpty.string_of_uint d.
Proof. destruct d; [congruence | reflexivity ..]. Qed.

(** Reading back the decimal text of an integer. *)
Lemma scan_number_str_int (z : Z) (rest : string) :
  fim_valor rest = true ->
  scan_number (str_int z ++ rest) = Some (PInt z, rest).
Proof.
  intros Hfim. destruct z as [|p|p]; unfold str_int; cbn [Z.to_int].
  - apply fim_valor_sem_numero in Hfim. destruct Hfim as [_ Hfloat].
    unfold scan_number. cbn. now rewrite Hfloat.
  - cbn [NilZero.string_of_int].
    rewrite string_of_uint_nonnil
      by apply DecimalPos.Unsigned.to_uint_nonnil.
    rewrite <- (of_uint_to_uint p).
    apply (scan_number_uint false); [| |exact Hfim].
    + apply DecimalPos.Unsigned.to_uint_nonnil.
    + intros u. apply to_uint_sem_zero_inicial.
  - cbn [NilZero.string_of_int].
    rewrite string_of_uint_nonnil
      by apply DecimalPos.Unsigned.to_uint_nonnil.
    change (Z.neg p) with (- Z.pos p). rewrite <- (of_uint_to_uint p).
    apply (scan_number_uint true); [| |exact Hfim].
    + apply DecimalPos.Unsigned.to_uint_nonnil.
    + intros u. apply to_uint_sem_zero_inicial.
Qed.

Lemma str_int_inicio (z : Z) :
  exists c s, str_int z = String c s
              /\ (Ascii.eqb c "-" || is_digit c) = true.
Proof.
  destruct z as [|p|p]; unfold str_int; cbn [Z.to_int NilZero.string_of_int].
  - now exists "0"%char, "".
  - pose proof (DecimalPos.Unsigned.to_uint_nonnil p) as H.
    destruct (Pos.to_uint p); [congruence | ..];
      cbn; eexists; eexists; split; reflexivity.
  - eexists; eexists; split; reflexivity.
Qed.

(** A text that starts with a minus or a digit is read as a number. *)
Lemma scan_once_numero (n : nat) (c : ascii) (t : string) :
  (Ascii.eqb c "-" || is_digit c) = true ->
  scan_once (S n) (String c t) = scan_number (String c t)
  /\ inicio_ok (String c t) = true.
Proof.
  destruct c as [[] [] [] [] [] [] [] []]; cbn; intros H;
    try discriminate H; split; reflexivity.
Qed.

Lemma skip_ws_inicio_ok (s : string) : inicio_ok s = true -> skip_ws s = s.
Proof.
  destruct s as [|c t]; [reflexivity|]. cbn.
  destruct (is_ws c); [discriminate | reflexivity].
Qed.

Lemma dumps_inicio_ok (v : pyval) (r : string) :
  inicio_ok (json_dumps v ++ r) = true.
Proof.
  destruct v as [| [] | z | s | l | d]; try reflexivity.
  cbn [json_dumps]. destruct (str_int_inicio z) as (c & s & -> & H).
  cbn [append]. now apply (scan_once_numero 0).
Qed.

(** ** JSON: values *)

(** Induction on a value with the hypothesis for every element of a list
    and every value of a dictionary. *)
Lemma pyval_ind_aninhada (P : pyval -> Prop) :
  P PNone ->
  (forall b, P (PBool b)) ->
  (forall z, P (PInt z)) ->
  (forall s, P (PStr s)) ->
  (forall l, Forall P l -> P (PList l)) ->
  (forall d, Forall (fun kv => P (snd kv)) d -> P (PDict d)) ->
  forall v, P v.
Proof.
  intros HN HB HI HS HL HD.
  fix IH 1. intros [| b | z | s | l | d].
  - exact HN.
  - apply HB.
  - apply HI.
  - apply HS.
  - apply HL. induction l as [|x t IHt]; constructor; [apply IH | exact IHt].
  - apply HD.
    induction d as [|[k x] t IHt]; constructor; [apply IH | exact IHt].
Qed.

Lemma scan_once_lista (n : nat) (t : string) :
  inicio_ok t = true ->
  scan_once (S n) (String "[" t)
  = match scan_elems n t with
    | Some (l, r) => Some (PList l, r)
    | None => None
    end.
Proof.
  intros H. pose proof (skip_ws_inicio_ok t H) as Hws.
  destruct t as [|c r]; [discriminate|].
  cbn [inicio_ok] in H. apply andb_true_iff in H. destruct H as [H _].
  apply andb_true_iff in H. destruct H as [_ H].
  apply negb_true_iff in H.
  change (scan_once (S n) (String "[" (String c r)))
    with (match skip_ws (String c r) with
          | EmptyString => None
          | String c' r0 =>
              if Ascii.eqb c' "]" then Some (PList [], r0)
              else
                match scan_elems n (String c' r0) with
                | Some (l, r') => Some (PList l, r')
                | None => None
                end
          end).
  rewrite Hws, H. reflexivity.
Qed.

Lemma scan_once_dict (n : nat) (t : string) :
  inicio_ok t = true ->
  scan_once (S n) (String "{" t)
  = match scan_members n t with
    | Some (ps, r) => Some (PDict (dict_of_pairs ps), r)
    | None => None
    end.
Proof.
  intros H. pose proof (skip_ws_inicio_ok t H) as Hws.
  destruct t as [|c r]; [discriminate|].
  cbn [inicio_ok] in H. apply andb_true_iff in H. destruct H as [_ H].
  apply negb_true_iff in H.
  change (scan_once (S n) (String "{" (String c r)))
    with (match skip_ws (String c r) with
          | EmptyString => None
          | String c' r0 =>
              if Ascii.eqb c' "}" then Some (PDict [], r0)
              else
                match scan_members n (String c' r0) with
                | Some (ps, r') => Some (PDict (dict_of_pairs ps), r')
                | None => None
                end
          end).
  rewrite Hws, H. reflexivity.
Qed.

Lemma scan_elems_passo (n : nat) (s : string) :
  scan_elems (S n) s
  = match scan_once n s with
    | None => None
    | Some (v, r) =>
        match skip_ws r with
        | EmptyString => None
        | String c r' =>
            if Ascii.eqb c "," then
              match scan_elems n (skip_ws r') with
              | Some (l, r'') => Some (v :: l, r'')
              | None => None
              end
            else if Ascii.eqb c "]" then Some ([v], r')
            else None
        end
    end.
Proof. reflexivity. Qed.

Lemma scan_members_passo (n : nat) (t : string) :
  scan_members (S n) (String quote t)
  = match scanstring t with
    | None => None
    | Some (k, r) =>
        match skip_ws r with
        | EmptyString => None
        | String c1 r1 =>
            if Ascii.eqb c1 ":" then
              match scan_once n (skip_ws r1) with
              | None => None
              | Some (v, r2) =>
                  match skip_ws r2 with
                  | EmptyString => None
                  | String c2 r3 =>
                      if Ascii.eqb c2 "," then
                        match scan_members n (skip_ws r3) with
                        | Some (ps, r4) => Some ((k, v) :: ps, r4)
                        | None => None
                        end
                      else if Ascii.eqb c2 "}" then Some ([(k, v)], r3)
                      else None
                  end
              end
            else None
        end
    end.
Proof. reflexivity. Qed.

Lemma join_um (sep x : string) : join sep [x] = x.
Proof. reflexivity. Qed.

Lemma join_mais (sep x y : string) (t : list string) :
  join sep (x :: y :: t) = x ++ sep ++ join sep (y :: t).
Proof. reflexivity. Qed.

Lemma join_dumps_inicio (x : pyval) (t : list pyval) (r : string) :
  inicio_ok (join ", " (map json_dumps (x :: t)) ++ r) = true.
Proof.
  destruct t; cbn [map]; [rewrite join_um | rewrite join_mais, append_assoc];
    apply dumps_inicio_ok.
Qed.

Lemma scan_once_texto (n : nat) (t : string) :
  scan_once (S n) (String quote t)
  = match scanstring t with
    | Some (x, r) => Some (PStr x, r)
    | None => None
    end.
Proof. reflexivity. Qed.

Lemma scan_elems_dumps (l : list pyval) :
  Forall decodifica_bem l ->
  forallb str_keys l = true -> forallb py_wf l = true -> l <> [] ->
  forall (n : nat) (rest : string),
    (fold_right (fun x m => S (custo x + m)) O l <= n)%nat ->
    scan_elems n (join ", " (map json_dumps l) ++ String "]" rest)
    = Some (l, rest).
Proof.
  induction 1 as [|x t Hx Ht IH]; [congruence|].
  cbn [forallb fold_right]. intros Hk Hw _ n rest Hn.
  apply andb_true_iff in Hk, Hw.
  destruct Hk as [Hkx Hkt], Hw as [Hwx Hwt].
  destruct n as [|n]; [lia|]. rewrite scan_elems_passo.
  destruct t as [|y t'].
  - cbn [map]. rewrite join_um.
    rewrite (Hx Hkx Hwx n (String "]" rest)); [reflexivity | lia | reflexivity].
  - assert (Hini : inicio_ok
                     (join ", " (map json_dumps (y :: t')) ++ String "]" rest)
                   = true) by apply join_dumps_inicio.
    assert (Hrec : scan_elems n
                     (join ", " (map json_dumps (y :: t')) ++ String "]" rest)
                   = Some (y :: t', rest)).
    { apply IH; [exact Hkt | exact Hwt | discriminate |].
      cbn [fold_right] in Hn |- *. lia. }
    change (map json_dumps (x :: y :: t'))
      with (json_dumps x :: map json_dumps (y :: t')).
    destruct (map json_dumps (y :: t')) as [|jy jt] eqn:Emap;
      [discriminate Emap|].
    rewrite join_mais, !append_assoc.
    remember (join ", " (jy :: jt) ++ String "]" rest) as X eqn:EX.
    cbn [append].
    rewrite (Hx Hkx Hwx n (String "," (String " " X)));
      [| cbn [fold_right] in Hn; lia | reflexivity].
    cbn. rewrite (skip_ws_inicio_ok X Hini), Hrec. reflexivity.
Qed.

Lemma membro_texto (s D R : string) :
  (encode_basestring s ++ ": " ++ D) ++ R
  = String quote (escape s ++ String quote (String ":" (String " " (D ++ R)))).
Proof.
  unfold encode_basestring. cbn [append]. f_equal.
  rewrite !append_assoc. reflexivity.
Qed.

Lemma scan_members_dumps (d : pydict) :
  Forall (fun kv => decodifica_bem (snd kv)) d ->
  str_keys (PDict d) = true -> py_wf (PDict d) = true -> d <> [] ->
  forall (n : nat) (rest : string),
    (fold_right (fun kv m => S (custo (snd kv) + m)) O d <= n)%nat ->
    scan_members n
      (join ", "
         (map (fun kv => encode_basestring (key_text (fst kv))
                           ++ ": " ++ json_dumps (snd kv)) d)
       ++ String "}" rest)
    = Some (map (fun kv => (key_text (fst kv), snd kv)) d, rest).
Proof.
  induction 1 as [|[k x] t Hx Ht IH]; [congruence|].
  intros Hk Hw _ n rest Hn. cbn [snd] in Hx.
  cbn [str_keys forallb fst snd] in Hk.
  apply andb_true_iff in Hk. destruct Hk as [Hkx Hkt].
  apply andb_true_iff in Hkx. destruct Hkx as [_ Hkx].
  change (forallb (fun kv => is_str_key (fst kv) && str_keys (snd kv)) t)
    with (str_keys (PDict t)) in Hkt.
  cbn [py_wf] in Hw.
  apply andb_true_iff in Hw. destruct Hw as [Hw Hwt].
  apply andb_true_iff in Hw. destruct Hw as [_ Hwx].
  change (py_wf (PDict t) = true) in Hwt.
  cbn [fold_right snd] in Hn.
  destruct n as [|n]; [lia|].
  cbn [map fst snd].
  destruct t as [|[k' y] t'].
  - rewrite join_um, membro_texto, scan_members_passo, scanstring_escape.
    cbn [skip_ws is_ws N_of_ascii N_of_digits N.eqb N.add N.mul Pos.eqb orb
         Ascii.eqb Bool.eqb andb negb].
    cbn. rewrite (skip_ws_inicio_ok _ (dumps_inicio_ok x _)).
    rewrite (Hx Hkx Hwx n (String "}" rest)); [reflexivity | lia | reflexivity].
  - set (membro := fun kv : pykey * pyval =>
                     encode_basestring (key_text (fst kv))
                       ++ ": " ++ json_dumps (snd kv)) in *.
    assert (Hini : inicio_ok
                     (join ", " (map membro ((k', y) :: t')) ++ String "}" rest)
                   = true).
    { cbn [map]. destruct (map membro t');
        [rewrite join_um | rewrite join_mais, append_assoc]; reflexivity. }
    assert (Hrec : scan_members n
                     (join ", " (map membro ((k', y) :: t')) ++ String "}" rest)
                   = Some (map (fun kv => (key_text (fst kv), snd kv))
                               ((k', y) :: t'), rest)).
    { apply IH; [exact Hkt | exact Hwt | discriminate |]. lia. }
    change (map membro ((k', y) :: t'))
      with (membro (k', y) :: map membro t') in *.
    rewrite join_mais, append_assoc.
    remember (join ", " (membro (k', y) :: map membro t') ++ String "}" rest)
      as X eqn:EX.
    change (", " ++ join ", " (membro (k', y) :: map membro t'))
      with (String "," (String " " (join ", " (membro (k', y) :: map membro t')))).
    rewrite membro_texto, scan_members_passo, scanstring_escape.
    cbn [append]. rewrite <- EX.
    cbn. rewrite (skip_ws_inicio_ok _ (dumps_inicio_ok x _)).
    rewrite (Hx Hkx Hwx n (String "," (String " " X)));
      [| lia | reflexivity].
    cbn. rewrite (skip_ws_inicio_ok X Hini), Hrec. reflexivity.
Qed.

Lemma existsb_false_in {A : Type} (f : A -> bool) (l : list A) :
  existsb f l = false -> forall x, In x l -> f x = false.
Proof.
  intros H x Hx. destruct (f x) eqn:E; [|reflexivity].
  rewrite <- H. symmetry. apply existsb_exists. now exists x.
Qed.

Lemma key_eqb_sym (a b : pykey) : key_eqb a b = key_eqb b a.
Proof.
  destruct a, b; cbn; try reflexivity;
    try apply Z.eqb_sym; try apply String.eqb_sym.
Qed.

Lemma dict_set_novo (k : pykey) (v : pyval) (acc : pydict) :
  existsb (fun kv => key_eqb k (fst kv)) acc = false ->
  dict_set k v acc = (acc ++ [(k, v)])%list.
Proof.
  induction acc as [|[k' v'] t IH]; cbn; [reflexivity|].
  intros H. apply orb_false_iff in H. destruct H as [H1 H2].
  rewrite H1. now rewrite IH.
Qed.

(** [dict(pairs)] of the pairs of a dictionary with distinct [str] keys
    is that dictionary. *)
Lemma dict_of_pairs_volta (d acc : pydict) :
  str_keys (PDict d) = true -> py_wf (PDict d) = true ->
  (forall kv, In kv d ->
              existsb (fun a => key_eqb (fst kv) (fst a)) acc = false) ->
  fold_left (fun a kv => dict_set (KStr (fst kv)) (snd kv) a)
    (map (fun kv => (key_text (fst kv), snd kv)) d) acc
  = (acc ++ d)%list.
Proof.
  revert acc. induction d as [|[k x] t IH]; intros acc Hk Hw Hacc.
  - cbn. now rewrite app_nil_r.
  - cbn [str_keys forallb fst snd] in Hk.
    apply andb_true_iff in Hk. destruct Hk as [Hkx Hkt].
    apply andb_true_iff in Hkx. destruct Hkx as [Hstr _].
    change (forallb (fun kv => is_str_key (fst kv) && str_keys (snd kv)) t)
      with (str_keys (PDict t)) in Hkt.
    cbn [py_wf] in Hw.
    apply andb_true_iff in Hw. destruct Hw as [Hw Hwt].
    apply andb_true_iff in Hw. destruct Hw as [Hnovo _].
    change (py_wf (PDict t) = true) in Hwt.
    apply negb_true_iff in Hnovo.
    destruct k as [| | |s]; try discriminate Hstr.
    cbn [map fold_left fst snd key_text].
    rewrite dict_set_novo by (apply (Hacc (KStr s, x)); now left).
    rewrite IH; [now rewrite <- app_assoc | exact Hkt | exact Hwt |].
    intros kv Hin. rewrite existsb_app. apply orb_false_iff. split.
    + apply Hacc. now right.
    + cbn. rewrite orb_false_r, key_eqb_sym.
      exact (existsb_false_in _ _ Hnovo kv Hin).
Qed.

(** The text [json.dumps] writes is read back value by value. *)
Lemma scan_once_dumps : forall v : pyval, decodifica_bem v.
Proof.
  apply pyval_ind_aninhada; unfold decodifica_bem.
  - intros _ _ [|n] rest Hn _; [cbn in Hn; lia | reflexivity].
  - intros [] _ _ [|n] rest Hn _; (cbn in Hn; lia) || reflexivity.
  - intros z _ _ [|n] rest Hn Hf; [cbn in Hn; lia|].
    cbn [json_dumps].
    pose proof (scan_number_str_int z rest Hf) as Hsn.
    destruct (str_int_inicio z) as (c & s & E & H).
    rewrite E in *. cbn [append] in *.
    now rewrite (proj1 (scan_once_numero n c _ H)).
  - intros s _ _ [|n] rest Hn _; [cbn in Hn; lia|].
    cbn [json_dumps]. unfold encode_basestring. cbn [append].
    rewrite append_assoc. cbn [append].
    now rewrite scan_once_texto, scanstring_escape.
  - intros l Hall Hk Hw [|n] rest Hn _; [cbn in Hn; lia|].
    cbn [custo] in Hn. cbn [str_keys] in Hk. cbn [py_wf] in Hw.
    destruct l as [|x t]; [reflexivity|].
    cbn [json_dumps append]. rewrite append_assoc. cbn [append].
    rewrite scan_once_lista by apply join_dumps_inicio.
    rewrite (scan_elems_dumps (x :: t) Hall Hk Hw); [reflexivity | discriminate | lia].
  - intros d Hall Hk Hw [|n] rest Hn _; [cbn in Hn; lia|].
    cbn [custo] in Hn.
    destruct d as [|kv t]; [reflexivity|].
    cbn [json_dumps append]. rewrite append_assoc. cbn [append].
    rewrite scan_once_dict.
    + rewrite (scan_members_dumps (kv :: t) Hall Hk Hw);
        [| discriminate | lia].
      unfold dict_of_pairs.
      rewrite (dict_of_pairs_volta (kv :: t) [] Hk Hw); [reflexivity|].
      reflexivity.
    + cbn [map]. destruct (map _ t);
        [rewrite join_um | rewrite join_mais, append_assoc]; reflexivity.
Qed.

Lemma custo_join {A : Type} (f : A -> nat) (g : A -> string) (l : list A) :
  Forall (fun a => (f a <= String.length (g a))%nat) l ->
  (fold_right (fun a m => S (f a + m)) O l
   <= S (String.length (join ", " (map g l))))%nat.
Proof.
  induction 1 as [|x t Hx Ht IH]; [cbn; lia|].
  destruct t as [|y t'].
  - cbn [map fold_right]. rewrite join_um. lia.
  - change (map g (x :: y :: t')) with (g x :: g y :: map g t').
    rewrite join_mais, !length_append.
    change (map g (y :: t')) with (g y :: map g t') in IH.
    cbn [fold_right] in IH |- *. cbn [String.length]. lia.
Qed.

Lemma custo_le_length (v : pyval) :
  (custo v <= String.length (json_dumps v))%nat.
Proof.
  induction v as [| [] | z | s | l IH | d IH] using pyval_ind_aninhada;
    try (cbn; lia).
  - cbn [custo json_dumps].
    destruct (str_int_inicio z) as (c & s & -> & _). cbn. lia.
  - cbn [custo json_dumps]. rewrite !length_append. cbn [String.length].
    pose proof (custo_join custo json_dumps l IH). lia.
  - cbn [custo json_dumps]. rewrite !length_append. cbn [String.length].
    pose proof
      (custo_join (fun kv => custo (snd kv))
         (fun kv => encode_basestring (key_text (fst kv))
                      ++ ": " ++ json_dumps (snd kv)) d) as H.
    assert (Hd : Forall
                   (fun a : pykey * pyval =>
                      (custo (snd a)
                       <= String.length
                            (encode_basestring (key_text (fst a))
                               ++ ": " ++ json_dumps (snd a)))%nat) d).
    { eapply Forall_impl; [|exact IH]. intros a Ha. cbn beta in Ha.
      rewrite !length_append. lia. }
    specialize (H Hd). lia.
Qed.

(** [json.loads(json.dumps(v, ensure_ascii=False))] is [v] when the keys
    of [v] are strings. *)
Lemma json_loads_dumps (v : pyval) :
  str_keys v = true -> py_wf v = true ->
  json_loads (json_dumps v) = Some v.
Proof.
  intros Hk Hw. unfold json_loads.
  pose proof (dumps_inicio_ok v "") as Hini. rewrite append_nil_r in Hini.
  rewrite (skip_ws_inicio_ok _ Hini).
  pose proof (scan_once_dumps v Hk Hw (S (String.length (json_dumps v))) "")
    as H.
  rewrite append_nil_r in H. rewrite H; [reflexivity| |reflexivity].
  pose proof (custo_le_length v). lia.
Qed.

(** ** Reading the log *)

Lemma filter_todos {A : Type} (f : A -> bool) (l : list A) :
  (forall x, f x = true) -> filter f l = l.
Proof.
  intros H. induction l as [|x t IH]; cbn; [reflexivity|].
  now rewrite H, IH.
Qed.

Lemma limitar_tudo {A : Type} (n : Z) (l : list A) :
  n < 0 \/ Z.of_nat (List.length l) <= n -> limitar n l = l.
Proof.
  intros H. unfold limitar. destruct (n <? 0) eqn:E; [reflexivity|].
  apply Z.ltb_ge in E. apply firstn_all2. lia.
Qed.

Lemma max_id_cota {R : Type} (id : R -> Z) (l : list R) (r : R) :
  In r l -> id r <= max_id id l.
Proof.
  unfold max_id. induction l as [|x t IH]; cbn [In fold_right]; [tauto|].
  intros [-> | H]; [lia | specialize (IH H); lia].
Qed.

Lemma find_unico {A : Type} (p : A -> bool) (l : list A) (x : A) :
  In x l -> p x = true ->
  (forall y, In y l -> p y = true -> y = x) ->
  find p l = Some x.
Proof.
  induction l as [|a t IH]; cbn; [tauto|].
  intros Hin Hx Huniq. destruct (p a) eqn:E.
  - f_equal. apply Huniq; [now left | exact E].
  - destruct Hin as [-> | Hin]; [congruence|].
    apply IH; [exact Hin | exact Hx |].
    intros y Hy. apply Huniq. now right.
Qed.

(** The row [registrar_log] has just written is in the result of an
    unfiltered [buscar_logs] whose limit leaves no row out. *)
Lemma buscar_logs_linha_nova (agora : Z) (usuario_id : option Z)
    (acao tabela_afetada : string) (registro_id : option Z)
    (detalhes : detalhes_arg) (status : string)
    (ip_address user_agent : option string) (d : db) (limite : Z) :
  let d' :=
    snd (registrar_log agora usuario_id acao tabela_afetada registro_id
           detalhes status ip_address user_agent d) in
  let k := proximo_id l_id (logs_usuario d) in
  limite < 0 \/ Z.of_nat (List.length (linhas (logs_usuario d'))) <= limite ->
  exists rows nome,
    fst (buscar_logs None None None None None limite d') = Ok rows
    /\ find (fun r => l_id (fst r) =? k) rows
       = Some (mk_log k usuario_id acao tabela_afetada registro_id
                 (detalhes_texto detalhes) ip_address user_agent agora
                 status, nome).
Proof.
  intros d' k Hlim.
  set (novo := mk_log k usuario_id acao tabela_afetada registro_id
                 (detalhes_texto detalhes) ip_address user_agent agora
                 status).
  assert (Hrows : linhas (logs_usuario d')
                  = (linhas (logs_usuario d) ++ [novo])%list) by reflexivity.
  set (le := fun a b : log_row => l_timestamp b <=? l_timestamp a).
  pose proof (ordenar_perm le (linhas (logs_usuario d'))) as Hperm.
  eexists. exists (nome_usuario d' usuario_id). split.
  - unfold buscar_logs. run_m. reflexivity.
  - rewrite filter_todos by reflexivity. fold le.
    rewrite limitar_tudo
      by (rewrite (Permutation_length Hperm); exact Hlim).
    apply find_unico.
    + apply (in_map (fun l => (l, nome_usuario d' (l_usuario_id l)))
               _ novo).
      apply (Permutation_in _ (Permutation_sym Hperm)).
      rewrite Hrows. apply in_or_app. right. now left.
    + cbn. apply Z.eqb_refl.
    + intros [l nm] Hy Hid. cbn [fst] in Hid. apply Z.eqb_eq in Hid.
      apply in_map_iff in Hy. destruct Hy as (l' & E & Hl').
      injection E as -> <-.
      apply (Permutation_in _ Hperm) in Hl'. rewrite Hrows in Hl'.
      apply in_app_or in Hl'. destruct Hl' as [Hl' | [<- | []]];
        [|reflexivity].
      pose proof (max_id_cota l_id _ _ Hl') as Hmax.
      unfold k, proximo_id in Hid. lia.
Qed.

(** C6, as stated, fails: [json.dumps] writes every key as a string, so
    the mapping [{1: "a"}] comes back as [{"1": "a"}], which Python's
    [==] tells apart from it. *)
Lemma detalhes_chave_inteira_nao_volta :
  ~ (forall dd : pydict,
       exists v,
         ler_detalhes (-1) 1
           (snd (registrar_log 0 None "CRIAR" "usuarios" None (DDict dd)
                   "sucesso" None None db_vazio))
         = Some v
         /\ py_eqb v (PDict dd) = true).
Proof.
  intros H. destruct (H [(KInt 1, PStr "a")]) as (v & Hv & He).
  vm_compute in Hv. injection Hv as <-.
  vm_compute in He. discriminate He.
Qed.


(** * Further properties of the code *)

(** ** Tables *)

Section TabelaMais.
Context {R : Type} (id : R -> Z).

Lemma proximo_id_fresco (t : tabela R) (r : R) :
  In r (linhas t) -> id r < proximo_id id t.
Proof.
  intros H. unfold proximo_id.
  pose proof (max_id_cota id (linhas t) r H). lia.
Qed.

Lemma selecionar_in (k : Z) (t : tabela R) (r : R) :
  selecionar_por_id id k t = Some r -> In r (linhas t) /\ id r = k.
Proof.
  unfold selecionar_por_id. intros H. apply find_some in H.
  destruct H as [H1 H2]. split; [exact H1 | now apply Z.eqb_eq].
Qed.

Lemma selecionar_nodup (t : tabela R) (r : R) :
  NoDup (map id (linhas t)) -> In r (linhas t) ->
  selecionar_por_id id (id r) t = Some r.
Proof.
  unfold selecionar_por_id.
  induction (linhas t) as [|a l IH]; cbn; [tauto|].
  intros Hnd [-> | Hin].
  - now rewrite Z.eqb_refl.
  - inversion Hnd as [|? ? Hnot Hnd']; subst.
    destruct (id a =? id r) eqn:E.
    + apply Z.eqb_eq in E. elim Hnot. rewrite E. now apply in_map.
    + now apply IH.
Qed.

Lemma selecionar_none (k : Z) (t : tabela R) :
  selecionar_por_id id k t = None <->
  (forall r, In r (linhas t) -> id r <> k).
Proof.
  unfold selecionar_por_id. rewrite find_none_iff.
  split; intros H r Hr; specialize (H r Hr).
  - now apply Z.eqb_neq.
  - now apply Z.eqb_neq.
Qed.

Lemma selecionar_atualizar (k k' : Z) (f : R -> R) (t : tabela R) :
  (forall r, id (f r) = id r) ->
  selecionar_por_id id k' (atualizar_por_id id k f t)
  = if k' =? k then option_map f (selecionar_por_id id k' t)
    else selecionar_por_id id k' t.
Proof.
  intros Hf. unfold selecionar_por_id, atualizar_por_id; cbn [linhas].
  induction (linhas t) as [|a l IH]; cbn.
  - now destruct (k' =? k).
  - destruct (id a =? k) eqn:Ea.
    + rewrite Hf. destruct (id a =? k') eqn:Ea'.
      * apply Z.eqb_eq in Ea, Ea'. subst.
        now rewrite Z.eqb_refl.
      * exact IH.
    + destruct (id a =? k') eqn:Ea'.
      * apply Z.eqb_eq in Ea'. subst k'. now rewrite Ea.
      * exact IH.
Qed.

Lemma selecionar_inserir (k k' : Z) (r : R) (t : tabela R) :
  id r = k ->
  (forall x, In x (linhas t) -> id x <> k) ->
  selecionar_por_id id k' (inserir k r t)
  = if k' =? k then Some r else selecionar_por_id id k' t.
Proof.
  intros Hr Hfresh. unfold selecionar_por_id, inserir; cbn [linhas].
  induction (linhas t) as [|a l IH]; cbn.
  - rewrite Hr, Z.eqb_sym. now destruct (k' =? k).
  - destruct (id a =? k') eqn:Ea.
    + apply Z.eqb_eq in Ea. subst k'.
      assert (Hne : id a <> k) by (apply Hfresh; now left).
      apply Z.eqb_neq in Hne. now rewrite Hne.
    + apply IH. intros x Hx. apply Hfresh. now right.
Qed.

Lemma selecionar_deletar_outro (k k' : Z) (t : tabela R) :
  k' <> k ->
  selecionar_por_id id k' (deletar_por_id id k t)
  = selecionar_por_id id k' t.
Proof.
  intros Hne. unfold selecionar_por_id, deletar_por_id; cbn [linhas].
  induction (linhas t) as [|a l IH]; cbn; [reflexivity|].
  destruct (id a =? k) eqn:Ea; cbn.
  - apply Z.eqb_eq in Ea. subst k.
    assert (E : (id a =? k') = false) by (apply Z.eqb_neq; congruence).
    now rewrite E.
  - destruct (id a =? k'); [reflexivity | exact IH].
Qed.

Lemma atualizar_ausente (k : Z) (f : R -> R) (t : tabela R) :
  selecionar_por_id id k t = None -> atualizar_por_id id k f t = t.
Proof.
  intros H. destruct t as [l s]. unfold atualizar_por_id; cbn [linhas seq].
  f_equal. rewrite selecionar_none in H. cbn [linhas] in H.
  induction l as [|a l IH]; cbn; [reflexivity|].
  assert (E : (id a =? k) = false) by (apply Z.eqb_neq, H; now left).
  rewrite E. f_equal. apply IH. intros r Hr. apply H. now right.
Qed.

Lemma deletar_ausente (k : Z) (t : tabela R) :
  selecionar_por_id id k t = None -> deletar_por_id id k t = t.
Proof.
  intros H. destruct t as [l s]. unfold deletar_por_id; cbn [linhas seq].
  f_equal. rewrite selecionar_none in H. cbn [linhas] in H.
  induction l as [|a l IH]; cbn; [reflexivity|].
  assert (E : (id a =? k) = false) by (apply Z.eqb_neq, H; now left).
  rewrite E. cbn. f_equal. apply IH. intros r Hr. apply H. now right.
Qed.
End TabelaMais.

(** ** Users and credentials *)

Lemma credencial_ok_nome (usuario h : string) (a : usuario_row) :
  credencial_ok usuario h a = true -> u_usuario a = usuario.
Proof.
  unfold credencial_ok. intros H.
  apply andb_true_iff in H. destruct H as [H _].
  apply andb_true_iff in H. destruct H as [H _].
  now apply String.eqb_eq.
Qed.

(** With [usuario] UNIQUE, the SELECT of [login] finds the row of the
    login name or nothing. *)
Lemma find_credencial (h : string) (l : list usuario_row) (u : usuario_row) :
  NoDup (map u_usuario l) -> In u l ->
  find (credencial_ok (u_usuario u) h) l
  = if String.eqb (u_senha u) h && (u_ativo u =? 1) then Some u else None.
Proof.
  induction l as [|a l IH]; cbn [find In map]; [tauto|].
  intros Hnd Hin. inversion Hnd as [|? ? Hnot Hnd']; subst.
  destruct Hin as [-> | Hin].
  - unfold credencial_ok at 1. rewrite String.eqb_refl. cbn [andb].
    destruct (String.eqb (u_senha u) h && (u_ativo u =? 1)); [reflexivity|].
    apply find_none_iff. intros x Hx.
    destruct (credencial_ok (u_usuario u) h x) eqn:E; [|reflexivity].
    apply credencial_ok_nome in E. elim Hnot. rewrite <- E.
    now apply in_map.
  - destruct (credencial_ok (u_usuario u) h a) eqn:E.
    + apply credencial_ok_nome in E. elim Hnot. rewrite E.
      now apply in_map.
    + now apply IH.
Qed.

Lemma esquema_ok_db_exemplo : esquema_ok db_exemplo.
Proof.
  unfold esquema_ok, db_exemplo; cbn.
  repeat split;
    repeat (constructor; [cbn; intuition congruence|]); constructor.
Qed.

(** X1. A login with the name of an active user and the password whose
    digest is stored returns the row [(id, usuario, nome, nivel_acesso,
    1)] of that user, appends exactly one log entry, with
    [acao = 'LOGIN'], the user as actor and as record and
    [status = 'sucesso'], sets [ultimo_login] of that user to the time of
    the call and changes nothing else. *)
Theorem login_sucesso :
  forall (hash_senha : string -> string) (agora : Z) (senha : string)
         (d : db) (u : usuario_row),
    esquema_ok d ->
    In u (linhas (usuarios d)) ->
    u_senha u = hash_senha senha ->
    u_ativo u = 1 ->
    let r := login hash_senha agora (u_usuario u) senha d in
    fst r = Ok (Some [ PInt (u_id u); PStr (u_usuario u); PStr (u_nome u);
                       PStr (u_nivel_acesso u); PInt 1 ])
    /\ linhas (logs_usuario (snd r))
       = (linhas (logs_usuario d)
          ++ [ mk_log (proximo_id l_id (logs_usuario d)) (Some (u_id u))
                 "LOGIN" "usuarios" (Some (u_id u))
                 (Some ("Login realizado com sucesso para usuário: "
                        ++ u_usuario u)%string)
                 None None agora "sucesso" ])%list
    /\ (forall k,
          selecionar_por_id u_id k (usuarios (snd r))
          = if k =? u_id u
            then Some (mk_usuario (u_id u) (u_usuario u) (u_senha u)
                         (u_nome u) (u_email u) (u_nivel_acesso u)
                         (u_ativo u) (u_data_cadastro u) (Some agora))
            else selecionar_por_id u_id k (usuarios d))
    /\ solicitantes (snd r) = solicitantes d
    /\ protocolos (snd r) = protocolos d.
Proof.
  intros hash_senha agora senha d u (Hid & Hnome & _) Hin Hsenha Hativo r.
  subst r. unfold login. run_m.
  rewrite (find_credencial _ _ u Hnome Hin).
  rewrite Hsenha, String.eqb_refl, Hativo. cbn [andb Z.eqb Pos.eqb fst snd].
  unfold tuple_login. rewrite Hativo.
  repeat split.
  intros k. cbn [usuarios set_logs set_usuarios].
  rewrite selecionar_atualizar by reflexivity.
  destruct (k =? u_id u) eqn:E; [|reflexivity].
  apply Z.eqb_eq in E. subst k.
  rewrite (selecionar_nodup u_id _ u Hid Hin). cbn [option_map].
  now rewrite Hsenha, Hativo.
Qed.

Lemma login_sucesso_witness :
  fst (login (fun s => s) 100 "admin" "admin123" db_exemplo)
  = Ok (Some [ PInt 1; PStr "admin"; PStr "Administrador"; PStr "admin";
               PInt 1 ]).
Proof.
  exact (proj1 (login_sucesso (fun s => s) 100 "admin123" db_exemplo
                  (mk_usuario 1 "admin" "admin123" "Administrador" None
                     "admin" 1 0 None)
                  esquema_ok_db_exemplo (or_introl eq_refl) eq_refl
                  eq_refl)).
Defined.

Lemma find_app_none {A : Type} (f : A -> bool) (l l' : list A) :
  find f l = None -> find f (l ++ l') = find f l'.
Proof.
  induction l as [|a l IH]; cbn; [reflexivity|].
  destruct (f a); [discriminate | exact IH].
Qed.

Lemma existsb_false_iff {A : Type} (f : A -> bool) (l : list A) :
  existsb f l = false <-> (forall x, In x l -> f x = false).
Proof.
  induction l as [|a l IH]; cbn; [tauto|].
  rewrite orb_false_iff, IH. split.
  - intros [Ha Hl] x [<- | Hx]; [exact Ha | now apply Hl].
  - intros H. split; [apply H; now left | intros x Hx; apply H; now right].
Qed.

(** What [login] returns is the row its SELECT found. *)
Lemma login_resultado (hash_senha : string -> string) (agora : Z)
    (usuario senha : string) (d : db) :
  fst (login hash_senha agora usuario senha d)
  = Ok (option_map tuple_login
          (find (credencial_ok usuario (hash_senha senha))
                (linhas (usuarios d)))).
Proof.
  unfold login. run_m. now destruct (find _ _).
Qed.

(** X2. Creating a user whose login name is new returns [True] and
    stores the row with the digest of the password, active and never
    logged in; a login with the same name and password succeeds
    afterwards and returns the new user's id, name and level. *)
Theorem criar_usuario_permite_login :
  forall (hash_senha : string -> string) (agora agora' : Z)
         (usuario senha nome : string) (email : option string)
         (nivel_acesso : string) (criado_por_id : option Z) (d : db),
    (forall r, In r (linhas (usuarios d)) -> u_usuario r <> usuario) ->
    let k := proximo_id u_id (usuarios d) in
    let r := criar_usuario hash_senha agora usuario senha nome email
               nivel_acesso criado_por_id d in
    fst r = Ok true
    /\ selecionar_por_id u_id k (usuarios (snd r))
       = Some (mk_usuario k usuario (hash_senha senha) nome email
                 nivel_acesso 1 agora None)
    /\ fst (login hash_senha agora' usuario senha (snd r))
       = Ok (Some [ PInt k; PStr usuario; PStr nome; PStr nivel_acesso;
                    PInt 1 ]).
Proof.
  intros hash_senha agora agora' usuario senha nome email nivel_acesso
         criado_por_id d Hnovo k r.
  assert (He : existsb (fun r => String.eqb (u_usuario r) usuario)
                       (linhas (usuarios d)) = false).
  { apply existsb_false_iff. intros x Hx. apply String.eqb_neq.
    now apply Hnovo. }
  subst r. unfold criar_usuario. run_m. rewrite He. cbn [fst snd].
  split; [reflexivity|]. split.
  - cbn [usuarios set_logs set_usuarios].
    rewrite (selecionar_inserir u_id k k) by
      (try reflexivity; intros x Hx;
       pose proof (proximo_id_fresco u_id _ x Hx); subst k; lia).
    now rewrite Z.eqb_refl.
  - rewrite login_resultado.
    cbn [usuarios set_logs set_usuarios inserir linhas].
    rewrite find_app_none.
    + cbn [find]. unfold credencial_ok; cbn [u_usuario u_senha u_ativo].
      now rewrite !String.eqb_refl.
    + apply find_none_iff. intros x Hx.
      destruct (credencial_ok usuario (hash_senha senha) x) eqn:E;
        [|reflexivity].
      apply credencial_ok_nome in E. now elim (Hnovo x Hx).
Qed.

Lemma criar_usuario_permite_login_witness :
  fst (login (fun s => s) 20 "bia" "s3nha"
         (snd (criar_usuario (fun s => s) 10 "bia" "s3nha" "Bia" None
                 "usuario" (Some 1) db_exemplo)))
  = Ok (Some [ PInt 3; PStr "bia"; PStr "Bia"; PStr "usuario"; PInt 1 ]).
Proof.
  apply (criar_usuario_permite_login (fun s => s) 10 20 "bia" "s3nha" "Bia"
           None "usuario" (Some 1) db_exemplo).
  cbn. intros r [<- | [<- | []]]; cbn; discriminate.
Defined.

Lemma atualizar_preserva_nomes (k : Z) (f : usuario_row -> usuario_row)
    (t : tabela usuario_row) :
  (forall r, u_usuario (f r) = u_usuario r) ->
  map u_usuario (linhas (atualizar_por_id u_id k f t))
  = map u_usuario (linhas t).
Proof.
  intros Hf. unfold atualizar_por_id; cbn [linhas].
  rewrite map_map. apply map_ext. intros r.
  destruct (u_id r =? k); [apply Hf | reflexivity].
Qed.

Lemma in_atualizar (k : Z) (f : usuario_row -> usuario_row)
    (t : tabela usuario_row) (u : usuario_row) :
  In u (linhas t) -> u_id u = k ->
  In (f u) (linhas (atualizar_por_id u_id k f t)).
Proof.
  intros Hin Hk. unfold atualizar_por_id; cbn [linhas].
  apply in_map_iff. exists u. split; [|exact Hin].
  apply Z.eqb_eq in Hk. now rewrite Hk.
Qed.

(** X3. After [alterar_senha] for an active user, a login with the new
    password succeeds and a login with any password of another digest,
    the old one included, is refused. *)
Theorem alterar_senha_troca_credencial :
  forall (hash_senha : string -> string) (agora agora' : Z)
         (nova_senha : string) (alterado_por_id : option Z) (d : db)
         (u : usuario_row),
    esquema_ok d ->
    In u (linhas (usuarios d)) ->
    u_ativo u = 1 ->
    let d1 := snd (alterar_senha hash_senha agora (u_id u) nova_senha
                     alterado_por_id d) in
    fst (login hash_senha agora' (u_usuario u) nova_senha d1)
    = Ok (Some [ PInt (u_id u); PStr (u_usuario u); PStr (u_nome u);
                 PStr (u_nivel_acesso u); PInt 1 ])
    /\ forall senha : string,
         hash_senha senha <> hash_senha nova_senha ->
         fst (login hash_senha agora' (u_usuario u) senha d1) = Ok None.
Proof.
  intros hash_senha agora agora' nova_senha alterado_por_id d u
         (_ & Hnome & _) Hin Hativo d1.
  set (f := fun r => mk_usuario (u_id r) (u_usuario r)
                       (hash_senha nova_senha) (u_nome r) (u_email r)
                       (u_nivel_acesso r) (u_ativo r) (u_data_cadastro r)
                       (u_ultimo_login r)).
  assert (Hd1 : usuarios d1 = atualizar_por_id u_id (u_id u) f (usuarios d))
    by reflexivity.
  assert (Hnd : NoDup (map u_usuario (linhas (usuarios d1)))).
  { rewrite Hd1, atualizar_preserva_nomes; [exact Hnome | reflexivity]. }
  assert (Hin1 : In (f u) (linhas (usuarios d1))).
  { rewrite Hd1. now apply in_atualizar. }
  split; [|intros senha Hsenha]; rewrite login_resultado;
    change (u_usuario u) with (u_usuario (f u));
    rewrite (find_credencial _ _ (f u) Hnd Hin1);
    cbn [f u_senha u_ativo].
  - rewrite String.eqb_refl, Hativo. cbn [andb Z.eqb Pos.eqb option_map].
    unfold tuple_login, f; cbn. now rewrite Hativo.
  - assert (E : String.eqb (hash_senha nova_senha) (hash_senha senha)
                = false) by (apply String.eqb_neq; congruence).
    now rewrite E.
Qed.

Lemma alterar_senha_troca_credencial_witness :
  fst (login (fun s => s) 20 "admin" "admin123"
         (snd (alterar_senha (fun s => s) 10 1 "outra" (Some 1)
                 db_exemplo)))
  = Ok None.
Proof.
  apply (alterar_senha_troca_credencial (fun s => s) 10 20 "outra" (Some 1)
           db_exemplo
           (mk_usuario 1 "admin" "admin123" "Administrador" None "admin" 1
              0 None)
           esquema_ok_db_exemplo (or_introl eq_refl) eq_refl).
  discriminate.
Defined.

(** X4. [atualizar_usuario] on an existing user returns [True]; when it
    clears [ativo], no password opens that account afterwards; when it
    sets [ativo], the stored password opens it, and the login returns
    the new name and level. *)
Theorem atualizar_usuario_ativo_decide_login :
  forall (hash_senha : string -> string) (agora agora' : Z)
         (nome : string) (email : option string) (nivel_acesso : string)
         (ativo : bool) (atualizado_por_id : option Z) (d : db)
         (u : usuario_row),
    esquema_ok d ->
    In u (linhas (usuarios d)) ->
    let r := atualizar_usuario agora (u_id u) nome email nivel_acesso ativo
               atualizado_por_id d in
    fst r = Ok true
    /\ forall senha : string,
         fst (login hash_senha agora' (u_usuario u) senha (snd r))
         = Ok (if ativo && String.eqb (u_senha u) (hash_senha senha)
               then Some [ PInt (u_id u); PStr (u_usuario u); PStr nome;
                           PStr nivel_acesso; PInt 1 ]
               else None).
Proof.
  intros hash_senha agora agora' nome email nivel_acesso ativo
         atualizado_por_id d u (Hid & Hnome & _) Hin r.
  set (f := fun r => mk_usuario (u_id r) (u_usuario r) (u_senha r) nome
                       email nivel_acesso (if ativo then 1 else 0)
                       (u_data_cadastro r) (u_ultimo_login r)).
  subst r. unfold atualizar_usuario. run_m.
  rewrite (selecionar_nodup u_id _ u Hid Hin). cbn [option_map row_get].
  unfold tuple_usuario, tuple_get. cbn [nth_error fst snd].
  split; [reflexivity|]. intros senha.
  rewrite login_resultado. cbn [usuarios set_logs set_usuarios].
  fold f.
  assert (Hnd : NoDup (map u_usuario
                         (linhas (atualizar_por_id u_id (u_id u) f
                                    (usuarios d))))).
  { rewrite atualizar_preserva_nomes; [exact Hnome | reflexivity]. }
  assert (Hin1 : In (f u) (linhas (atualizar_por_id u_id (u_id u) f
                                     (usuarios d))))
    by now apply in_atualizar.
  change (u_usuario u) with (u_usuario (f u)) at 1.
  rewrite (find_credencial _ _ (f u) Hnd Hin1).
  cbn [f u_senha u_ativo u_usuario].
  destruct ativo, (String.eqb (u_senha u) (hash_senha senha)); reflexivity.
Qed.

Lemma atualizar_usuario_ativo_decide_login_witness :
  fst (login (fun s => s) 20 "admin" "admin123"
         (snd (atualizar_usuario 10 1 "Administrador" None "admin" false
                 (Some 1) db_exemplo)))
  = Ok None.
Proof.
  apply (atualizar_usuario_ativo_decide_login (fun s => s) 10 20
           "Administrador" None "admin" false (Some 1) db_exemplo
           (mk_usuario 1 "admin" "admin123" "Administrador" None "admin" 1
              0 None)
           esquema_ok_db_exemplo (or_introl eq_refl)).
Defined.

(** ** Ids that are in no row *)

Lemma set_usuarios_mesmo (d : db) : set_usuarios (usuarios d) d = d.
Proof. now destruct d. Qed.

Lemma set_solicitantes_mesmo (d : db) :
  set_solicitantes (solicitantes d) d = d.
Proof. now destruct d. Qed.

Lemma set_protocolos_mesmo (d : db) : set_protocolos (protocolos d) d = d.
Proof. now destruct d. Qed.

(** X5. An update or a delete whose id is in no row of its table raises
    [TypeError] (the subscript of the [None] that [fetchone()] returned)
    and leaves the database as it was: no row changes and nothing is
    logged.  This holds for [atualizar_usuario], [deletar_usuario] and
    for [atualizar] and [deletar] of both registries. *)
Theorem id_ausente_levanta_TypeError :
  forall (agora id : Z) (por : option Z) (d : db),
    ((forall r, In r (linhas (usuarios d)) -> u_id r <> id) ->
     (forall nome email nivel_acesso ativo,
        atualizar_usuario agora id nome email nivel_acesso ativo por d
        = (Raise TypeError, d))
     /\ deletar_usuario agora id por d = (Raise TypeError, d))
    /\ ((forall r, In r (linhas (solicitantes d)) -> s_id r <> id) ->
        (forall nome email telefone departamento,
           SolicitantesCRUD.atualizar agora id nome email telefone
             departamento por d
           = (Raise TypeError, d))
        /\ SolicitantesCRUD.deletar agora id por d = (Raise TypeError, d))
    /\ ((forall r, In r (linhas (protocolos d)) -> p_id r <> id) ->
        (forall titulo descricao tipo_documento status data_protocolo
                data_prazo solicitante_id observacoes,
           ProtocolosCRUD.atualizar agora id titulo descricao
             tipo_documento status data_protocolo data_prazo
             solicitante_id observacoes por d
           = (Raise TypeError, d))
        /\ ProtocolosCRUD.deletar agora id por d = (Raise TypeError, d)).
Proof.
  intros agora id por d. repeat split.
  - intros nome email nivel_acesso ativo.
    apply (selecionar_none u_id) in H.
    unfold atualizar_usuario. run_m.
    rewrite H, (atualizar_ausente u_id _ _ _ H), set_usuarios_mesmo.
    reflexivity.
  - apply (selecionar_none u_id) in H.
    unfold deletar_usuario. run_m.
    rewrite H, (deletar_ausente u_id _ _ H), set_usuarios_mesmo.
    reflexivity.
  - intros nome email telefone departamento.
    apply (selecionar_none s_id) in H.
    unfold SolicitantesCRUD.atualizar. run_m.
    rewrite H, (atualizar_ausente s_id _ _ _ H), set_solicitantes_mesmo.
    reflexivity.
  - apply (selecionar_none s_id) in H.
    unfold SolicitantesCRUD.deletar. run_m.
    rewrite H. reflexivity.
  - intros titulo descricao tipo_documento status data_protocolo
           data_prazo solicitante_id observacoes.
    apply (selecionar_none p_id) in H.
    unfold ProtocolosCRUD.atualizar. run_m.
    rewrite H, (atualizar_ausente p_id _ _ _ H), set_protocolos_mesmo.
    reflexivity.
  - apply (selecionar_none p_id) in H.
    unfold ProtocolosCRUD.deletar. run_m.
    rewrite H, (deletar_ausente p_id _ _ H), set_protocolos_mesmo.
    reflexivity.
Qed.

Lemma id_ausente_levanta_TypeError_witness :
  deletar_usuario 10 7 (Some 1) db_exemplo = (Raise TypeError, db_exemplo)
  /\ SolicitantesCRUD.deletar 10 7 (Some 1) db_exemplo
     = (Raise TypeError, db_exemplo)
  /\ ProtocolosCRUD.deletar 10 7 (Some 1) db_exemplo
     = (Raise TypeError, db_exemplo).
Proof.
  destruct (id_ausente_levanta_TypeError 10 7 (Some 1) db_exemplo)
    as (Hu & Hs & Hp).
  split; [|split].
  - apply Hu. cbn. intros r [<- | [<- | []]]; cbn; lia.
  - apply Hs. cbn. intros r [].
  - apply Hp. cbn. intros r [].
Defined.

(** X6. [alterar_senha] does not look for the user: for an id that is in
    no row it still returns [True], changes no user, and appends a log
    entry [ALTERAR_SENHA] with [status = 'sucesso'] that names the id. *)
Theorem alterar_senha_sem_usuario :
  forall (hash_senha : string -> string) (agora id : Z)
         (nova_senha : string) (alterado_por_id : option Z) (d : db),
    (forall r, In r (linhas (usuarios d)) -> u_id r <> id) ->
    let r := alterar_senha hash_senha agora id nova_senha alterado_por_id
               d in
    fst r = Ok true
    /\ usuarios (snd r) = usuarios d
    /\ linhas (logs_usuario (snd r))
       = (linhas (logs_usuario d)
          ++ [ mk_log (proximo_id l_id (logs_usuario d)) alterado_por_id
                 "ALTERAR_SENHA" "usuarios" (Some id)
                 (Some ("Senha alterada para usuário ID: "
                        ++ str_int id)%string)
                 None None agora "sucesso" ])%list.
Proof.
  intros hash_senha agora id nova_senha alterado_por_id d H r.
  apply (selecionar_none u_id) in H.
  subst r. unfold alterar_senha. run_m.
  rewrite (atualizar_ausente u_id _ _ _ H).
  repeat split.
Qed.

Lemma alterar_senha_sem_usuario_witness :
  fst (alterar_senha (fun s => s) 10 7 "nova" (Some 1) db_exemplo) = Ok true
  /\ usuarios (snd (alterar_senha (fun s => s) 10 7 "nova" (Some 1)
                      db_exemplo))
     = usuarios db_exemplo.
Proof.
  destruct (alterar_senha_sem_usuario (fun s => s) 10 7 "nova" (Some 1)
              db_exemplo) as (H1 & H2 & _).
  - cbn. intros r [<- | [<- | []]]; cbn; lia.
  - split; [exact H1 | exact H2].
Defined.

(** ** [init_database] *)

(** X7. A second [init_database] after one that returned changes
    nothing: the first call leaves a user of level [admin], keeps every
    row that was there, and touches no table but [usuarios]. *)
Theorem init_database_idempotente :
  forall (hash_senha : string -> string) (agora agora' : Z) (d : db),
    fst (init_database hash_senha agora d) = Ok tt ->
    let d1 := snd (init_database hash_senha agora d) in
    init_database hash_senha agora' d1 = (Ok tt, d1)
    /\ (exists u, In u (linhas (usuarios d1))
                  /\ u_nivel_acesso u = "admin")
    /\ (exists novos,
          linhas (usuarios d1) = (linhas (usuarios d) ++ novos)%list)
    /\ solicitantes d1 = solicitantes d
    /\ protocolos d1 = protocolos d
    /\ logs_usuario d1 = logs_usuario d.
Proof.
  intros hash_senha agora agora' d. unfold init_database. run_m.
  destruct (existsb (fun r => String.eqb (u_nivel_acesso r) "admin")
                    (linhas (usuarios d))) eqn:E1.
  - intros _. cbn [snd]. rewrite E1.
    repeat split; try reflexivity.
    + apply existsb_exists in E1. destruct E1 as (u & Hu & E).
      exists u. split; [exact Hu | now apply String.eqb_eq].
    + exists []. now rewrite app_nil_r.
  - destruct (existsb (fun r => String.eqb (u_usuario r) "admin")
                      (linhas (usuarios d))) eqn:E2; [discriminate|].
    intros _.
    cbn [snd usuarios set_usuarios inserir linhas solicitantes protocolos
         logs_usuario].
    rewrite existsb_app. cbn [existsb u_nivel_acesso].
    rewrite String.eqb_refl, orb_true_r.
    repeat split; try reflexivity.
    + eexists. split; [apply in_or_app; right; left; reflexivity|].
      reflexivity.
    + eexists. reflexivity.
Qed.

Lemma init_database_idempotente_witness :
  let d1 := snd (init_database (fun s => s) 0 db_vazio) in
  init_database (fun s => s) 5 d1 = (Ok tt, d1).
Proof.
  apply (init_database_idempotente (fun s => s) 0 5 db_vazio).
  reflexivity.
Defined.

(** X8. On a database with no user of level [admin] and no user called
    [admin], [init_database] creates the default administrator: the
    login [admin] with the password [admin123] succeeds afterwards,
    returns a row of level [admin], and that row passes
    [verificar_permissao("admin")]. *)
Theorem init_database_admin_padrao :
  forall (hash_senha : string -> string) (agora agora' : Z) (d : db),
    (forall r, In r (linhas (usuarios d)) ->
               u_nivel_acesso r <> "admin" /\ u_usuario r <> "admin") ->
    let d1 := snd (init_database hash_senha agora d) in
    let user_data :=
      [ PInt (proximo_id u_id (usuarios d)); PStr "admin";
        PStr "Administrador"; PStr "admin"; PInt 1 ] in
    fst (init_database hash_senha agora d) = Ok tt
    /\ fst (login hash_senha agora' "admin" "admin123" d1)
       = Ok (Some user_data)
    /\ verificar_permissao (Some user_data) "admin" = Ok true.
Proof.
  intros hash_senha agora agora' d H d1 user_data.
  assert (E1 : existsb (fun r => String.eqb (u_nivel_acesso r) "admin")
                       (linhas (usuarios d)) = false).
  { apply existsb_false_iff. intros x Hx. apply String.eqb_neq.
    now apply H. }
  assert (E2 : existsb (fun r => String.eqb (u_usuario r) "admin")
                       (linhas (usuarios d)) = false).
  { apply existsb_false_iff. intros x Hx. apply String.eqb_neq.
    now apply H. }
  subst d1. unfold init_database. run_m. rewrite E1, E2. cbn [fst snd].
  repeat split.
  rewrite login_resultado. cbn [usuarios set_usuarios inserir linhas].
  rewrite find_app_none.
  - cbn [find]. unfold credencial_ok; cbn [u_usuario u_senha u_ativo].
    now rewrite !String.eqb_refl.
  - apply find_none_iff. intros x Hx.
    destruct (credencial_ok "admin" (hash_senha "admin123") x) eqn:E;
      [|reflexivity].
    apply credencial_ok_nome in E. now elim (proj2 (H x Hx)).
Qed.

Lemma init_database_admin_padrao_witness :
  fst (login (fun s => s) 5 "admin" "admin123"
         (snd (init_database (fun s => s) 0 db_vazio)))
  = Ok (Some [ PInt 1; PStr "admin"; PStr "Administrador"; PStr "admin";
               PInt 1 ]).
Proof.
  apply (init_database_admin_padrao (fun s => s) 0 5 db_vazio).
  cbn. intros r [].
Defined.

(** X9. When a user is called [admin] and no user has the level
    [admin] (the default administrator was given the level [usuario],
    say), [init_database] raises [IntegrityError] on its insert and
    leaves the database as it was. *)
Theorem init_database_admin_sem_nivel :
  forall (hash_senha : string -> string) (agora : Z) (d : db)
         (u : usuario_row),
    In u (linhas (usuarios d)) ->
    u_usuario u = "admin" ->
    (forall r, In r (linhas (usuarios d)) -> u_nivel_acesso r <> "admin") ->
    init_database hash_senha agora d = (Raise IntegrityError, d).
Proof.
  intros hash_senha agora d u Hin Hu H.
  assert (E1 : existsb (fun r => String.eqb (u_nivel_acesso r) "admin")
                       (linhas (usuarios d)) = false).
  { apply existsb_false_iff. intros x Hx. apply String.eqb_neq.
    now apply H. }
  assert (E2 : existsb (fun r => String.eqb (u_usuario r) "admin")
                       (linhas (usuarios d)) = true).
  { apply existsb_exists. exists u. split; [exact Hin|].
    now apply String.eqb_eq. }
  unfold init_database. run_m. now rewrite E1, E2.
Qed.

Lemma init_database_admin_sem_nivel_witness :
  let d1 :=
    snd (atualizar_usuario 5 1 "Administrador" None "usuario" true
           (Some 1) (snd (init_database (fun s => s) 0 db_vazio))) in
  init_database (fun s => s) 9 d1 = (Raise IntegrityError, d1).
Proof.
  apply (init_database_admin_sem_nivel (fun s => s) 9 _
           (mk_usuario 1 "admin" "admin123" "Administrador" None "usuario"
              1 0 None)).
  - cbn. left. reflexivity.
  - reflexivity.
  - cbn. intros r [<- | []]. cbn. discriminate.
Defined.

Lemma filter_todos_em {A : Type} (f : A -> bool) (l : list A) :
  (forall x, In x l -> f x = true) -> filter f l = l.
Proof.
  induction l as [|a l IH]; cbn; intros H; [reflexivity|].
  rewrite (H a (or_introl eq_refl)). f_equal. apply IH.
  intros x Hx. apply H. now right.
Qed.

(** ** Protocol numbers *)

Lemma str_int_inj (a b : Z) : str_int a = str_int b -> a = b.
Proof.
  intros E.
  pose proof (scan_number_str_int a "" eq_refl) as Ha.
  pose proof (scan_number_str_int b "" eq_refl) as Hb.
  rewrite E, Hb in Ha. now injection Ha.
Qed.

Lemma str_int_nao_negativo (a : Z) :
  0 <= a -> exists u, str_int a = NilEmpty.string_of_uint u.
Proof.
  intros Ha. destruct a as [|p|p]; [| |lia].
  - now exists (Decimal.D0 Decimal.Nil).
  - exists (Pos.to_uint p). unfold str_int; cbn [Z.to_int]. cbn [NilZero.string_of_int].
    apply string_of_uint_nonnil, DecimalPos.Unsigned.to_uint_nonnil.
Qed.

Lemma str_int_positivo_inicio (i : Z) :
  0 < i -> exists c s, str_int i = String c s /\ c <> "0"%char.
Proof.
  intros Hi. destruct i as [|p|p]; try lia.
  unfold str_int; cbn [Z.to_int NilZero.string_of_int].
  rewrite string_of_uint_nonnil by apply DecimalPos.Unsigned.to_uint_nonnil.
  pose proof (DecimalPos.Unsigned.to_uint_nonnil p) as Hn.
  pose proof (to_uint_sem_zero_inicial p) as Hz.
  destruct (Pos.to_uint p) as [|u|u|u|u|u|u|u|u|u|u];
    [congruence | now elim (Hz u) | ..];
    cbn [NilEmpty.string_of_uint]; do 2 eexists; (split; [reflexivity|]);
    discriminate.
Qed.

Lemma zeros_app_inj (k k' : nat) (c c' : ascii) (t t' : string) :
  c <> "0"%char -> c' <> "0"%char ->
  zeros k ++ String c t = zeros k' ++ String c' t' ->
  String c t = String c' t'.
Proof.
  intros Hc Hc'. revert k'.
  induction k as [|k IH]; intros [|k']; cbn [zeros append]; intros E.
  - exact E.
  - injection E as E _. congruence.
  - injection E as E _. congruence.
  - injection E as E. now apply (IH k').
Qed.

Lemma format_04d_inj (i j : Z) :
  0 < i -> 0 < j -> format_04d i = format_04d j -> i = j.
Proof.
  intros Hi Hj. unfold format_04d.
  assert (Ei : (i <? 0) = false) by (apply Z.ltb_ge; lia).
  assert (Ej : (j <? 0) = false) by (apply Z.ltb_ge; lia).
  rewrite Ei, Ej. unfold zfill.
  destruct (str_int_positivo_inicio i Hi) as (c & s & Es & Hc).
  destruct (str_int_positivo_inicio j Hj) as (c' & s' & Es' & Hc').
  intros E. apply str_int_inj. rewrite Es, Es' in *.
  now apply zeros_app_inj in E.
Qed.

Lemma numero_inj (a b i j : Z) :
  0 <= a -> 0 <= b -> 0 < i -> 0 < j ->
  numero a i = numero b j -> a = b /\ i = j.
Proof.
  intros Ha Hb Hi Hj. unfold numero. cbn [append]. intros E.
  injection E as E.
  destruct (str_int_nao_negativo a Ha) as (u & Eu).
  destruct (str_int_nao_negativo b Hb) as (v & Ev).
  pose proof (span_digits_uint u (String "-" (format_04d i)) eq_refl) as Su.
  pose proof (span_digits_uint v (String "-" (format_04d j)) eq_refl) as Sv.
  rewrite <- Eu in Su. rewrite <- Ev in Sv.
  rewrite E, Sv in Su. injection Su as E1 E2.
  split.
  - apply str_int_inj. congruence.
  - apply format_04d_inj; [exact Hi | exact Hj | congruence].
Qed.

Lemma numeros_desde_app (i : Z) (anos : list Z) (a : Z) :
  numeros_desde i (anos ++ [a])
  = (numeros_desde i anos ++ [numero a (i + Z.of_nat (List.length anos))])%list.
Proof.
  revert i. induction anos as [|x t IH]; intros i; cbn [numeros_desde app List.length].
  - now rewrite Z.add_0_r.
  - rewrite IH.
    replace (i + 1 + Z.of_nat (List.length t))
      with (i + Z.of_nat (S (List.length t))) by lia.
    reflexivity.
Qed.

Lemma numeros_desde_in (i : Z) (anos : list Z) (s : string) :
  Forall (fun a => 0 <= a) anos ->
  In s (numeros_desde i anos) ->
  exists a k, 0 <= a /\ i <= k < i + Z.of_nat (List.length anos)
              /\ s = numero a k.
Proof.
  intros Hf. revert i. induction Hf as [|x t Hx Hf IH]; intros i; cbn [numeros_desde In List.length].
  - tauto.
  - intros [<- | H].
    + exists x, i. repeat split; [exact Hx | lia | lia].
    + destruct (IH _ H) as (a & k & Ha & Hk & Es).
      exists a, k. repeat split; [exact Ha | lia | lia | exact Es].
Qed.

Lemma numeros_desde_length (i : Z) (anos : list Z) :
  List.length (numeros_desde i anos) = List.length anos.
Proof.
  revert i. induction anos as [|x t IH]; intros i; cbn; [reflexivity|].
  now rewrite IH.
Qed.

(** X10. While no protocol is deleted the numbers run in sequence: when
    the table holds the protocols created one after the other in the
    years [anos], numbered from 1, [criar] in the year [ano] succeeds,
    returns the number [PROT-ano-] followed by the count plus one in at
    least four digits, and the table holds the sequence with this
    number added. *)
Theorem criar_numera_em_sequencia :
  forall (ano agora : Z) (titulo : string)
         (descricao tipo_documento : option string) (data_protocolo : Z)
         (data_prazo solicitante_id : option Z)
         (observacoes : option string) (criado_por : option Z) (d : db)
         (anos : list Z),
    0 <= ano ->
    Forall (fun a => 0 <= a) anos ->
    map p_numero_protocolo (linhas (protocolos d)) = numeros_desde 1 anos ->
    let r := ProtocolosCRUD.criar ano agora titulo descricao tipo_documento
               data_protocolo data_prazo solicitante_id observacoes
               criado_por d in
    fst r = Ok ("PROT-" ++ str_int ano ++ "-"
                ++ format_04d (Z.of_nat (List.length anos) + 1))
    /\ map p_numero_protocolo (linhas (protocolos (snd r)))
       = numeros_desde 1 (anos ++ [ano]).
Proof.
  intros ano agora titulo descricao tipo_documento data_protocolo
         data_prazo solicitante_id observacoes criado_por d anos Hano
         Hanos Hnum r.
  assert (Hlen : contar (protocolos d) = Z.of_nat (List.length anos)).
  { unfold contar. f_equal.
    rewrite <- (length_map p_numero_protocolo), Hnum.
    apply numeros_desde_length. }
  assert (He : existsb
                 (fun x => String.eqb (p_numero_protocolo x)
                             (numero ano (contar (protocolos d) + 1)))
                 (linhas (protocolos d)) = false).
  { apply existsb_false_iff. intros x Hx. apply String.eqb_neq. intros E.
    assert (Hin : In (p_numero_protocolo x) (numeros_desde 1 anos)).
    { rewrite <- Hnum. now apply in_map. }
    destruct (numeros_desde_in _ _ _ Hanos Hin) as (a & k & Ha & Hk & Es).
    rewrite Es, Hlen in E.
    apply numero_inj in E; lia. }
  subst r. unfold ProtocolosCRUD.criar, gerar_numero_protocolo. run_m.
  fold (numero ano (contar (protocolos d) + 1)). rewrite He.
  cbn [fst snd protocolos set_logs set_protocolos inserir linhas].
  split.
  - unfold numero. now rewrite Hlen.
  - rewrite map_app, Hnum, numeros_desde_app. cbn [map p_numero_protocolo].
    rewrite Hlen.
    replace (1 + Z.of_nat (List.length anos))
      with (Z.of_nat (List.length anos) + 1) by lia.
    reflexivity.
Qed.

Lemma criar_numera_em_sequencia_witness :
  fst (ProtocolosCRUD.criar 2025 10 "Segundo" None None 0 None None None
         (Some 1)
         (snd (ProtocolosCRUD.criar 2024 5 "Primeiro" None None 0 None None
                 None (Some 1) db_exemplo)))
  = Ok "PROT-2025-0002".
Proof.
  apply (criar_numera_em_sequencia 2025 10 "Segundo" None None 0 None None
           None (Some 1) _ [2024]).
  - lia.
  - repeat constructor. lia.
  - reflexivity.
Defined.

Lemma length_deletar {R : Type} (id : R -> Z) (k : Z) (t : tabela R) (r : R) :
  NoDup (map id (linhas t)) -> In r (linhas t) -> id r = k ->
  S (List.length (linhas (deletar_por_id id k t))) = List.length (linhas t).
Proof.
  unfold deletar_por_id; cbn [linhas].
  induction (linhas t) as [|a l IH]; cbn [In map filter List.length]; [tauto|].
  intros Hnd Hin Hk. inversion Hnd as [|? ? Hnot Hnd']; subst.
  destruct Hin as [-> | Hin].
  - rewrite Z.eqb_refl. cbn [negb]. f_equal.
    f_equal. apply filter_todos_em. intros x Hx.
    apply negb_true_iff, Z.eqb_neq. intros E. apply Hnot. rewrite <- E.
    now apply in_map.
  - assert (E : (id a =? id r) = false).
    { apply Z.eqb_neq. intros E. apply Hnot. rewrite E. now apply in_map. }
    rewrite E. cbn [negb List.length]. f_equal. now apply IH.
Qed.

(** X11. A deletion breaks the numbering.  Let the table hold the
    protocols created one after the other, none deleted so far, the
    newest of them in the year [ano].  After [deletar] of any protocol
    but the newest the count is one less, so the next number has the
    counter of the newest row: [criar] in the same year [ano] forms the
    number of the newest row, raises [IntegrityError] and stores
    nothing; [criar] in another year returns, with a number whose
    counter repeats that of the newest row. *)
Theorem criar_apos_deletar_colide :
  forall (ano agora agora' id : Z) (por : option Z) (titulo : string)
         (descricao tipo_documento : option string) (data_protocolo : Z)
         (data_prazo solicitante_id : option Z)
         (observacoes : option string) (criado_por : option Z) (d : db)
         (anos : list Z) (antigos : list protocolo_row)
         (ultimo : protocolo_row),
    0 <= ano ->
    Forall (fun a => 0 <= a) anos ->
    NoDup (map p_id (linhas (protocolos d))) ->
    linhas (protocolos d) = (antigos ++ [ultimo])%list ->
    map p_numero_protocolo (linhas (protocolos d))
    = numeros_desde 1 (anos ++ [ano]) ->
    In id (map p_id antigos) ->
    let d1 := snd (ProtocolosCRUD.deletar agora id por d) in
    fst (ProtocolosCRUD.deletar agora id por d) = Ok true
    /\ ProtocolosCRUD.criar ano agora' titulo descricao tipo_documento
         data_protocolo data_prazo solicitante_id observacoes criado_por d1
       = (Raise IntegrityError, d1)
    /\ forall ano' : Z,
         0 <= ano' -> ano' <> ano ->
         fst (ProtocolosCRUD.criar ano' agora' titulo descricao
                tipo_documento data_protocolo data_prazo solicitante_id
                observacoes criado_por d1)
         = Ok ("PROT-" ++ str_int ano' ++ "-"
               ++ format_04d (Z.of_nat (List.length anos) + 1)).
Proof.
  intros ano agora agora' id por titulo descricao tipo_documento
         data_protocolo data_prazo solicitante_id observacoes criado_por d
         anos antigos ultimo Hano Hanos Hnd Hlin Hnum Hid d1.
  set (n := Z.of_nat (List.length anos)).
  apply in_map_iff in Hid. destruct Hid as (r & Hid & Hr).
  assert (Hrd : In r (linhas (protocolos d))).
  { rewrite Hlin. apply in_or_app. now left. }
  assert (Hsel : selecionar_por_id p_id id (protocolos d) = Some r).
  { rewrite <- Hid. now apply selecionar_nodup. }
  assert (Hd1 : protocolos d1 = deletar_por_id p_id id (protocolos d)).
  { subst d1. unfold ProtocolosCRUD.deletar. run_m. now rewrite Hsel. }
  assert (Hult : p_numero_protocolo ultimo = numero ano (n + 1)).
  { rewrite Hlin, map_app, numeros_desde_app in Hnum. cbn [map] in Hnum.
    apply app_inj_tail in Hnum. destruct Hnum as [_ Hnum].
    rewrite Hnum. unfold n. f_equal. lia. }
  assert (Hidu : p_id ultimo <> id).
  { intros E. rewrite Hlin, map_app in Hnd. cbn [map] in Hnd.
    apply NoDup_remove_2 in Hnd. rewrite app_nil_r in Hnd.
    apply Hnd. rewrite E, <- Hid. now apply in_map. }
  assert (Hcount : contar (protocolos d1) = n).
  { unfold contar. rewrite Hd1.
    pose proof (length_deletar p_id id (protocolos d) r Hnd Hrd Hid) as Hl.
    assert (Hn : List.length (linhas (protocolos d))
                 = S (List.length anos)).
    { rewrite <- (length_map p_numero_protocolo), Hnum,
        numeros_desde_length, length_app. cbn. lia. }
    unfold n. lia. }
  assert (Hresto : forall x, In x (linhas (protocolos d1)) ->
             In x (linhas (protocolos d)) /\ p_id x <> id).
  { intros x Hx. rewrite Hd1 in Hx. unfold deletar_por_id in Hx.
    cbn [linhas] in Hx. apply filter_In in Hx. destruct Hx as [Hx Hne].
    split; [exact Hx|]. now apply negb_true_iff, Z.eqb_neq in Hne. }
  split; [unfold ProtocolosCRUD.deletar; run_m; now rewrite Hsel|].
  split.
  - assert (He : existsb
                   (fun x => String.eqb (p_numero_protocolo x)
                               (numero ano (contar (protocolos d1) + 1)))
                   (linhas (protocolos d1)) = true).
    { apply existsb_exists. exists ultimo. split.
      - rewrite Hd1. unfold deletar_por_id; cbn [linhas].
        apply filter_In. split.
        + rewrite Hlin. apply in_or_app. right. now left.
        + now apply negb_true_iff, Z.eqb_neq.
      - rewrite Hcount. now apply String.eqb_eq. }
    unfold ProtocolosCRUD.criar, gerar_numero_protocolo. run_m.
    fold (numero ano (contar (protocolos d1) + 1)). now rewrite He.
  - intros ano' Hano' Hdif.
    assert (He : existsb
                   (fun x => String.eqb (p_numero_protocolo x)
                               (numero ano' (contar (protocolos d1) + 1)))
                   (linhas (protocolos d1)) = false).
    { apply existsb_false_iff. intros x Hx. apply String.eqb_neq.
      intros E. rewrite Hcount in E.
      destruct (Hresto x Hx) as [Hxd _].
      assert (Hin : In (p_numero_protocolo x)
                      (numeros_desde 1 (anos ++ [ano]))).
      { rewrite <- Hnum. now apply in_map. }
      rewrite numeros_desde_app in Hin. apply in_app_or in Hin.
      destruct Hin as [Hin | [Hin | []]].
      - destruct (numeros_desde_in _ _ _ Hanos Hin)
          as (a & k & Ha & Hk & Es).
        rewrite Es in E. apply numero_inj in E; unfold n in *; lia.
      - rewrite <- Hin in E. apply numero_inj in E; unfold n in *; lia. }
    unfold ProtocolosCRUD.criar, gerar_numero_protocolo. run_m.
    fold (numero ano' (contar (protocolos d1) + 1)). rewrite He.
    cbn [fst]. unfold numero. now rewrite Hcount.
Qed.

(** Two protocols of 2025, the first deleted: the third creation of 2025
    is refused, a creation in 2026 is numbered 0002 again. *)
Lemma criar_apos_deletar_colide_witness :
  let d2 :=
    snd (ProtocolosCRUD.criar 2025 10 "Segundo" None None 0 None None None
           (Some 1)
           (snd (ProtocolosCRUD.criar 2025 5 "Primeiro" None None 0 None
                   None None (Some 1) db_exemplo))) in
  let d3 := snd (ProtocolosCRUD.deletar 20 1 (Some 1) d2) in
  ProtocolosCRUD.criar 2025 30 "Terceiro" None None 0 None None None
    (Some 1) d3
  = (Raise IntegrityError, d3)
  /\ fst (ProtocolosCRUD.criar 2026 30 "Terceiro" None None 0 None None
            None (Some 1) d3)
     = Ok "PROT-2026-0002".
Proof.
  intros d2 d3.
  destruct (criar_apos_deletar_colide 2025 20 30 1 (Some 1) "Terceiro" None
              None 0 None None None (Some 1) d2 [2025]
              [ mk_protocolo 1 "PROT-2025-0001" "Primeiro" None None
                  "Pendente" 0 None None None (Some 1) 5 ]
              (mk_protocolo 2 "PROT-2025-0002" "Segundo" None None
                 "Pendente" 0 None None None (Some 1) 10))
    as (_ & H2 & H3).
  - lia.
  - repeat constructor. lia.
  - cbn. repeat (constructor; [cbn; intuition lia|]); constructor.
  - reflexivity.
  - reflexivity.
  - cbn. left. reflexivity.
  - split; [exact H2|]. apply (H3 2026); lia.
Defined.

(** ** The registries: what is stored is what is found *)

(** X12. [SolicitantesCRUD] behaves as a map from ids to rows.  After
    [criar], [buscar_por_id] of the new id returns the values given,
    with the time of the call as [data_cadastro]; after [atualizar] of
    an id that is there, it returns the new values with the old
    [data_cadastro]; after [deletar] of an id that is there, it returns
    [None]; and in each case every other id is found as before. *)
Theorem solicitantes_ida_e_volta :
  forall (agora id : Z) (nome : string)
         (email telefone departamento : option string) (por : option Z)
         (d : db),
    let procurar k x := fst (SolicitantesCRUD.buscar_por_id k x) in
    (let k := proximo_id s_id (solicitantes d) in
     let r := SolicitantesCRUD.criar agora nome email telefone departamento
                por d in
     fst r = Ok true
     /\ procurar k (snd r)
        = Ok (Some [ PInt k; PStr nome; py_opt_str email;
                     py_opt_str telefone; py_opt_str departamento;
                     PInt agora ])
     /\ forall k', k' <> k -> procurar k' (snd r) = procurar k' d)
    /\ (forall antigo : solicitante_row,
          selecionar_por_id s_id id (solicitantes d) = Some antigo ->
          let r := SolicitantesCRUD.atualizar agora id nome email telefone
                     departamento por d in
          fst r = Ok true
          /\ procurar id (snd r)
             = Ok (Some [ PInt id; PStr nome; py_opt_str email;
                          py_opt_str telefone; py_opt_str departamento;
                          PInt (s_data_cadastro antigo) ])
          /\ forall k', k' <> id -> procurar k' (snd r) = procurar k' d)
    /\ (forall antigo : solicitante_row,
          selecionar_por_id s_id id (solicitantes d) = Some antigo ->
          let r := SolicitantesCRUD.deletar agora id por d in
          fst r = Ok true
          /\ procurar id (snd r) = Ok None
          /\ forall k', k' <> id -> procurar k' (snd r) = procurar k' d).
Proof.
  intros agora id nome email telefone departamento por d procurar.
  assert (Hp : forall k x,
             procurar k x
             = Ok (option_map tuple_solicitante
                     (selecionar_por_id s_id k (solicitantes x))))
    by reflexivity.
  split; [|split].
  - intros k r. subst r. unfold SolicitantesCRUD.criar. run_m.
    split; [reflexivity|]. rewrite !Hp.
    cbn [solicitantes set_logs set_solicitantes].
    assert (Hf : forall x, In x (linhas (solicitantes d)) -> s_id x <> k).
    { intros x Hx. pose proof (proximo_id_fresco s_id _ x Hx).
      subst k. lia. }
    split.
    + rewrite (selecionar_inserir s_id k k) by (try reflexivity; exact Hf).
      now rewrite Z.eqb_refl.
    + intros k' Hk'. rewrite !Hp.
      cbn [solicitantes set_logs set_solicitantes].
      rewrite (selecionar_inserir s_id k k') by (try reflexivity; exact Hf).
      apply Z.eqb_neq in Hk'. now rewrite Hk'.
  - intros antigo Hsel r. subst r.
    destruct (selecionar_in s_id _ _ _ Hsel) as [_ Hid].
    unfold SolicitantesCRUD.atualizar. run_m. rewrite Hsel.
    cbn [option_map row_get]. unfold tuple_solicitante, tuple_get.
    cbn [nth_error fst snd].
    split; [reflexivity|]. rewrite !Hp.
    cbn [solicitantes set_logs set_solicitantes].
    split.
    + rewrite selecionar_atualizar by reflexivity.
      rewrite Z.eqb_refl, Hsel. cbn [option_map]. unfold tuple_solicitante.
      cbn [s_id s_nome s_email s_telefone s_departamento s_data_cadastro].
      now rewrite Hid.
    + intros k' Hk'. rewrite !Hp.
      cbn [solicitantes set_logs set_solicitantes].
      rewrite selecionar_atualizar by reflexivity.
      apply Z.eqb_neq in Hk'. now rewrite Hk'.
  - intros antigo Hsel r. subst r.
    unfold SolicitantesCRUD.deletar. run_m. rewrite Hsel.
    cbn [fst snd].
    split; [reflexivity|]. rewrite !Hp.
    cbn [solicitantes set_logs set_solicitantes].
    split.
    + now rewrite selecionar_deletar.
    + intros k' Hk'. rewrite !Hp.
      cbn [solicitantes set_logs set_solicitantes].
      now rewrite selecionar_deletar_outro.
Qed.

Lemma solicitantes_ida_e_volta_witness :
  let d1 :=
    snd (SolicitantesCRUD.criar 5 "Rui" None None (Some "RH") (Some 1)
           db_exemplo) in
  fst (SolicitantesCRUD.buscar_por_id 1
         (snd (SolicitantesCRUD.atualizar 9 1 "Rui Sá" None (Some "99")
                 (Some "TI") (Some 1) d1)))
  = Ok (Some [ PInt 1; PStr "Rui Sá"; PNone; PStr "99"; PStr "TI";
               PInt 5 ])
  /\ fst (SolicitantesCRUD.buscar_por_id 1
            (snd (SolicitantesCRUD.deletar 9 1 (Some 1) d1)))
     = Ok None.
Proof.
  intros d1.
  destruct (solicitantes_ida_e_volta 9 1 "Rui Sá" None (Some "99")
              (Some "TI") (Some 1) d1) as (_ & Ha & Hd).
  split.
  - apply (Ha (mk_solicitante 1 "Rui" None None (Some "RH") 5)).
    reflexivity.
  - apply (Hd (mk_solicitante 1 "Rui" None None (Some "RH") 5)).
    reflexivity.
Defined.

(** X13. A protocol that [criar] stored is found by [buscar_por_id]
    under its new id with the number returned, the values given, the
    status [Pendente], its creator and the time of the call; and the
    edit form of [gerenciar_protocolos] opens it for a user exactly when
    the user is an administrator or the creator. *)
Theorem protocolo_criado_e_editavel_pelo_criador :
  forall (ano agora : Z) (titulo : string)
         (descricao tipo_documento : option string) (data_protocolo : Z)
         (data_prazo solicitante_id : option Z)
         (observacoes : option string) (criador : Z) (d : db)
         (numero_protocolo : string),
    let r := ProtocolosCRUD.criar ano agora titulo descricao tipo_documento
               data_protocolo data_prazo solicitante_id observacoes
               (Some criador) d in
    fst r = Ok numero_protocolo ->
    let k := proximo_id p_id (protocolos d) in
    let protocolo_data :=
      [ PInt k; PStr numero_protocolo; PStr titulo; py_opt_str descricao;
        py_opt_str tipo_documento; PStr "Pendente"; PInt data_protocolo;
        py_opt_int data_prazo; py_opt_int solicitante_id;
        py_opt_str observacoes; PInt criador; PInt agora ] in
    fst (ProtocolosCRUD.buscar_por_id k (snd r)) = Ok (Some protocolo_data)
    /\ forall (user_data : list pyval) (uid : Z) (nivel : string),
         tuple_get user_data 0 = Ok (PInt uid) ->
         tuple_get user_data 3 = Ok (PStr nivel) ->
         pode_editar_form user_data protocolo_data
         = Ok (String.eqb nivel "admin" || (criador =? uid)).
Proof.
  intros ano agora titulo descricao tipo_documento data_protocolo
         data_prazo solicitante_id observacoes criador d numero_protocolo
         r.
  subst r. unfold ProtocolosCRUD.criar, gerar_numero_protocolo. run_m.
  destruct (existsb _ _); [cbn; discriminate|].
  cbn [fst snd]. intros E. injection E as <-.
  split.
  - unfold ProtocolosCRUD.buscar_por_id. run_m.
    cbn [protocolos set_logs set_protocolos].
    rewrite (selecionar_inserir p_id _ (proximo_id p_id (protocolos d)))
      by (try reflexivity; intros x Hx;
          pose proof (proximo_id_fresco p_id _ x Hx); lia).
    now rewrite Z.eqb_refl.
  - intros user_data uid nivel H0 H3. unfold pode_editar_form.
    rewrite H3, H0. reflexivity.
Qed.

Lemma protocolo_criado_e_editavel_pelo_criador_witness :
  pode_editar_form
    [ PInt 2; PStr "ana"; PStr "Ana"; PStr "usuario"; PInt 1 ]
    [ PInt 1; PStr "PROT-2025-0001"; PStr "Ofício 1"; PNone; PNone;
      PStr "Pendente"; PInt 0; PNone; PNone; PNone; PInt 2; PInt 5 ]
  = Ok true.
Proof.
  destruct (protocolo_criado_e_editavel_pelo_criador 2025 5 "Ofício 1"
              None None 0 None None None 2 db_exemplo "PROT-2025-0001"
              eq_refl) as [_ H].
  exact (H [ PInt 2; PStr "ana"; PStr "Ana"; PStr "usuario"; PInt 1 ] 2
           "usuario" eq_refl eq_refl).
Defined.

(** X14. After [ProtocolosCRUD.atualizar] of an id that is there,
    [buscar_por_id] returns the new values together with the old number,
    creator and creation time, every other id is found as before, and
    the edit form gives every user the answer it gave before the
    update. *)
Theorem protocolo_atualizado_mantem_criador :
  forall (agora id : Z) (titulo : string)
         (descricao tipo_documento : option string) (status : string)
         (data_protocolo : Z) (data_prazo solicitante_id : option Z)
         (observacoes : option string) (por : option Z) (d : db)
         (antigo : protocolo_row),
    selecionar_por_id p_id id (protocolos d) = Some antigo ->
    let r := ProtocolosCRUD.atualizar agora id titulo descricao
               tipo_documento status data_protocolo data_prazo
               solicitante_id observacoes por d in
    let novo :=
      [ PInt id; PStr (p_numero_protocolo antigo); PStr titulo;
        py_opt_str descricao; py_opt_str tipo_documento; PStr status;
        PInt data_protocolo; py_opt_int data_prazo;
        py_opt_int solicitante_id; py_opt_str observacoes;
        py_opt_int (p_criado_por antigo); PInt (p_data_criacao antigo) ] in
    fst r = Ok true
    /\ fst (ProtocolosCRUD.buscar_por_id id (snd r)) = Ok (Some novo)
    /\ (forall k', k' <> id ->
          fst (ProtocolosCRUD.buscar_por_id k' (snd r))
          = fst (ProtocolosCRUD.buscar_por_id k' d))
    /\ forall user_data : list pyval,
         pode_editar_form user_data novo
         = pode_editar_form user_data (tuple_protocolo antigo).
Proof.
  intros agora id titulo descricao tipo_documento status data_protocolo
         data_prazo solicitante_id observacoes por d antigo Hsel r novo.
  destruct (selecionar_in p_id _ _ _ Hsel) as [_ Hid].
  subst r novo. unfold ProtocolosCRUD.atualizar. run_m. rewrite Hsel.
  cbn [option_map row_get]. unfold tuple_protocolo, tuple_get.
  cbn [nth_error fst snd].
  split; [reflexivity|].
  unfold ProtocolosCRUD.buscar_por_id. run_m.
  cbn [protocolos set_logs set_protocolos].
  split; [|split].
  - rewrite selecionar_atualizar by reflexivity.
    rewrite Z.eqb_refl, Hsel. cbn [option_map]. unfold tuple_protocolo.
    cbn [p_id p_numero_protocolo p_titulo p_descricao p_tipo_documento
         p_status p_data_protocolo p_data_prazo p_solicitante_id
         p_observacoes p_criado_por p_data_criacao].
    now rewrite Hid.
  - intros k' Hk'. rewrite selecionar_atualizar by reflexivity.
    apply Z.eqb_neq in Hk'. now rewrite Hk'.
  - intros user_data. reflexivity.
Qed.

Lemma protocolo_atualizado_mantem_criador_witness :
  let d1 :=
    snd (ProtocolosCRUD.criar 2025 5 "Ofício 1" None None 0 None None None
           (Some 2) db_exemplo) in
  fst (ProtocolosCRUD.buscar_por_id 1
         (snd (ProtocolosCRUD.atualizar 9 1 "Ofício 1-A" None None
                 "Concluído" 0 None None None (Some 1) d1)))
  = Ok (Some [ PInt 1; PStr "PROT-2025-0001"; PStr "Ofício 1-A"; PNone;
               PNone; PStr "Concluído"; PInt 0; PNone; PNone; PNone;
               PInt 2; PInt 5 ]).
Proof.
  intros d1.
  apply (protocolo_atualizado_mantem_criador 9 1 "Ofício 1-A" None None
           "Concluído" 0 None None None (Some 1) d1
           (mk_protocolo 1 "PROT-2025-0001" "Ofício 1" None None "Pendente"
              0 None None None (Some 2) 5)).
  reflexivity.
Defined.

(** ** What every call keeps *)

Lemma log_cresce_nada (agora : Z) (d : db) : log_cresce agora d d.
Proof.
  exists []. rewrite app_nil_r.
  split; [reflexivity|]. split; [cbn; lia | intros e []].
Qed.

Lemma log_cresce_mesmo_log (agora : Z) (d d' : db) :
  logs_usuario d' = logs_usuario d -> log_cresce agora d d'.
Proof.
  intros E. exists []. rewrite E, app_nil_r.
  split; [reflexivity|]. split; [cbn; lia | intros e []].
Qed.

Lemma log_cresce_registrar (agora : Z) (d d0 : db) (u : option Z)
    (a t : string) (r : option Z) (dt : option string) (s : string)
    (ip ua : option string) :
  logs_usuario d0 = logs_usuario d ->
  log_cresce agora d
    (set_logs
       (inserir (proximo_id l_id (logs_usuario d0))
          (mk_log (proximo_id l_id (logs_usuario d0)) u a t r dt ip ua
             agora s)
          (logs_usuario d0)) d0).
Proof.
  intros E. rewrite E. eexists [_].
  cbn [logs_usuario set_logs inserir linhas].
  split; [reflexivity|]. split; [cbn; lia|].
  intros e [<- | []]. cbn [l_timestamp l_id]. split; [reflexivity|].
  intros x Hx. now apply proximo_id_fresco.
Qed.

Ltac abre_metodo :=
  unfold executar, init_database, login, criar_usuario, atualizar_usuario,
    alterar_senha, deletar_usuario, SolicitantesCRUD.criar,
    SolicitantesCRUD.atualizar, SolicitantesCRUD.deletar,
    ProtocolosCRUD.criar, ProtocolosCRUD.atualizar, ProtocolosCRUD.deletar,
    gerar_numero_protocolo;
  unfold bind, get_db, put_db, ret, raise, lift, registrar_log;
  cbn [fst snd].

Ltac abre_casos :=
  repeat match goal with
    | |- context [selecionar_por_id ?i ?k ?t] =>
        destruct (selecionar_por_id i k t) eqn:?;
        cbn [option_map row_get tuple_get nth_error fst snd tuple_usuario
             tuple_solicitante tuple_protocolo]
    | |- context [if existsb ?f ?l then _ else _] =>
        destruct (existsb f l) eqn:?; cbn [fst snd]
    | |- context [match find ?f ?l with _ => _ end] =>
        destruct (find f l) eqn:?; cbn [fst snd]
    end.

(** X15. The audit log only grows.  Whatever calls are made, in any
    order and whether they return or raise, the log afterwards is the
    log before followed by new entries: no entry is removed or altered,
    a call adds at most one, and each new entry carries the time of one
    of the calls and an id above every id of the log before. *)
Theorem log_so_cresce :
  forall (hash_senha : string -> string) (cs : list (Z * chamada)) (d : db),
    exists novos : list log_row,
      linhas (logs_usuario (executar_todas hash_senha cs d))
      = (linhas (logs_usuario d) ++ novos)%list
      /\ (List.length novos <= List.length cs)%nat
      /\ forall e, In e novos ->
           In (l_timestamp e) (map fst cs)
           /\ forall x, In x (linhas (logs_usuario d)) -> l_id x < l_id e.
Proof.
  intros hash_senha cs. induction cs as [|[agora c] cs IH]; intros d.
  - exists []. cbn. rewrite app_nil_r.
    split; [reflexivity|]. split; [lia | intros e []].
  - assert (H1 : log_cresce agora d (executar hash_senha agora c d)).
    { destruct c; abre_metodo; abre_casos;
        try (apply log_cresce_registrar; reflexivity);
        try apply log_cresce_nada;
        apply log_cresce_mesmo_log; reflexivity. }
    destruct H1 as (n1 & E1 & L1 & P1).
    destruct (IH (executar hash_senha agora c d)) as (n2 & E2 & L2 & P2).
    exists (n1 ++ n2)%list.
    cbn [executar_todas fold_left fst snd List.length map].
    fold (executar_todas hash_senha cs (executar hash_senha agora c d)).
    rewrite E2, E1, <- app_assoc. split; [reflexivity|].
    split; [rewrite length_app; lia|].
    intros e He. apply in_app_or in He. destruct He as [He | He].
    + destruct (P1 e He) as [Ht Hid]. split; [now left | exact Hid].
    + destruct (P2 e He) as [Ht Hid]. split; [now right|].
      intros x Hx. apply Hid. rewrite E1. apply in_or_app. now left.
Qed.

(** ** The constraints of the schema are kept *)

Section NoDupTabela.
Context {R K : Type} (id : R -> Z) (g : R -> K).

Lemma nodup_inserir_id (r : R) (t : tabela R) :
  id r = proximo_id id t ->
  NoDup (map id (linhas t)) ->
  NoDup (map id (linhas (inserir (proximo_id id t) r t))).
Proof.
  intros Hr Hnd. cbn [inserir linhas]. rewrite map_app. cbn [map].
  apply NoDup_app; [exact Hnd | repeat constructor; intros [] |].
  intros k Hk [<- | []]. apply in_map_iff in Hk.
  destruct Hk as (x & Ex & Hx).
  pose proof (proximo_id_fresco id t x Hx). lia.
Qed.

Lemma nodup_inserir_chave (k : Z) (r : R) (t : tabela R) :
  ~ In (g r) (map g (linhas t)) ->
  NoDup (map g (linhas t)) ->
  NoDup (map g (linhas (inserir k r t))).
Proof.
  intros Hr Hnd. cbn [inserir linhas]. rewrite map_app. cbn [map].
  apply NoDup_app; [exact Hnd | repeat constructor; intros [] |].
  intros x Hx [<- | []]. now apply Hr.
Qed.

Lemma nodup_atualizar (k : Z) (f : R -> R) (t : tabela R) :
  (forall r, g (f r) = g r) ->
  NoDup (map g (linhas t)) ->
  NoDup (map g (linhas (atualizar_por_id id k f t))).
Proof.
  intros Hf Hnd. unfold atualizar_por_id; cbn [linhas].
  rewrite map_map.
  rewrite (map_ext _ g); [exact Hnd|].
  intros r. destruct (id r =? k); [apply Hf | reflexivity].
Qed.

Lemma nodup_deletar (k : Z) (t : tabela R) :
  NoDup (map g (linhas t)) ->
  NoDup (map g (linhas (deletar_por_id id k t))).
Proof.
  unfold deletar_por_id; cbn [linhas].
  induction (linhas t) as [|a l IH]; cbn [map filter]; [trivial|].
  intros Hnd. inversion Hnd as [|? ? Hnot Hnd']; subst.
  destruct (negb (id a =? k)); [|now apply IH].
  cbn [map]. constructor; [|now apply IH].
  intros Hin. apply Hnot. apply in_map_iff in Hin.
  destruct Hin as (x & Ex & Hx). apply filter_In in Hx.
  rewrite <- Ex. apply in_map. tauto.
Qed.
End NoDupTabela.

Lemma existsb_eqb_nao_in {R : Type} (g : R -> string) (v : string)
    (l : list R) :
  existsb (fun r => String.eqb (g r) v) l = false -> ~ In v (map g l).
Proof.
  intros H Hin. apply in_map_iff in Hin. destruct Hin as (x & Ex & Hx).
  rewrite existsb_false_iff in H. specialize (H x Hx).
  apply String.eqb_neq in H. congruence.
Qed.

Lemma esquema_registrar (d : db) (r : log_row) :
  l_id r = proximo_id l_id (logs_usuario d) ->
  esquema_ok d ->
  esquema_ok (set_logs (inserir (proximo_id l_id (logs_usuario d)) r
                          (logs_usuario d)) d).
Proof.
  intros Hr (H1 & H2 & H3 & H4 & H5 & H6). unfold esquema_ok.
  cbn [usuarios solicitantes protocolos logs_usuario set_logs].
  repeat (split; [assumption|]). now apply nodup_inserir_id.
Qed.

Lemma esquema_usuarios (d : db) (t : tabela usuario_row) :
  NoDup (map u_id (linhas t)) -> NoDup (map u_usuario (linhas t)) ->
  esquema_ok d -> esquema_ok (set_usuarios t d).
Proof.
  intros Ha Hb (H1 & H2 & H3 & H4 & H5 & H6). unfold esquema_ok.
  cbn [usuarios solicitantes protocolos logs_usuario set_usuarios]. tauto.
Qed.

Lemma esquema_solicitantes (d : db) (t : tabela solicitante_row) :
  NoDup (map s_id (linhas t)) ->
  esquema_ok d -> esquema_ok (set_solicitantes t d).
Proof.
  intros Ha (H1 & H2 & H3 & H4 & H5 & H6). unfold esquema_ok.
  cbn [usuarios solicitantes protocolos logs_usuario set_solicitantes].
  tauto.
Qed.

Lemma esquema_protocolos (d : db) (t : tabela protocolo_row) :
  NoDup (map p_id (linhas t)) ->
  NoDup (map p_numero_protocolo (linhas t)) ->
  esquema_ok d -> esquema_ok (set_protocolos t d).
Proof.
  intros Ha Hb (H1 & H2 & H3 & H4 & H5 & H6). unfold esquema_ok.
  cbn [usuarios solicitantes protocolos logs_usuario set_protocolos]. tauto.
Qed.

Lemma esquema_passo (hash_senha : string -> string) (agora : Z)
    (c : chamada) (d : db) :
  esquema_ok d -> esquema_ok (executar hash_senha agora c d).
Proof.
  intros H. pose proof H as (H1 & H2 & H3 & H4 & H5 & H6).
  destruct c; abre_metodo; abre_casos;
    try exact H;
    try (apply esquema_registrar; [reflexivity|]);
    try exact H;
    try (apply esquema_usuarios;
         [ first [ now apply nodup_inserir_id
                 | now apply nodup_atualizar
                 | now apply nodup_deletar ]
         | first [ apply nodup_inserir_chave;
                   [now apply existsb_eqb_nao_in | exact H2]
                 | now apply nodup_atualizar
                 | now apply nodup_deletar ]
         | exact H ]);
    try (apply esquema_solicitantes;
         [ first [ now apply nodup_inserir_id
                 | now apply nodup_atualizar
                 | now apply nodup_deletar ]
         | exact H ]);
    try (apply esquema_protocolos;
         [ first [ now apply nodup_inserir_id
                 | now apply nodup_atualizar
                 | now apply nodup_deletar ]
         | first [ apply nodup_inserir_chave;
                   [now apply existsb_eqb_nao_in | exact H5]
                 | now apply nodup_atualizar
                 | now apply nodup_deletar ]
         | exact H ]).
Qed.

(** X16. The constraints of the schema hold throughout: when every [id]
    is unique in its table, no two users share a login name and no two
    protocols share a number, the same is true after any sequence of
    calls, whether they return or raise. *)
Theorem esquema_preservado :
  forall (hash_senha : string -> string) (cs : list (Z * chamada)) (d : db),
    esquema_ok d -> esquema_ok (executar_todas hash_senha cs d).
Proof.
  intros hash_senha cs. induction cs as [|[agora c] cs IH]; intros d H.
  - exact H.
  - cbn [executar_todas fold_left fst snd].
    apply IH. now apply esquema_passo.
Qed.

Lemma esquema_ok_db_vazio : esquema_ok db_vazio.
Proof. unfold esquema_ok, db_vazio; cbn. repeat split; constructor. Qed.

Lemma esquema_preservado_witness :
  esquema_ok
    (executar_todas (fun s => s)
       [ (0, ChInitDatabase);
         (1, ChLogin "admin" "admin123");
         (2, ChCriarUsuario "ana" "segredo" "Ana" None "usuario" (Some 1));
         (3, ChCriarSolicitante "Rui" None None None (Some 2));
         (4, ChCriarProtocolo 2025 "Ofício" None None 0 None (Some 1) None
               (Some 2));
         (5, ChDeletarUsuario 2 (Some 1)) ]
       db_vazio).
Proof.
  apply esquema_preservado. exact esquema_ok_db_vazio.
Defined.

(** ** Deleting leaves the references *)

(** X17. Deleting a user or a requester deletes that row alone.  After
    [deletar_usuario] of a user that is there, the protocols, the
    requesters and the earlier log entries are all still there; a
    protocol the user created keeps the id in [criado_por] and is listed
    with [criado_por_nome] NULL, and [buscar_logs] shows the user's
    log entries with [usuario_nome] NULL.  After
    [SolicitantesCRUD.deletar] the protocols of the requester keep
    [solicitante_id] and are listed with [solicitante_nome] NULL. *)
Theorem exclusao_sem_cascata :
  forall (agora id : Z) (por : option Z) (d : db),
    (forall u : usuario_row,
       selecionar_por_id u_id id (usuarios d) = Some u ->
       let r := deletar_usuario agora id por d in
       fst r = Ok true
       /\ protocolos (snd r) = protocolos d
       /\ solicitantes (snd r) = solicitantes d
       /\ (forall x, In x (linhas (logs_usuario d)) ->
                     In x (linhas (logs_usuario (snd r))))
       /\ (forall p, In p (linhas (protocolos (snd r))) ->
             p_criado_por p = Some id ->
             series_get "criado_por" (series_protocolo (snd r) p)
             = Some (PInt id)
             /\ series_get "criado_por_nome" (series_protocolo (snd r) p)
                = Some PNone)
       /\ (forall fu ft fa di df limite rows l nome,
             fst (buscar_logs fu ft fa di df limite (snd r)) = Ok rows ->
             In (l, nome) rows -> l_usuario_id l = Some id -> nome = None))
    /\ (forall s : solicitante_row,
          selecionar_por_id s_id id (solicitantes d) = Some s ->
          let r := SolicitantesCRUD.deletar agora id por d in
          fst r = Ok true
          /\ protocolos (snd r) = protocolos d
          /\ usuarios (snd r) = usuarios d
          /\ (forall p, In p (linhas (protocolos (snd r))) ->
                p_solicitante_id p = Some id ->
                series_get "solicitante_id" (series_protocolo (snd r) p)
                = Some (PInt id)
                /\ series_get "solicitante_nome" (series_protocolo (snd r) p)
                   = Some PNone)).
Proof.
  intros agora id por d. split.
  - intros u Hsel r. subst r. unfold deletar_usuario. run_m.
    rewrite Hsel. cbn [option_map row_get tuple_get nth_error fst snd].
    cbn [protocolos solicitantes logs_usuario usuarios set_logs
         set_usuarios inserir linhas].
    split; [reflexivity|]. split; [reflexivity|]. split; [reflexivity|].
    split; [intros x Hx; apply in_or_app; now left|].
    assert (Hnome : forall d',
              usuarios d' = deletar_por_id u_id id (usuarios d) ->
              nome_usuario d' (Some id) = None).
    { intros d' E. unfold nome_usuario. now rewrite E, selecionar_deletar. }
    split.
    + intros p _ Hp. unfold series_get, series_protocolo, tuple_protocolo.
      rewrite Hp. rewrite Hnome by reflexivity. now split.
    + intros fu ft fa di df limite rows l nome Hrows Hin Hl.
      unfold buscar_logs in Hrows. revert Hrows. run_m.
      intros Hrows. injection Hrows as <-.
      apply in_map_iff in Hin. destruct Hin as (x & Ex & _).
      injection Ex as -> <-. rewrite Hl. now apply Hnome.
  - intros s Hsel r. subst r. unfold SolicitantesCRUD.deletar. run_m.
    rewrite Hsel. cbn [fst snd].
    cbn [protocolos solicitantes usuarios set_logs set_solicitantes].
    split; [reflexivity|]. split; [reflexivity|]. split; [reflexivity|].
    intros p _ Hp. unfold series_get, series_protocolo, tuple_protocolo.
    rewrite Hp. cbn [solicitantes set_logs set_solicitantes].
    rewrite selecionar_deletar. now split.
Qed.

Lemma exclusao_sem_cascata_witness :
  let d1 :=
    snd (ProtocolosCRUD.criar 2025 5 "Ofício 1" None None 0 None None None
           (Some 2) db_exemplo) in
  let d2 := snd (deletar_usuario 9 2 (Some 1) d1) in
  protocolos d2 = protocolos d1
  /\ fst (listar None "admin" d2)
     = Ok [ [ ("id", PInt 1); ("numero_protocolo", PStr "PROT-2025-0001");
              ("titulo", PStr "Ofício 1"); ("descricao", PNone);
              ("tipo_documento", PNone); ("status", PStr "Pendente");
              ("data_protocolo", PInt 0); ("data_prazo", PNone);
              ("solicitante_id", PNone); ("observacoes", PNone);
              ("criado_por", PInt 2); ("data_criacao", PInt 5);
              ("solicitante_nome", PNone); ("criado_por_nome", PNone) ] ].
Proof.
  intros d1 d2.
  destruct (exclusao_sem_cascata 9 2 (Some 1) d1) as [H _].
  destruct (H (mk_usuario 2 "ana" "segredo" "Ana" None "usuario" 0 10 None)
              eq_refl) as (_ & Hp & _).
  split; [exact Hp | reflexivity].
Defined.

(** ** [buscar_logs] *)

Lemma filtro_logs_spec (fu : option Z) (ft fa : option string)
    (di df : option Z) (l : log_row) :
  filtro_logs fu ft fa di df l = true
  <-> (forall u, fu = Some u -> u <> 0 -> l_usuario_id l = Some u)
      /\ (forall t, ft = Some t -> t <> "" -> l_tabela_afetada l = t)
      /\ (forall a, fa = Some a -> a <> "" -> l_acao l = a)
      /\ (forall i, di = Some i -> i <= DATE (l_timestamp l))
      /\ (forall f, df = Some f -> DATE (l_timestamp l) <= f).
Proof.
  unfold filtro_logs. rewrite !andb_true_iff.
  assert (H1 : match fu with
               | Some u =>
                   if u =? 0 then true
                   else opt_eqb Z.eqb (l_usuario_id l) (Some u)
               | None => true
               end = true
               <-> (forall u, fu = Some u -> u <> 0 ->
                              l_usuario_id l = Some u)).
  { destruct fu as [u|]; [|split; [discriminate | reflexivity]].
    destruct (u =? 0) eqn:E.
    - apply Z.eqb_eq in E. split; [|reflexivity].
      intros _ u' [= <-] Hu. contradiction.
    - apply Z.eqb_neq in E. rewrite opt_eqb_Z_true_iff. split.
      + intros H u' [= <-] _. exact H.
      + intros H. now apply H. }
  assert (Hs : forall (o : option string) (v : string),
             match o with
             | Some t => if String.eqb t "" then true else String.eqb v t
             | None => true
             end = true
             <-> (forall t, o = Some t -> t <> "" -> v = t)).
  { intros [t|] v; [|split; [discriminate | reflexivity]].
    destruct (String.eqb t "") eqn:E.
    - apply String.eqb_eq in E. split; [|reflexivity].
      intros _ t' [= <-] Ht. contradiction.
    - apply String.eqb_neq in E. rewrite String.eqb_eq. split.
      + intros H t' [= <-] _. exact H.
      + intros H. now apply H. }
  assert (H4 : match di with
               | Some i => i <=? DATE (l_timestamp l)
               | None => true
               end = true
               <-> (forall i, di = Some i -> i <= DATE (l_timestamp l))).
  { destruct di as [i|]; [|split; [discriminate | reflexivity]].
    rewrite Z.leb_le. split.
    - intros H i' [= <-]. exact H.
    - intros H. now apply H. }
  assert (H5 : match df with
               | Some f => DATE (l_timestamp l) <=? f
               | None => true
               end = true
               <-> (forall f, df = Some f -> DATE (l_timestamp l) <= f)).
  { destruct df as [f|]; [|split; [discriminate | reflexivity]].
    rewrite Z.leb_le. split.
    - intros H f' [= <-]. exact H.
    - intros H. now apply H. }
  rewrite H1, (Hs ft), (Hs fa), H4, H5. tauto.
Qed.

Lemma sorted_app_entre {A : Type} (R : A -> A -> Prop) (l1 l2 : list A) :
  StronglySorted R (l1 ++ l2) ->
  StronglySorted R l1
  /\ forall a b, In a l1 -> In b l2 -> R a b.
Proof.
  induction l1 as [|x l1 IH]; cbn [app]; intros H.
  - split; [constructor | intros a b []].
  - inversion H as [|? ? Hs Hx]; subst.
    destruct (IH Hs) as [Hs1 Hab]. split.
    + constructor; [exact Hs1|].
      rewrite Forall_forall in *. intros y Hy. apply Hx.
      apply in_or_app. now left.
    + intros a b [<- | Ha] Hb.
      * rewrite Forall_forall in Hx. apply Hx. apply in_or_app. now right.
      * now apply Hab.
Qed.

Lemma limitar_spec {A : Type} (n : Z) (l : list A) :
  exists resto : list A,
    l = (limitar n l ++ resto)%list
    /\ (0 <= n -> Z.of_nat (List.length (limitar n l)) <= n)
    /\ (resto <> [] -> Z.of_nat (List.length (limitar n l)) = n).
Proof.
  unfold limitar. destruct (n <? 0) eqn:E.
  - exists []. rewrite app_nil_r. apply Z.ltb_lt in E.
    split; [reflexivity|]. split; [lia | congruence].
  - apply Z.ltb_ge in E. exists (skipn (Z.to_nat n) l).
    split; [now rewrite firstn_skipn|].
    pose proof (firstn_le_length (Z.to_nat n) l) as Hle.
    split; [lia|]. intros Hr.
    destruct (Nat.le_gt_cases (List.length l) (Z.to_nat n)) as [H | H].
    + elim Hr. now apply skipn_all2.
    + rewrite length_firstn. lia.
Qed.

(** X18. [buscar_logs] changes nothing and returns, newest first, log
    entries that pass every filter given, each with the name of its
    actor ([None] when the actor is NULL or no longer a user) and never
    more than [limite] of them.  A filter that is [None], [0] or the
    empty text filters nothing.  Every entry that passes is returned
    unless the limit is reached, and then no entry returned is older
    than one left out. *)
Theorem buscar_logs_filtra_ordena_limita :
  forall (filtro_usuario : option Z) (filtro_tabela filtro_acao : option string)
         (data_inicio data_fim : option Z) (limite : Z) (d : db),
    let passa (l : log_row) : Prop :=
      (forall u, filtro_usuario = Some u -> u <> 0 ->
                 l_usuario_id l = Some u)
      /\ (forall t, filtro_tabela = Some t -> t <> "" ->
                    l_tabela_afetada l = t)
      /\ (forall a, filtro_acao = Some a -> a <> "" -> l_acao l = a)
      /\ (forall i, data_inicio = Some i -> i <= DATE (l_timestamp l))
      /\ (forall f, data_fim = Some f -> DATE (l_timestamp l) <= f) in
    exists rows : list (log_row * option string),
      buscar_logs filtro_usuario filtro_tabela filtro_acao data_inicio
        data_fim limite d
      = (Ok rows, d)
      /\ (forall l nome, In (l, nome) rows ->
            In l (linhas (logs_usuario d))
            /\ passa l
            /\ nome = nome_usuario d (l_usuario_id l))
      /\ StronglySorted (fun a b => l_timestamp b <= l_timestamp a)
           (map fst rows)
      /\ (0 <= limite -> Z.of_nat (List.length rows) <= limite)
      /\ (forall l, In l (linhas (logs_usuario d)) -> passa l ->
            In l (map fst rows)
            \/ (Z.of_nat (List.length rows) = limite
                /\ forall a, In a (map fst rows) ->
                     l_timestamp l <= l_timestamp a)).
Proof.
  intros fu ft fa di df limite d passa.
  set (sel := filter (filtro_logs fu ft fa di df) (linhas (logs_usuario d))).
  set (le := fun a b : log_row => l_timestamp b <=? l_timestamp a).
  set (g := fun l : log_row => (l, nome_usuario d (l_usuario_id l))).
  exists (map g (limitar limite (ordenar le sel))).
  split; [reflexivity|].
  assert (Hfst : map fst (map g (limitar limite (ordenar le sel)))
                 = limitar limite (ordenar le sel)).
  { rewrite map_map. cbn [g fst]. apply map_id. }
  rewrite Hfst, length_map.
  destruct (limitar_spec limite (ordenar le sel)) as (resto & Eo & Hle & Hfull).
  assert (Hsort : StronglySorted (fun a b => l_timestamp b <= l_timestamp a)
                    (ordenar le sel)).
  { eapply StronglySorted_impl; [|apply (ordenar_sorted le)].
    - intros a b H. unfold le in H. now apply Z.leb_le.
    - intros a b H. unfold le in *. apply Z.leb_gt in H. apply Z.leb_le. lia.
    - intros a b c H1 H2. unfold le in *.
      apply Z.leb_le in H1, H2. apply Z.leb_le. lia. }
  rewrite Eo in Hsort. apply sorted_app_entre in Hsort.
  destruct Hsort as [Hs1 Hentre].
  assert (Hsel : forall l, In l sel
                   <-> In l (linhas (logs_usuario d)) /\ passa l).
  { intros l. unfold sel. rewrite filter_In, filtro_logs_spec. reflexivity. }
  assert (Hord : forall l, In l (ordenar le sel) <-> In l sel).
  { intros l. split; apply Permutation_in;
      [apply ordenar_perm | apply Permutation_sym, ordenar_perm]. }
  split; [|split; [exact Hs1 | split; [exact Hle|]]].
  - intros l nome Hin. apply in_map_iff in Hin.
    destruct Hin as (x & Ex & Hx). injection Ex as <- <-.
    assert (Hx' : In x (ordenar le sel)).
    { rewrite Eo. apply in_or_app. now left. }
    apply Hord, Hsel in Hx'. destruct Hx' as [H1 H2].
    split; [exact H1 | split; [exact H2 | reflexivity]].
  - intros l Hl Hp.
    assert (Hin : In l (ordenar le sel)) by (apply Hord, Hsel; now split).
    rewrite Eo in Hin. apply in_app_or in Hin.
    destruct Hin as [Hin | Hin]; [now left | right].
    split.
    + apply Hfull. intros E. rewrite E in Hin. exact Hin.
    + intros a Ha. now apply Hentre.
Qed.

(** ** Counts by action *)

Lemma soma_contar_chave {A : Type}
    (eq_dec : forall x y : A, {x = y} + {x <> y}) (k : A)
    (g : list (A * Z)) :
  fold_right Z.add 0 (map snd (contar_chave eq_dec k g))
  = fold_right Z.add 0 (map snd g) + 1.
Proof.
  induction g as [|[k' n] g IH]; cbn [contar_chave map snd fold_right].
  - lia.
  - destruct (eq_dec k k'); cbn [map snd fold_right]; lia.
Qed.

Lemma soma_agrupar {A : Type}
    (eq_dec : forall x y : A, {x = y} + {x <> y}) (l : list A) :
  fold_right Z.add 0 (map snd (agrupar eq_dec l))
  = Z.of_nat (List.length l).
Proof.
  induction l as [|x l IH] using rev_ind; [reflexivity|].
  rewrite fold_contar_chave_app, soma_contar_chave, IH, length_app.
  cbn [List.length]. lia.
Qed.

Lemma soma_perm (l l' : list Z) :
  Permutation l l' -> fold_right Z.add 0 l = fold_right Z.add 0 l'.
Proof.
  induction 1; cbn [fold_right]; lia.
Qed.

(** X19. The counts by action of [estatisticas_logs] have one row for
    each action that occurs in the log, with the number of entries of
    that action, in descending order of the number; the numbers add up
    to the number of entries of the log; and the call changes
    nothing. *)
Theorem estat_acoes_conta_por_acao :
  forall (agora : Z) (d : db),
    let logs := linhas (logs_usuario d) in
    let df_acoes := estat_acoes d in
    (exists df_usuarios df_diario,
       estatisticas_logs agora d = (Ok (df_acoes, df_usuarios, df_diario), d))
    /\ (forall a n, In (a, n) df_acoes
                    <-> n = quantos string_dec l_acao a logs /\ 0 < n)
    /\ NoDup (map fst df_acoes)
    /\ StronglySorted (fun x y => snd y <= snd x) df_acoes
    /\ fold_right Z.add 0 (map snd df_acoes) = Z.of_nat (List.length logs).
Proof.
  intros agora d logs df_acoes.
  set (le := fun a b : string * Z => snd b <=? snd a).
  assert (E : df_acoes = ordenar le (agrupar string_dec (map l_acao logs)))
    by reflexivity.
  pose proof (ordenar_perm le (agrupar string_dec (map l_acao logs)))
    as Hperm.
  rewrite <- E in Hperm.
  split; [do 2 eexists; reflexivity|].
  split; [|split; [|split]].
  - intros a n. split.
    + intros H. apply (Permutation_in _ Hperm) in H.
      apply agrupar_spec in H. destruct H as [Hin ->].
      rewrite count_occ_map_quantos. split; [reflexivity|].
      exact (proj2 (quantos_pos _ _ _ _) Hin).
    + intros [-> Hpos].
      apply (Permutation_in _ (Permutation_sym Hperm)).
      apply agrupar_spec. rewrite count_occ_map_quantos.
      split; [|reflexivity].
      exact (proj1 (quantos_pos _ _ _ _) Hpos).
  - eapply Permutation_NoDup.
    + apply Permutation_map. symmetry. exact Hperm.
    + apply agrupar_chaves.
  - rewrite E. eapply StronglySorted_impl; [|apply (ordenar_sorted le)].
    + intros a b H. unfold le in H. now apply Z.leb_le.
    + intros a b H. unfold le in *. apply Z.leb_gt in H. apply Z.leb_le. lia.
    + intros a b c H1 H2. unfold le in *.
      apply Z.leb_le in H1, H2. apply Z.leb_le. lia.
  - rewrite (soma_perm _ _ (Permutation_map snd Hperm)), soma_agrupar.
    unfold logs. now rewrite length_map.
Qed.

(** ** Listings *)

Lemma ascii_compare_refl (a : ascii) : Ascii.compare a a = Eq.
Proof. unfold Ascii.compare. apply N.compare_refl. Qed.

Lemma ascii_compare_lt_trans (a b c : ascii) :
  Ascii.compare a b = Lt -> Ascii.compare b c = Lt -> Ascii.compare a c = Lt.
Proof. unfold Ascii.compare. rewrite !N.compare_lt_iff. lia. Qed.

Lemma string_compare_trans (a b c : string) :
  String.compare a b <> Gt -> String.compare b c <> Gt ->
  String.compare a c <> Gt.
Proof.
  revert b c. induction a as [|x a IH]; intros [|y b] [|z c];
    cbn [String.compare]; try congruence.
  destruct (Ascii.compare x y) eqn:Exy; [| |congruence];
    destruct (Ascii.compare y z) eqn:Eyz; try congruence.
  - apply Ascii.compare_eq_iff in Exy, Eyz. subst.
    rewrite ascii_compare_refl. apply IH.
  - apply Ascii.compare_eq_iff in Exy. subst. now rewrite Eyz.
  - apply Ascii.compare_eq_iff in Eyz. subst. now rewrite Exy.
  - now rewrite (ascii_compare_lt_trans _ _ _ Exy Eyz).
Qed.

Lemma string_leb_trans (a b c : string) :
  String.leb a b = true -> String.leb b c = true -> String.leb a c = true.
Proof.
  unfold String.leb. intros H1 H2.
  pose proof (string_compare_trans a b c) as H.
  destruct (String.compare a b); try discriminate;
    destruct (String.compare b c); try discriminate;
    destruct (String.compare a c); try reflexivity;
    elim H; congruence.
Qed.

Lemma string_leb_false (a b : string) :
  String.leb a b = false -> String.leb b a = true.
Proof.
  intros H. destruct (String.leb_total a b) as [E | E]; congruence.
Qed.

(** [ORDER BY] a text column, ascending or descending: every row once,
    in the order of the bytes of the column. *)
Lemma ordenar_por_texto {A : Type} (key : A -> string) (l : list A) :
  (Permutation (ordenar (fun a b => String.leb (key a) (key b)) l) l
   /\ StronglySorted (fun a b => String.leb (key a) (key b) = true)
        (ordenar (fun a b => String.leb (key a) (key b)) l))
  /\ (Permutation (ordenar (fun a b => String.leb (key b) (key a)) l) l
      /\ StronglySorted (fun a b => String.leb (key b) (key a) = true)
           (ordenar (fun a b => String.leb (key b) (key a)) l)).
Proof.
  split; (split; [apply ordenar_perm|]).
  - apply (ordenar_sorted (fun a b => String.leb (key a) (key b))).
    + intros a b. apply string_leb_false.
    + intros a b c. apply string_leb_trans.
  - apply (ordenar_sorted (fun a b => String.leb (key b) (key a))).
    + intros a b. apply string_leb_false.
    + intros a b c H1 H2. exact (string_leb_trans _ _ _ H2 H1).
Qed.

(** X20. [ProtocolosCRUD.listar] changes nothing and lists protocols in
    descending order of their numbers, each once.  With the level
    [admin] (the default) it lists every protocol; with any other level
    it lists exactly the protocols whose creator is [usuario_id], none
    at all when [usuario_id] is [None]; and every row of such a listing
    passes the edit test of the protocol list for that user. *)
Theorem listar_mostra_so_os_proprios :
  forall (usuario_id : option Z) (nivel_acesso : string) (d : db),
    exists sel : list protocolo_row,
      listar usuario_id nivel_acesso d = (Ok (map (series_protocolo d) sel), d)
      /\ StronglySorted
           (fun a b => String.leb (p_numero_protocolo b)
                                  (p_numero_protocolo a) = true) sel
      /\ (NoDup (linhas (protocolos d)) -> NoDup sel)
      /\ (forall p, In p sel
            <-> In p (linhas (protocolos d))
                /\ (nivel_acesso = "admin"
                    \/ exists u, usuario_id = Some u
                                 /\ p_criado_por p = Some u))
      /\ (nivel_acesso <> "admin" ->
          forall (user_data : list pyval) (u : Z) (nivel : pyval)
                 (row : series),
            usuario_id = Some u ->
            tuple_get user_data 0 = Ok (PInt u) ->
            tuple_get user_data 3 = Ok nivel ->
            In row (map (series_protocolo d) sel) ->
            pode_editar_lista user_data row = Ok true).
Proof.
  intros usuario_id nivel_acesso d.
  set (base := if String.eqb nivel_acesso "admin"
               then linhas (protocolos d)
               else filter (fun p => opt_eqb Z.eqb (p_criado_por p) usuario_id)
                           (linhas (protocolos d))).
  destruct (ordenar_por_texto p_numero_protocolo base) as [_ [Hperm Hsort]].
  exists (ordenar (fun a b => String.leb (p_numero_protocolo b)
                                         (p_numero_protocolo a)) base).
  split; [reflexivity|]. split; [exact Hsort|].
  assert (Hbase : forall p, In p base
            <-> In p (linhas (protocolos d))
                /\ (nivel_acesso = "admin"
                    \/ exists u, usuario_id = Some u
                                 /\ p_criado_por p = Some u)).
  { intros p. unfold base.
    destruct (String.eqb nivel_acesso "admin") eqn:E.
    - apply String.eqb_eq in E. tauto.
    - apply String.eqb_neq in E. rewrite filter_In. split.
      + intros [H1 H2]. split; [exact H1 | right].
        destruct usuario_id as [u|];
          [|destruct (p_criado_por p); discriminate].
        exists u. split; [reflexivity|].
        now apply opt_eqb_Z_true_iff.
      + intros [H1 [H2 | (u & -> & H2)]]; [contradiction|].
        split; [exact H1|]. now apply opt_eqb_Z_true_iff. }
  split; [|split].
  - intros Hnd. apply (Permutation_NoDup (Permutation_sym Hperm)).
    unfold base. destruct (String.eqb nivel_acesso "admin"); [exact Hnd|].
    now apply NoDup_filter.
  - intros p. rewrite <- Hbase. split; apply Permutation_in;
      [exact Hperm | now apply Permutation_sym].
  - intros Hnivel user_data u nivel row -> H0 H3 Hrow.
    apply in_map_iff in Hrow. destruct Hrow as (p & <- & Hp).
    apply (Permutation_in _ Hperm), Hbase in Hp.
    destruct Hp as [_ [Hp | (u' & [= <-] & Hp)]]; [contradiction|].
    unfold pode_editar_lista. rewrite H3, H0.
    unfold series_get, series_protocolo, tuple_protocolo. rewrite Hp.
    cbn. rewrite Z.eqb_refl. now rewrite orb_true_r.
Qed.

(** X21. [listar_usuarios] and [SolicitantesCRUD.listar] change nothing
    and list every row of their table once, in ascending order of the
    bytes of [nome]; a row of [listar_usuarios] has no column
    [senha]. *)
Theorem listagens_por_nome :
  forall d : db,
    (exists us : list usuario_row,
       listar_usuarios d = (Ok (map series_usuario us), d)
       /\ Permutation us (linhas (usuarios d))
       /\ StronglySorted
            (fun a b => String.leb (u_nome a) (u_nome b) = true) us
       /\ forall row, In row (map series_usuario us) ->
                      series_get "senha" row = None)
    /\ (exists ss : list solicitante_row,
          listar_solicitantes d = (Ok (map series_solicitante ss), d)
          /\ Permutation ss (linhas (solicitantes d))
          /\ StronglySorted
               (fun a b => String.leb (s_nome a) (s_nome b) = true) ss).
Proof.
  intros d. split.
  - destruct (ordenar_por_texto u_nome (linhas (usuarios d)))
      as [[Hperm Hsort] _].
    eexists. split; [reflexivity|]. split; [exact Hperm|].
    split; [exact Hsort|].
    intros row Hrow. apply in_map_iff in Hrow.
    destruct Hrow as (u & <- & _). reflexivity.
  - destruct (ordenar_por_texto s_nome (linhas (solicitantes d)))
      as [[Hperm Hsort] _].
    eexists. split; [reflexivity|]. split; [exact Hperm | exact Hsort].
Qed.

(** ** The session and the pages *)

(** X22. The pages for administrators are reached by administrators
    alone.  For a session whose [user_data] has the level [nivel] at
    index 3, the menu offers [Usuários] and [Logs do Sistema] exactly
    when [nivel] is [admin]; whatever option is chosen, the routing
    calls [gerenciar_usuarios] or [pagina_logs] only for [admin], and
    the bodies of these two pages run only for [admin]; the three other
    pages are routed to and run for every level.  Without [user_data]
    no option leads to the two pages. *)
Theorem paginas_de_admin_so_para_admin :
  (forall (user_data : list pyval) (nivel : string),
     tuple_get user_data 3 = Ok (PStr nivel) ->
     let session := Some user_data in
     opcoes_menu session
     = Ok (List.app [ "Dashboard"; "Protocolos"; "Solicitantes" ]
             (if String.eqb nivel "admin"
              then [ "Usuários"; "Logs do Sistema" ] else []))
     /\ (forall opcao p,
           roteamento session opcao = Ok (Some p) ->
           p = GerenciarUsuarios \/ p = PaginaLogs -> nivel = "admin")
     /\ (forall p,
           corpo_da_pagina session p = Ok true ->
           p = GerenciarUsuarios \/ p = PaginaLogs -> nivel = "admin")
     /\ (nivel = "admin" ->
         roteamento session "Usuários" = Ok (Some GerenciarUsuarios)
         /\ roteamento session "Logs do Sistema" = Ok (Some PaginaLogs))
     /\ roteamento session "Dashboard" = Ok (Some Dashboard)
     /\ roteamento session "Protocolos" = Ok (Some GerenciarProtocolos)
     /\ roteamento session "Solicitantes" = Ok (Some GerenciarSolicitantes))
  /\ (forall opcao p,
        roteamento None opcao = Ok (Some p) ->
        p <> GerenciarUsuarios /\ p <> PaginaLogs).
Proof.
  split.
  - intros user_data nivel H3 session.
    assert (Hv : verificar_permissao session "admin"
                 = Ok (String.eqb nivel "admin")).
    { unfold session, verificar_permissao. rewrite H3. reflexivity. }
    split; [unfold opcoes_menu; now rewrite Hv|].
    split; [|split; [|split]].
    + intros opcao p. unfold roteamento. rewrite Hv.
      destruct (String.eqb nivel "admin") eqn:E;
        [intros _ _; now apply String.eqb_eq|].
      destruct (String.eqb opcao "Dashboard");
        [intros [= <-] [H | H]; discriminate|].
      destruct (String.eqb opcao "Protocolos");
        [intros [= <-] [H | H]; discriminate|].
      destruct (String.eqb opcao "Solicitantes");
        [intros [= <-] [H | H]; discriminate|].
      destruct (String.eqb opcao "Usuários"),
               (String.eqb opcao "Logs do Sistema"); discriminate.
    + intros p Hp [-> | ->]; cbn [corpo_da_pagina] in Hp;
        rewrite Hv in Hp; injection Hp as Hp; now apply String.eqb_eq.
    + intros ->. unfold roteamento. rewrite Hv. now split.
    + repeat split.
  - intros opcao p. unfold roteamento. cbn [verificar_permissao].
    destruct (String.eqb opcao "Dashboard");
      [intros [= <-]; split; discriminate|].
    destruct (String.eqb opcao "Protocolos");
      [intros [= <-]; split; discriminate|].
    destruct (String.eqb opcao "Solicitantes");
      [intros [= <-]; split; discriminate|].
    destruct (String.eqb opcao "Usuários"),
             (String.eqb opcao "Logs do Sistema"); discriminate.
Qed.

Lemma paginas_de_admin_so_para_admin_witness :
  opcoes_menu (Some [ PInt 2; PStr "ana"; PStr "Ana"; PStr "usuario"; PInt 1 ])
  = Ok [ "Dashboard"; "Protocolos"; "Solicitantes" ].
Proof.
  destruct paginas_de_admin_so_para_admin as [H _].
  exact (proj1 (H [ PInt 2; PStr "ana"; PStr "Ana"; PStr "usuario"; PInt 1 ]
                  "usuario" eq_refl)).
Defined.

(** X23. A session opens with a successful login and closes with
    [logout].  The login form with the name and the password of an
    active user stores [authenticated = True] and the row of the user
    as [user_data]; with credentials that [login] refuses it leaves the
    session as it was.  [logout] of a session whose [user_data] begins
    with an id and a login name appends exactly one log entry, with
    [acao = 'LOGOUT'] and the id as actor and as record, changes no
    other table and leaves the session empty; [logout] of a session
    without [user_data] logs nothing. *)
Theorem sessao_login_logout :
  forall (hash_senha : string -> string) (agora : Z) (s : session_state)
         (d : db),
    (forall (senha : string) (u : usuario_row),
       esquema_ok d ->
       In u (linhas (usuarios d)) ->
       u_senha u = hash_senha senha ->
       u_ativo u = 1 ->
       fst (pagina_login hash_senha agora (u_usuario u) senha s d)
       = Ok (mk_session (Some true)
               (Some [ PInt (u_id u); PStr (u_usuario u); PStr (u_nome u);
                       PStr (u_nivel_acesso u); PInt 1 ])))
    /\ (forall usuario senha : string,
          fst (login hash_senha agora usuario senha d) = Ok None ->
          fst (pagina_login hash_senha agora usuario senha s d) = Ok s)
    /\ (forall (uid : Z) (usuario : string) (resto : list pyval),
          ss_user_data s = Some (PInt uid :: PStr usuario :: resto) ->
          exists d' : db,
            logout agora s d = Some (Ok sessao_vazia, d')
            /\ linhas (logs_usuario d')
               = (linhas (logs_usuario d)
                  ++ [ mk_log (proximo_id l_id (logs_usuario d)) (Some uid)
                         "LOGOUT" "usuarios" (Some uid)
                         (Some ("Logout realizado para usuário: "
                                ++ usuario)%string)
                         None None agora "sucesso" ])%list
            /\ usuarios d' = usuarios d
            /\ solicitantes d' = solicitantes d
            /\ protocolos d' = protocolos d)
    /\ (ss_user_data s = None -> logout agora s d = Some (Ok sessao_vazia, d)).
Proof.
  intros hash_senha agora s d. split; [|split; [|split]].
  - intros senha u (Hid & Hnome & _) Hin Hsenha Hativo.
    pose proof (login_resultado hash_senha agora (u_usuario u) senha d)
      as Hl.
    rewrite (find_credencial _ _ u Hnome Hin) in Hl.
    rewrite Hsenha, String.eqb_refl, Hativo in Hl.
    cbn [andb Z.eqb Pos.eqb option_map] in Hl. unfold tuple_login in Hl.
    rewrite Hativo in Hl.
    unfold pagina_login, bind.
    destruct (login hash_senha agora (u_usuario u) senha d) as [o d1].
    cbn [fst] in Hl. subst o. reflexivity.
  - intros usuario senha Hl. unfold pagina_login, bind.
    destruct (login hash_senha agora usuario senha d) as [o d1].
    cbn [fst] in Hl. subst o. reflexivity.
  - intros uid usuario resto Hs. unfold logout. rewrite Hs.
    cbn [tuple_get nth_error sql_integer py_str registrar_log].
    eexists. split; [reflexivity|]. repeat split.
  - intros Hs. unfold logout. now rewrite Hs.
Qed.

Lemma sessao_login_logout_witness :
  fst (pagina_login (fun s => s) 100 "admin" "admin123" sessao_vazia
         db_exemplo)
  = Ok (mk_session (Some true)
          (Some [ PInt 1; PStr "admin"; PStr "Administrador"; PStr "admin";
                  PInt 1 ])).
Proof.
  destruct (sessao_login_logout (fun s => s) 100 sessao_vazia db_exemplo)
    as [H _].
  exact (H "admin123"
           (mk_usuario 1 "admin" "admin123" "Administrador" None "admin" 1
              0 None)
           esquema_ok_db_exemplo (or_introl eq_refl) eq_refl eq_refl).
Defined.

(** ** The numbers of the dashboard *)

Lemma filter_map_troca {A B : Type} (f : B -> bool) (g : A -> B)
    (l : list A) :
  filter f (map g l) = map g (filter (fun x => f (g x)) l).
Proof.
  induction l as [|a l IH]; cbn; [reflexivity|].
  destruct (f (g a)); cbn; now rewrite IH.
Qed.

Lemma length_filter_perm {A : Type} (f : A -> bool) (l l' : list A) :
  Permutation l l' ->
  List.length (filter f l) = List.length (filter f l').
Proof.
  induction 1 as [|x l l' _ IH|x y l|l l' l'' _ IH1 _ IH2]; cbn.
  - reflexivity.
  - destruct (f x); cbn; now rewrite IH.
  - destruct (f x), (f y); reflexivity.
  - now rewrite IH1.
Qed.

Lemma length_filter_e {A : Type} (f g : A -> bool) (l : list A) :
  (List.length (filter (fun x => f x && g x) l)
   <= List.length (filter g l))%nat.
Proof.
  induction l as [|a l IH]; cbn; [lia|].
  destruct (f a), (g a); cbn; lia.
Qed.

(** X24. The dashboard counts every protocol and every requester of the
    database, whoever is logged in, and changes nothing.  The pending
    ones are the protocols of status [Pendente]; the overdue ones are
    the pending protocols whose deadline is a date whose midnight is
    before the current time, so that a protocol due today counts as
    overdue once midnight has passed, and a protocol without deadline
    never does; overdue is at most pending, and pending at most the
    total. *)
Theorem dashboard_metricas_conta :
  forall (agora : Z) (d : db),
    let ps := linhas (protocolos d) in
    let pendente (p : protocolo_row) := String.eqb (p_status p) "Pendente" in
    let vencido (p : protocolo_row) :=
      match p_data_prazo p with
      | Some dia => dia * 86400 <? agora
      | None => false
      end in
    exists total pendentes n_solicitantes vencidos : Z,
      dashboard_metricas agora d
      = (Ok (total, pendentes, n_solicitantes, vencidos), d)
      /\ total = Z.of_nat (List.length ps)
      /\ pendentes = Z.of_nat (List.length (filter pendente ps))
      /\ n_solicitantes = Z.of_nat (List.length (linhas (solicitantes d)))
      /\ vencidos
         = Z.of_nat (List.length
                       (filter (fun p => vencido p && pendente p) ps))
      /\ 0 <= vencidos <= pendentes
      /\ pendentes <= total
      /\ (forall p, In p ps -> p_status p = "Pendente" ->
            p_data_prazo p = Some (DATE agora) ->
            0 < agora mod 86400 -> 0 < vencidos).
Proof.
  intros agora d ps pendente vencido.
  set (le := fun a b : protocolo_row =>
               String.leb (p_numero_protocolo b) (p_numero_protocolo a)).
  pose proof (ordenar_perm le ps) as Hperm.
  set (pend := fun row : series =>
                 match series_get "status" row with
                 | Some v => py_eqb v (PStr "Pendente")
                 | None => false
                 end).
  set (antes := fun row : series =>
                  match series_get "data_prazo" row with
                  | Some (PInt dia) => dia * 86400 <? agora
                  | _ => false
                  end).
  assert (Hpend : forall p, pend (series_protocolo d p) = pendente p)
    by reflexivity.
  assert (Hantes : forall p, antes (series_protocolo d p) = vencido p).
  { intros p. unfold antes, vencido, series_get, series_protocolo,
      tuple_protocolo. cbn. now destruct (p_data_prazo p). }
  assert (Hdf : forall f : series -> bool,
             List.length (filter f (map (series_protocolo d) (ordenar le ps)))
             = List.length (filter (fun p => f (series_protocolo d p)) ps)).
  { intros f. rewrite filter_map_troca, length_map.
    now apply length_filter_perm. }
  assert (Hv : match map (series_protocolo d) (ordenar le ps) with
               | [] => 0
               | _ :: _ =>
                   Z.of_nat
                     (List.length
                        (filter (fun row => antes row && pend row)
                           (map (series_protocolo d) (ordenar le ps))))
               end
               = Z.of_nat (List.length
                             (filter (fun p => vencido p && pendente p) ps))).
  { transitivity
      (Z.of_nat
         (List.length
            (filter (fun row => antes row && pend row)
               (map (series_protocolo d) (ordenar le ps))))).
    - now destruct (map (series_protocolo d) (ordenar le ps)).
    - rewrite Hdf. do 2 f_equal. apply filter_ext. intros p.
      now rewrite Hantes, Hpend. }
  exists (Z.of_nat
            (List.length (map (series_protocolo d) (ordenar le ps)))),
         (Z.of_nat
            (List.length
               (filter pend (map (series_protocolo d) (ordenar le ps))))),
         (Z.of_nat
            (List.length
               (map series_solicitante
                  (ordenar (fun a b => String.leb (s_nome a) (s_nome b))
                     (linhas (solicitantes d)))))),
         (Z.of_nat
            (List.length (filter (fun p => vencido p && pendente p) ps))).
  split.
  { rewrite <- Hv. reflexivity. }
  rewrite !length_map.
  split; [now rewrite (Permutation_length Hperm)|].
  split; [now rewrite (Hdf pend)|].
  split.
  { f_equal. apply Permutation_length. apply ordenar_perm. }
  split; [reflexivity|].
  rewrite (Hdf pend).
  replace (filter (fun p => pend (series_protocolo d p)) ps)
    with (filter pendente ps) by reflexivity.
  pose proof (length_filter_e vencido pendente ps) as H1.
  pose proof (filter_length_le pendente ps) as H2.
  rewrite (Permutation_length Hperm).
  split; [lia|]. split; [lia|].
  intros p Hp Hst Hprazo Hmod.
  assert (Hin : In p (filter (fun p => vencido p && pendente p) ps)).
  { apply filter_In. split; [exact Hp|].
    unfold vencido, pendente. rewrite Hprazo, Hst.
    apply andb_true_iff. split; [|reflexivity].
    apply Z.ltb_lt. unfold DATE.
    pose proof (Z.div_mod agora 86400). lia. }
  destruct (filter (fun p => vencido p && pendente p) ps); [destruct Hin|].
  cbn [List.length]. lia.
Qed.

Lemma dashboard_metricas_conta_witness :
  let d1 :=
    snd (ProtocolosCRUD.criar 2025 5 "Ofício 1" None None 3 (Some 4) None
           None (Some 2) db_exemplo) in
  exists total pendentes n_solicitantes vencidos : Z,
    dashboard_metricas (4 * 86400 + 1) d1
    = (Ok (total, pendentes, n_solicitantes, vencidos), d1)
    /\ 0 < vencidos.
Proof.
  intros d1.
  destruct (dashboard_metricas_conta (4 * 86400 + 1) d1)
    as (t & p & n & v & E & _ & _ & _ & _ & _ & _ & H).
  exists t, p, n, v. split; [exact E|].
  apply (H (mk_protocolo 1 "PROT-2025-0001" "Ofício 1" None None "Pendente"
              3 (Some 4) None None (Some 2) 5)).
  - cbn. left. reflexivity.
  - reflexivity.
  - reflexivity.
  - reflexivity.
Defined.

(** ** The dictionary of the edit page *)

(** X25. The edit page of a requester reads the tuple of
    [buscar_por_id] with a layout the table does not have: the entry
    [criado_por] of its dictionary is the time of registration
    ([data_cadastro], the sixth column), whoever created the row, and
    the entries [data_criacao] and [data_atualizacao] are always
    [None].  The first five entries are the id, the name, the e-mail,
    the telephone and the department. *)
Theorem solicitante_dict_criado_por_e_data_cadastro :
  forall (id : Z) (d : db) (r : solicitante_row),
    selecionar_por_id s_id id (solicitantes d) = Some r ->
    exists solicitante_raw : list pyval,
      fst (SolicitantesCRUD.buscar_por_id id d) = Ok (Some solicitante_raw)
      /\ solicitante_dict solicitante_raw
         = Ok [ (KStr "id", PInt id); (KStr "nome", PStr (s_nome r));
                (KStr "email", py_opt_str (s_email r));
                (KStr "telefone", py_opt_str (s_telefone r));
                (KStr "departamento", py_opt_str (s_departamento r));
                (KStr "criado_por", PInt (s_data_cadastro r));
                (KStr "data_criacao", PNone);
                (KStr "data_atualizacao", PNone) ].
Proof.
  intros id d r Hsel.
  destruct (selecionar_in s_id _ _ _ Hsel) as [_ Hid].
  eexists. split.
  - unfold SolicitantesCRUD.buscar_por_id. run_m. rewrite Hsel. reflexivity.
  - unfold solicitante_dict, tuple_solicitante. cbn. now rewrite Hid.
Qed.

Lemma solicitante_dict_criado_por_e_data_cadastro_witness :
  let d1 :=
    snd (SolicitantesCRUD.criar 777 "Rui" None None (Some "RH") (Some 1)
           db_exemplo) in
  exists solicitante_raw : list pyval,
    fst (SolicitantesCRUD.buscar_por_id 1 d1) = Ok (Some solicitante_raw)
    /\ dict_get (KStr "criado_por")
         match solicitante_dict solicitante_raw with
         | Ok dic => dic
         | Raise _ => []
         end
       = Some (PInt 777).
Proof.
  intros d1.
  destruct (solicitante_dict_criado_por_e_data_cadastro 1 d1
              (mk_solicitante 1 "Rui" None None (Some "RH") 777) eq_refl)
    as (t & Ht & Hd).
  exists t. split; [exact Ht|]. now rewrite Hd.
Defined.

(** ** Reading a payload back through any query *)

(** C6, amended. A mapping whose keys, at every depth, are strings (and
    whose values are [None], booleans, integers, strings, lists and such
    mappings), handed to [registrar_log] as [detalhes], is stored as its
    JSON text.  Whatever the filters and the limit of a later
    [buscar_logs], the new row, whenever it is among the rows returned,
    has [detalhes] that [json.loads] decodes to the mapping that was
    written.  The new row is among the rows returned by every unfiltered
    query whose limit leaves no row out, and by every query whose
    filters it passes and whose limit is at least one when it is newer
    than every row that was in the log. *)
Theorem detalhes_ida_e_volta :
  forall (agora : Z) (usuario_id : option Z) (acao tabela_afetada : string)
         (registro_id : option Z) (dd : pydict) (status : string)
         (ip_address user_agent : option string) (d : db),
    str_keys (PDict dd) = true ->
    py_wf (PDict dd) = true ->
    let d' :=
      snd (registrar_log agora usuario_id acao tabela_afetada registro_id
             (DDict dd) status ip_address user_agent d) in
    let k := proximo_id l_id (logs_usuario d) in
    (forall (filtro_usuario : option Z)
            (filtro_tabela filtro_acao : option string)
            (data_inicio data_fim : option Z) (limite : Z)
            (rows : list (log_row * option string)) (l : log_row)
            (nome : option string),
        fst (buscar_logs filtro_usuario filtro_tabela filtro_acao
               data_inicio data_fim limite d') = Ok rows ->
        In (l, nome) rows ->
        l_id l = k ->
        exists texto : string,
          l_detalhes l = Some texto /\ json_loads texto = Some (PDict dd))
    /\ (forall limite : Z,
          limite < 0
          \/ Z.of_nat (List.length (linhas (logs_usuario d'))) <= limite ->
          ler_detalhes limite k d' = Some (PDict dd))
    /\ (forall (filtro_usuario : option Z)
               (filtro_tabela filtro_acao : option string)
               (data_inicio data_fim : option Z) (limite : Z),
          (forall u, filtro_usuario = Some u -> u <> 0 ->
                     usuario_id = Some u) ->
          (forall t, filtro_tabela = Some t -> t <> "" ->
                     tabela_afetada = t) ->
          (forall a, filtro_acao = Some a -> a <> "" -> acao = a) ->
          (forall i, data_inicio = Some i -> i <= DATE agora) ->
          (forall f, data_fim = Some f -> DATE agora <= f) ->
          (forall x, In x (linhas (logs_usuario d)) ->
                     l_timestamp x < agora) ->
          limite < 0 \/ 1 <= limite ->
          exists (rows : list (log_row * option string)) (l : log_row)
                 (nome : option string) (texto : string),
            fst (buscar_logs filtro_usuario filtro_tabela filtro_acao
                   data_inicio data_fim limite d') = Ok rows
            /\ In (l, nome) rows
            /\ l_id l = k
            /\ l_detalhes l = Some texto
            /\ json_loads texto = Some (PDict dd)).
Proof.
  intros agora usuario_id acao tabela_afetada registro_id dd status
    ip_address user_agent d Hk Hw d' k.
  set (novo := mk_log k usuario_id acao tabela_afetada registro_id
                 (Some (json_dumps (PDict dd))) ip_address user_agent agora
                 status).
  assert (Hrows : linhas (logs_usuario d')
                  = (linhas (logs_usuario d) ++ [novo])%list) by reflexivity.
  assert (Hnovo : forall l, In l (linhas (logs_usuario d')) -> l_id l = k ->
                            l = novo).
  { intros l Hl Hid. rewrite Hrows in Hl. apply in_app_or in Hl.
    destruct Hl as [Hl | [<- | []]]; [|reflexivity].
    pose proof (proximo_id_fresco l_id _ _ Hl). subst k. lia. }
  set (le := fun a b : log_row => l_timestamp b <=? l_timestamp a).
  assert (Hquery : forall fu ft fa di df limite,
             exists resto,
               fst (buscar_logs fu ft fa di df limite d')
               = Ok (map (fun l => (l, nome_usuario d' (l_usuario_id l)))
                       (limitar limite
                          (ordenar le
                             (filter (filtro_logs fu ft fa di df)
                                (linhas (logs_usuario d'))))))
               /\ ordenar le (filter (filtro_logs fu ft fa di df)
                                (linhas (logs_usuario d')))
                  = (limitar limite
                       (ordenar le
                          (filter (filtro_logs fu ft fa di df)
                             (linhas (logs_usuario d')))) ++ resto)%list
               /\ (resto <> [] ->
                   Z.of_nat
                     (List.length
                        (limitar limite
                           (ordenar le
                              (filter (filtro_logs fu ft fa di df)
                                 (linhas (logs_usuario d'))))))
                   = limite)).
  { intros fu ft fa di df limite.
    destruct (limitar_spec limite
                (ordenar le (filter (filtro_logs fu ft fa di df)
                               (linhas (logs_usuario d')))))
      as (resto & E & _ & Hfull).
    exists resto. split; [reflexivity | split; [exact E | exact Hfull]]. }
  assert (Hord : forall fu ft fa di df l,
             In l (ordenar le (filter (filtro_logs fu ft fa di df)
                                 (linhas (logs_usuario d'))))
             <-> In l (linhas (logs_usuario d'))
                 /\ filtro_logs fu ft fa di df l = true).
  { intros fu ft fa di df l. rewrite <- filter_In.
    split; apply Permutation_in;
      [apply ordenar_perm | apply Permutation_sym, ordenar_perm]. }
  split; [|split].
  - intros fu ft fa di df limite rows l nome Hq Hin Hid.
    destruct (Hquery fu ft fa di df limite) as (resto & Eq & Eo & _).
    rewrite Eq in Hq. injection Hq as <-.
    apply in_map_iff in Hin. destruct Hin as (x & Ex & Hx).
    injection Ex as <- <-.
    assert (Hx' : In x (linhas (logs_usuario d'))).
    { apply (Hord fu ft fa di df). rewrite Eo. apply in_or_app. now left. }
    rewrite (Hnovo x Hx' Hid). cbn [novo l_detalhes].
    eexists. split; [reflexivity|]. now apply json_loads_dumps.
  - intros limite Hlim.
    destruct (buscar_logs_linha_nova agora usuario_id acao tabela_afetada
                registro_id (DDict dd) status ip_address user_agent d
                limite Hlim) as (rows & nome & Hq & Hfind).
    unfold ler_detalhes. fold d' k in Hq, Hfind. rewrite Hq, Hfind.
    cbn [l_detalhes detalhes_texto]. now apply json_loads_dumps.
  - intros fu ft fa di df limite H1 H2 H3 H4 H5 Hnewer Hlim.
    destruct (Hquery fu ft fa di df limite) as (resto & Eq & Eo & Hfull).
    assert (Hpassa : filtro_logs fu ft fa di df novo = true).
    { apply filtro_logs_spec. cbn [novo l_usuario_id l_tabela_afetada
        l_acao l_timestamp]. tauto. }
    assert (Hin : In novo (ordenar le (filter (filtro_logs fu ft fa di df)
                                         (linhas (logs_usuario d'))))).
    { apply Hord. split; [|exact Hpassa].
      rewrite Hrows. apply in_or_app. right. now left. }
    assert (Hprimeiros : In novo
              (limitar limite
                 (ordenar le (filter (filtro_logs fu ft fa di df)
                                (linhas (logs_usuario d')))))).
    { pose proof (ordenar_sorted le) as Hsort.
      assert (Hs : StronglySorted (fun a b => le a b = true)
                     (ordenar le (filter (filtro_logs fu ft fa di df)
                                    (linhas (logs_usuario d'))))).
      { apply Hsort.
        - intros a b H. unfold le in *. apply Z.leb_gt in H.
          apply Z.leb_le. lia.
        - intros a b c Ha Hb. unfold le in *.
          apply Z.leb_le in Ha, Hb. apply Z.leb_le. lia. }
      rewrite Eo in Hin, Hs.
      apply in_app_or in Hin. destruct Hin as [Hin | Hin]; [exact Hin|].
      apply sorted_app_entre in Hs. destruct Hs as [_ Hentre].
      assert (Hne : resto <> []) by (intros E; rewrite E in Hin; exact Hin).
      specialize (Hfull Hne).
      destruct (limitar limite
                  (ordenar le (filter (filtro_logs fu ft fa di df)
                                 (linhas (logs_usuario d')))))
        as [|a prim] eqn:Ep.
      { cbn in Hfull. lia. }
      assert (Ha : In a (linhas (logs_usuario d'))).
      { apply (Hord fu ft fa di df). rewrite Eo. now left. }
      rewrite Hrows in Ha. apply in_app_or in Ha.
      destruct Ha as [Ha | [<- | []]]; [|now left].
      exfalso. specialize (Hnewer a Ha).
      specialize (Hentre a novo (or_introl eq_refl) Hin).
      unfold le in Hentre. apply Z.leb_le in Hentre.
      cbn [novo l_timestamp] in Hentre. lia. }
    exists (map (fun l => (l, nome_usuario d' (l_usuario_id l)))
              (limitar limite
                 (ordenar le (filter (filtro_logs fu ft fa di df)
                                (linhas (logs_usuario d')))))),
           novo, (nome_usuario d' usuario_id), (json_dumps (PDict dd)).
    split; [exact Eq|]. split.
    + apply (in_map (fun l => (l, nome_usuario d' (l_usuario_id l)))
               _ novo Hprimeiros).
    + split; [reflexivity|]. split; [reflexivity|].
      now apply json_loads_dumps.
Qed.

(** The amended C6 on the payload of a requester update, written to the
    empty database: read with the default limit of 100, and found by the
    filtered query of the log page with its limit of 200. *)
Lemma detalhes_ida_e_volta_witness :
  let dd :=
    [ (KStr "campos_alterados",
       PDict [ (KStr "nome",
                PDict [ (KStr "antes", PStr "Ana");
                        (KStr "depois", PStr "Ana Lima") ]);
               (KStr "ativo",
                PDict [ (KStr "antes", PInt 1);
                        (KStr "depois", PBool false) ]) ]) ] in
  let d' :=
    snd (registrar_log 50 (Some 1) "ATUALIZAR" "solicitantes" (Some 7)
           (DDict dd) "sucesso" None None db_vazio) in
  ler_detalhes 100 1 d' = Some (PDict dd)
  /\ exists rows l nome texto,
       fst (buscar_logs (Some 1) (Some "solicitantes") (Some "ATUALIZAR")
              (Some 0) (Some 0) 200 d') = Ok rows
       /\ In (l, nome) rows
       /\ l_id l = 1
       /\ l_detalhes l = Some texto
       /\ json_loads texto = Some (PDict dd).
Proof.
  intros dd d'.
  destruct (detalhes_ida_e_volta 50 (Some 1) "ATUALIZAR" "solicitantes"
              (Some 7) dd "sucesso" None None db_vazio eq_refl eq_refl)
    as (_ & H2 & H3).
  split.
  - apply (H2 100). right. cbn. lia.
  - apply (H3 (Some 1) (Some "solicitantes") (Some "ATUALIZAR") (Some 0)
              (Some 0) 200).
    + intros u [= <-] _. reflexivity.
    + intros t [= <-] _. reflexivity.
    + intros a [= <-] _. reflexivity.
    + intros i [= <-]. unfold DATE. cbn. lia.
    + intros f [= <-]. unfold DATE. cbn. lia.
    + cbn. intros x [].
    + right. lia.
Defined.
